(** * Optimizer-state checkpointing of nanotron: a shallow embedding

    The development follows [src/nanotron/serialize/optimizer.py] and
    [src/nanotron/optim/inherit_from_other_optimizer.py].

    - Python dictionaries are association lists in insertion order (the
      source depends on iteration order and on the variable a finished
      [for] loop leaves bound).
    - Exceptions and in-place mutation are modelled by a small monad
      [py St A]: a computation takes the mutable store and gives back either
      an exception or a value, together with the store as it is at that
      moment (what was mutated before an exception stays mutated).
    - Tensors are flat buffers of opaque elements with a device.  Shapes are
      consulted only where the source consults them.  Element types (dtype)
      are not modelled. *)

From Stdlib Require Import List String Ascii Bool Arith ZArith Lia DecimalString DecimalNat Permutation.
Import ListNotations.
Local Open Scope string_scope.
Local Open Scope list_scope.
Local Open Scope nat_scope.

Set Implicit Arguments.

(* ------------------------------------------------------------------ *)
(** * Python values: exceptions, the store monad, dictionaries *)
(* ------------------------------------------------------------------ *)

Module Py.

Inductive exn : Type :=
| KeyError
| IndexError
| TypeError
| AttributeError
| RuntimeError
| UnboundLocalError
| StopIteration
| ZeroDivisionError
| FileNotFoundError
| JSONDecodeError
| NotImplementedError (msg : string)
| AssertionError (msg : string).

(** A Python computation over a mutable store [St]. *)
Definition py (St A : Type) : Type := St -> (exn + A) * St.

Definition ret {St A} (a : A) : py St A := fun s => (inr a, s).
Definition raise {St A} (e : exn) : py St A := fun s => (inl e, s).
Definition bind {St A B} (m : py St A) (k : A -> py St B) : py St B :=
  fun s => match m s with
           | (inl e, s') => (inl e, s')
           | (inr a, s') => k a s'
           end.
Definition get {St} : py St St := fun s => (inr s, s).
Definition put {St} (s : St) : py St unit := fun _ => (inr tt, s).
Definition modify {St} (f : St -> St) : py St unit := fun s => (inr tt, f s).

(** [d[k]] on a value that may be missing. *)
Definition lookup_or {St A} (e : exn) (o : option A) : py St A :=
  match o with Some a => ret a | None => raise e end.

Definition py_assert {St} (b : bool) (msg : string) : py St unit :=
  if b then ret tt else raise (AssertionError msg).

(** A pure fallible computation run inside the store monad. *)
Definition lift {St A} (r : exn + A) : py St A :=
  match r with inl e => raise e | inr a => ret a end.

Fixpoint for_each {St A} (l : list A) (body : A -> py St unit) : py St unit :=
  match l with
  | [] => ret tt
  | x :: l' => bind (body x) (fun _ => for_each l' body)
  end.

(** A loop that threads a local value through its iterations. *)
Fixpoint fold_m {St A B} (l : list A) (acc : B) (body : B -> A -> py St B) : py St B :=
  match l with
  | [] => ret acc
  | x :: l' => bind (body acc x) (fun acc' => fold_m l' acc' body)
  end.

End Py.
Import Py.

Declare Scope py_scope.
Delimit Scope py_scope with py.
Notation "x <- c ;; k" := (bind c (fun x => k))
  (at level 61, c at next level, right associativity) : py_scope.
Notation "c ;;; k" := (bind c (fun _ => k))
  (at level 61, right associativity) : py_scope.
Local Open Scope py_scope.

(** Keys of dictionaries: an equality test that computes. *)
Class Key (K : Type) : Type := key_eqb : K -> K -> bool.

#[export] Instance nat_Key : Key nat := Nat.eqb.
#[export] Instance string_Key : Key string := String.eqb.
#[export] Instance pair_Key {A B} `{Key A} `{Key B} : Key (A * B) :=
  fun a b => (key_eqb (fst a) (fst b) && key_eqb (snd a) (snd b))%bool.

Module Dict.
Section Dict.
Context {K V : Type} `{Key K}.

(** A [dict]: the items in insertion order, one item per key. *)
Definition dict : Type := list (K * V).

Fixpoint dict_get (d : dict) (k : K) : option V :=
  match d with
  | [] => None
  | (k', v) :: d' => if key_eqb k' k then Some v else dict_get d' k
  end.

(** [d[k] = v]: an existing key keeps its place, a new key goes last. *)
Fixpoint dict_set (d : dict) (k : K) (v : V) : dict :=
  match d with
  | [] => [(k, v)]
  | (k', v') :: d' =>
      if key_eqb k' k then (k', v) :: d' else (k', v') :: dict_set d' k v
  end.

Definition keys (d : dict) : list K := map fst d.
Definition values (d : dict) : list V := map snd d.
Definition dict_mem (d : dict) (k : K) : bool :=
  match dict_get d k with Some _ => true | None => false end.

(** The well-formed dictionaries: no key twice. *)
Definition dict_wf (d : dict) : Prop := NoDup (keys d).
End Dict.
Arguments dict : clear implicits.
End Dict.
Import Dict.

(* ------------------------------------------------------------------ *)
(** * Tensors *)
(* ------------------------------------------------------------------ *)

Inductive device : Type :=
| cpu
| cuda (index : nat)
| meta.

(** [device.type] *)
Definition device_type (d : device) : string :=
  match d with cpu => "cpu" | cuda _ => "cuda" | meta => "meta" end.

Record tensor : Type := { t_device : device; t_data : list Z }.

Definition numel (t : tensor) : nat := List.length (t_data t).

(** [tensor.to(device)] *)
Definition to (t : tensor) (d : device) : tensor :=
  {| t_device := d; t_data := t_data t |}.

(** [tensor.to(map_location)] where [map_location] may be [None]. *)
Definition to_opt (t : tensor) (d : option device) : tensor :=
  match d with Some d => to t d | None => t end.

(** [prod shape] *)
Definition shape_numel (shape : list nat) : nat := fold_right Nat.mul 1 shape.

(** [torch.zeros(shape).view(-1)] *)
Definition zeros (shape : list nat) : tensor :=
  {| t_device := cpu; t_data := repeat 0%Z (shape_numel shape) |}.

(** [t[a:b]] on a flat tensor, for non-negative bounds. *)
Definition slice (t : tensor) (a b : nat) : tensor :=
  {| t_device := t_device t; t_data := firstn (b - a) (skipn a (t_data t)) |}.

(** [t[a:b] = src] on a flat tensor: the selected window has
    [min b n - min a n] elements; [src] must have as many, or one element
    which is then broadcast; torch raises a RuntimeError otherwise. *)
Definition slice_assign (t : tensor) (a b : nat) (src : tensor) : exn + tensor :=
  let n := numel t in
  let start := Nat.min a n in
  let len := Nat.min b n - start in
  if numel src =? len then
    inr {| t_device := t_device t;
           t_data := firstn start (t_data t) ++ t_data src
                     ++ skipn (start + len) (t_data t) |}
  else
    match t_data src with
    | [x] => inr {| t_device := t_device t;
                    t_data := firstn start (t_data t) ++ repeat x len
                              ++ skipn (start + len) (t_data t) |}
    | _ => inl RuntimeError
    end.

(** [t.view(shape)]: the data stays, the element count must agree. *)
Definition view (t : tensor) (shape : list nat) : exn + tensor :=
  if shape_numel shape =? numel t then inr t else inl RuntimeError.

(** [t.flatten()] *)
Definition flatten (t : tensor) : tensor := t.

(* ------------------------------------------------------------------ *)
(** * Shard file names and glob patterns *)
(* ------------------------------------------------------------------ *)

Infix "+++" := String.append (right associativity, at level 60).

(** [str(n)] of a non-negative integer. *)
Definition str (n : nat) : string := NilZero.string_of_uint (Nat.to_uint n).

(** Modelled from the spec: [ObjectType.OPTIMIZER.value] of
    nanotron.serialize.utils, which is not under src; the spec names the
    shard files [optimizer_pp-...]. *)
Definition OPTIMIZER_value : string := "optimizer".

(** Modelled from the spec: [OPTIMIZER_CONFIG_FILE_NAME] of
    nanotron.constants, which is not under src; the spec names the manifest
    [optimizer/optimizer_config.json]. *)
Definition OPTIMIZER_CONFIG_FILE_NAME : string := "optimizer_config.json".

(** A topology is a pair (rank, size). *)
Definition get_optimizer_filename
    (tp_topology pp_topology : nat * nat)
    (dp_topology exp_topology : option (nat * nat))
    (is_zero : option bool) : exn + string :=
  match exp_topology with
  | None => inl (AssertionError "exp_topology is required")
  | Some (exp_rank, exp_size) =>
    match is_zero with
    | None => inl (AssertionError "is_zero is required")
    | Some is_zero =>
      let (pp_rank, pp_size) := pp_topology in
      let (tp_rank, tp_size) := tp_topology in
      if is_zero then
        match dp_topology with
        | None => inl TypeError
        | Some (dp_rank, dp_size) =>
          inr (OPTIMIZER_value +++ "_pp-" +++ str pp_rank +++ "-of-" +++ str pp_size
               +++ "_dp-" +++ str dp_rank +++ "-of-" +++ str dp_size
               +++ "_tp-" +++ str tp_rank +++ "-of-" +++ str tp_size
               +++ "_exp-" +++ str exp_rank +++ "-of-" +++ str exp_size +++ ".pt")
        end
      else
        inr (OPTIMIZER_value +++ "_pp-" +++ str pp_rank +++ "-of-" +++ str pp_size
             +++ "_tp-" +++ str tp_rank +++ "-of-" +++ str tp_size
             +++ "_exp-" +++ str exp_rank +++ "-of-" +++ str exp_size +++ ".pt")
    end
  end.

(** The pattern [load_optimizer] globs for the shards of a ZeRO checkpoint
    (lines 224 and 429), built from the sizes recorded in the manifest. *)
Definition zero_shard_pattern (ckp_pp_size ckp_dp_size ckp_tp_size ckpt_expert_parallel_size : nat)
  : string :=
  OPTIMIZER_value +++ "_pp-*-of-" +++ str ckp_pp_size
  +++ "_dp-*-of-" +++ str ckp_dp_size
  +++ "_tp-*-of-" +++ str ckp_tp_size
  +++ "_exp-*-of-" +++ str ckpt_expert_parallel_size +++ ".pt".

(** The pattern [load_optimizer] globs for the shards of a checkpoint that
    is not ZeRO (line 235). *)
Definition replicated_shard_pattern (ckp_pp_size ckp_tp_size : nat) : string :=
  OPTIMIZER_value +++ "_pp-*-of-" +++ str ckp_pp_size
  +++ "_tp-*-of-" +++ str ckp_tp_size +++ ".pt".

(** [fnmatch] as [Path.glob] applies it to one file name: [*] stands for any
    run of characters, [?] for one character, every other character for
    itself (the patterns above hold no bracket). *)
Fixpoint glob_match (pat s : list ascii) : bool :=
  match pat with
  | [] => match s with [] => true | _ :: _ => false end
  | c :: pat' =>
      if (c =? "*")%char then
        (fix star (s : list ascii) : bool :=
           glob_match pat' s
           || match s with [] => false | _ :: s' => star s' end) s
      else
        match s with
        | [] => false
        | d :: s' => ((c =? "?")%char || (c =? d)%char) && glob_match pat' s'
        end
  end.

Definition fnmatch (name pattern : string) : bool :=
  glob_match (list_ascii_of_string pattern) (list_ascii_of_string name).

(* ------------------------------------------------------------------ *)
(** * Optimizer state, optimizers and their classes *)
(* ------------------------------------------------------------------ *)

(** What [optimizer.state_dict()] returns and a shard file holds:
    [{"state": {index: {name: tensor}}, "names": {index: name},
      "gradient_accumulator": {name: tensor}}].  The keys ["names"] and
    ["gradient_accumulator"] may be missing.  [sd_state_default] tells a
    [defaultdict(dict)] from a plain [dict] under ["state"]. *)
Record state_dict : Type := {
  sd_state : dict nat (dict string tensor);
  sd_state_default : bool;
  sd_names : option (dict nat string);
  sd_gradient_accumulator : option (dict string tensor)
}.

(** Offsets of a flattened parameter per data-parallel rank,
    [{param_name: {dp_rank: (start, end)}}]. *)
Definition offsets_table : Type := dict string (dict nat (nat * nat)).

(** The classes the source tests for.  [torch_Optimizer] is
    [torch.optim.Optimizer]; [subclass name base] is any further class
    declared with that one base. *)
Inductive py_class : Type :=
| torch_Optimizer
| BaseOptimizer
| InheritFromOtherOptimizer
| ZeroDistributedOptimizer
| subclass (name : string) (base : py_class).

Fixpoint class_eqb (c d : py_class) : bool :=
  match c, d with
  | torch_Optimizer, torch_Optimizer => true
  | BaseOptimizer, BaseOptimizer => true
  | InheritFromOtherOptimizer, InheritFromOtherOptimizer => true
  | ZeroDistributedOptimizer, ZeroDistributedOptimizer => true
  | subclass n b, subclass n' b' => String.eqb n n' && class_eqb b b'
  | _, _ => false
  end.

(** A class followed by its bases.  [InheritFromOtherOptimizer] derives
    from [BaseOptimizer] (line 9 of inherit_from_other_optimizer.py).
    [ZeroDistributedOptimizer] is declared in nanotron.optim.zero, which is
    not under src; it is one of the wrappers the chain is walked for, so it
    derives from [InheritFromOtherOptimizer]. *)
Fixpoint mro (c : py_class) : list py_class :=
  match c with
  | torch_Optimizer => [torch_Optimizer]
  | BaseOptimizer => [BaseOptimizer]
  | InheritFromOtherOptimizer => [InheritFromOtherOptimizer; BaseOptimizer]
  | ZeroDistributedOptimizer =>
      [ZeroDistributedOptimizer; InheritFromOtherOptimizer; BaseOptimizer]
  | subclass n b => subclass n b :: mro b
  end.

Definition issubclass (c d : py_class) : bool := existsb (class_eqb d) (mro c).

(** [cls.__name__] *)
Definition class_name (c : py_class) : string :=
  match c with
  | torch_Optimizer => "Optimizer"
  | BaseOptimizer => "BaseOptimizer"
  | InheritFromOtherOptimizer => "InheritFromOtherOptimizer"
  | ZeroDistributedOptimizer => "ZeroDistributedOptimizer"
  | subclass n _ => n
  end.

(** Attributes the source reads on a [ZeroDistributedOptimizer]. *)
Record zero_attrs : Type := {
  param_name_to_dp_rank_offsets : option offsets_table;
  orig_param_shapes : dict string (list nat)
}.

(** An optimizer object.  A [Wrapper] is an instance of (a subclass of)
    [InheritFromOtherOptimizer]: it has the field [self.optimizer].  A
    [Leaf] is any other optimizer; it owns the state. *)
Inductive Optimizer : Type :=
| Leaf (cls : py_class) (state : state_dict)
| Wrapper (cls : py_class) (attrs : zero_attrs) (inner : Optimizer).

(** [type(o)] *)
Definition class_of (o : Optimizer) : py_class :=
  match o with Leaf c _ => c | Wrapper c _ _ => c end.

Definition isinstance (o : Optimizer) (cls : py_class) : bool :=
  issubclass (class_of o) cls.

(** [InheritFromOtherOptimizer.inherit_from] (lines 87-92).  The method
    is declared on [InheritFromOtherOptimizer] alone: on a [Leaf] the
    attribute lookup [optimizer.inherit_from] raises. *)
Fixpoint inherit_from (self : Optimizer) (cls : py_class) : exn + bool :=
  match self with
  | Leaf _ _ => inl AttributeError
  | Wrapper _ _ inner =>
      if isinstance self cls then inr true
      else if isinstance inner InheritFromOtherOptimizer
           then inherit_from inner cls
           else inr false
  end.

(** [InheritFromOtherOptimizer.state_dict] (lines 46-47). *)
Fixpoint optimizer_state_dict (self : Optimizer) : state_dict :=
  match self with
  | Leaf _ sd => sd
  | Wrapper _ _ inner => optimizer_state_dict inner
  end.

(** [InheritFromOtherOptimizer.load_state_dict] (lines 49-50): handed down
    to the wrapped optimizer, which takes the state. *)
Fixpoint load_state_dict (self : Optimizer) (sd : state_dict) : Optimizer :=
  match self with
  | Leaf c _ => Leaf c sd
  | Wrapper c a inner => Wrapper c a (load_state_dict inner sd)
  end.

Definition attrs_of (o : Optimizer) : option zero_attrs :=
  match o with Leaf _ _ => None | Wrapper _ a _ => Some a end.

(* ------------------------------------------------------------------ *)
(** * Process topology, manifest and files *)
(* ------------------------------------------------------------------ *)

(** What the source reads of a [ParallelContext]: the rank of the process
    in each group and the size of each group. *)
Record ParallelContext : Type := {
  tp_rank : nat; tp_size : nat;
  pp_rank : nat; pp_size : nat;
  dp_rank : nat; dp_size : nat;
  expert_rank : nat; expert_parallel_size : nat;
  world_rank : nat
}.

(** The manifest [optimizer_config.json].  The sizes, offsets and shapes are
    written as strings ([str(n)]) and read back with [int]; the embedding
    keeps the numbers. *)
Record optimizer_config : Type := {
  cfg_type : string;
  cfg_tp_size : nat;
  cfg_dp_size : nat;
  cfg_pp_size : nat;
  cfg_expert_parallel_size : nat;
  cfg_param_name_to_dp_rank_offsets : option offsets_table;
  cfg_orig_param_shapes : option (dict string (list nat))
}.

Inductive file : Type :=
| EmptyFile
| ConfigFile (config : optimizer_config)
| ShardFile (sd : state_dict).

(** A file system: folders by path, each with its entries by name. *)
Definition filesystem : Type := dict string (dict string file).

(** [folder.mkdir(exist_ok=True, parents=True)] *)
Definition mkdir (folder : string) : py filesystem unit :=
  modify (fun fs : filesystem =>
            match dict_get fs folder with
            | Some _ => fs
            | None => dict_set fs folder ([] : dict string file)
            end).

(** Creating or overwriting [folder / name]. *)
Definition write_file (folder name : string) (f : file) : py filesystem unit :=
  fs <- get ;;
  entries <- lookup_or FileNotFoundError (dict_get fs folder) ;;
  put (dict_set fs folder (dict_set entries name f)).

Definition read_file (fs : filesystem) (folder name : string) : exn + file :=
  match dict_get fs folder with
  | None => inl FileNotFoundError
  | Some entries =>
      match dict_get entries name with
      | None => inl FileNotFoundError
      | Some f => inr f
      end
  end.

(** [list(folder.glob(pattern))]: the matching entries of the folder, here
    in the order of their creation (a directory listing has no specified
    order). *)
Definition glob (fs : filesystem) (folder pattern : string) : list (string * file) :=
  match dict_get fs folder with
  | None => []
  | Some entries => filter (fun e => fnmatch (fst e) pattern) entries
  end.

(* ------------------------------------------------------------------ *)
(** * save_optimizer *)
(* ------------------------------------------------------------------ *)

Definition save_optimizer (optimizer : Optimizer) (parallel_context : ParallelContext)
    (root_folder : string) : py filesystem unit :=
  is_zero <- lift (inherit_from optimizer ZeroDistributedOptimizer) ;;
  if negb is_zero && (0 <? dp_rank parallel_context)
  then ret tt
  else
    let root_folder := root_folder +++ "/optimizer" in
    mkdir root_folder ;;;
    (if world_rank parallel_context =? 0 then
       (* open(root_folder / OPTIMIZER_CONFIG_FILE_NAME, "w") *)
       write_file root_folder OPTIMIZER_CONFIG_FILE_NAME EmptyFile ;;;
       let config offsets shapes :=
         {| cfg_type := class_name (class_of optimizer);
            cfg_tp_size := tp_size parallel_context;
            cfg_dp_size := dp_size parallel_context;
            cfg_pp_size := pp_size parallel_context;
            cfg_expert_parallel_size := expert_parallel_size parallel_context;
            cfg_param_name_to_dp_rank_offsets := offsets;
            cfg_orig_param_shapes := shapes |} in
       config <-
         (if isinstance optimizer ZeroDistributedOptimizer then
            attrs <- lookup_or AttributeError (attrs_of optimizer) ;;
            match param_name_to_dp_rank_offsets attrs with
            | None => raise (AssertionError "param_name_to_dp_rank_offsets is required")
            | Some offsets => ret (config (Some offsets) (Some (orig_param_shapes attrs)))
            end
          else ret (config None None)) ;;
       (* json.dump(config, fo) *)
       write_file root_folder OPTIMIZER_CONFIG_FILE_NAME (ConfigFile config)
     else ret tt) ;;;
    let sd := optimizer_state_dict optimizer in
    is_zero <- lift (inherit_from optimizer ZeroDistributedOptimizer) ;;
    name <- lift (get_optimizer_filename
                    (tp_rank parallel_context, tp_size parallel_context)
                    (pp_rank parallel_context, pp_size parallel_context)
                    (Some (dp_rank parallel_context, dp_size parallel_context))
                    (Some (expert_rank parallel_context, expert_parallel_size parallel_context))
                    (Some is_zero)) ;;
    (* torch.save(optimizer.state_dict(), root_folder / name) *)
    write_file root_folder name (ShardFile sd).

(* ------------------------------------------------------------------ *)
(** * state_dict_to_device *)
(* ------------------------------------------------------------------ *)

Definition set_sd_state (sd : state_dict) (st : dict nat (dict string tensor)) : state_dict :=
  {| sd_state := st;
     sd_state_default := sd_state_default sd;
     sd_names := sd_names sd;
     sd_gradient_accumulator := sd_gradient_accumulator sd |}.

Definition set_sd_gradient_accumulator (sd : state_dict) (ga : dict string tensor)
  : state_dict :=
  {| sd_state := sd_state sd;
     sd_state_default := sd_state_default sd;
     sd_names := sd_names sd;
     sd_gradient_accumulator := Some ga |}.

(** [state_dict["state"][index]]: a [defaultdict] makes the missing entry. *)
Definition state_getitem (index : nat) : py state_dict (dict string tensor) :=
  sd <- get ;;
  match dict_get (sd_state sd) index with
  | Some optim_state => ret optim_state
  | None =>
      if sd_state_default sd
      then put (set_sd_state sd (dict_set (sd_state sd) index [])) ;;; ret []
      else raise KeyError
  end.

(** [state_dict["state"][index][name] = t] *)
Definition state_setitem (index : nat) (name : string) (t : tensor) : py state_dict unit :=
  optim_state <- state_getitem index ;;
  modify (fun sd => set_sd_state sd (dict_set (sd_state sd) index (dict_set optim_state name t))).

(** [state_dict["gradient_accumulator"][name] = t] *)
Definition gradient_accumulator_setitem (name : string) (t : tensor) : py state_dict unit :=
  sd <- get ;;
  ga <- lookup_or KeyError (sd_gradient_accumulator sd) ;;
  put (set_sd_gradient_accumulator sd (dict_set ga name t)).

(** [sorted(items, key=lambda x: x[0])] over integer keys. *)
Fixpoint insert_by_key {V} (x : nat * V) (l : list (nat * V)) : list (nat * V) :=
  match l with
  | [] => [x]
  | y :: l' => if fst x <? fst y then x :: y :: l' else y :: insert_by_key x l'
  end.

Definition sorted_by_key {V} (l : list (nat * V)) : list (nat * V) :=
  fold_left (fun acc x => insert_by_key x acc) l [].

Definition CPU_MESSAGE : string :=
  "Optimizer states should be on CPU to avoid extra memory usage when loading from checkpoint".
Definition GPU_MESSAGE : string :=
  "Optimizer states should be on GPU because model is on GPU".

(** The store is the dictionary [state_dict], which the function mutates. *)
Definition state_dict_to_device (device : device) : py state_dict unit :=
  optim_state0 <- state_getitem 0 ;;
  exp_avg <- lookup_or KeyError (dict_get optim_state0 "exp_avg") ;;
  py_assert (String.eqb (device_type (t_device exp_avg)) "cpu") CPU_MESSAGE ;;;
  sd <- get ;;
  for_each (sorted_by_key (sd_state sd)) (fun '(index, optim_state) =>
    for_each optim_state (fun '(name, tensor) =>
      state_setitem index name (to tensor device))) ;;;
  sd <- get ;;
  gradient_accumulator <- lookup_or KeyError (sd_gradient_accumulator sd) ;;
  for_each gradient_accumulator (fun '(name, tensor) =>
    gradient_accumulator_setitem name (to tensor device)) ;;;
  optim_state0 <- state_getitem 0 ;;
  exp_avg <- lookup_or KeyError (dict_get optim_state0 "exp_avg") ;;
  py_assert (String.eqb (device_type (t_device exp_avg)) "cuda") GPU_MESSAGE.

(* ------------------------------------------------------------------ *)
(** * Helpers of load_optimizer *)
(* ------------------------------------------------------------------ *)

Definition map_values {K A B} (f : A -> B) (d : dict K A) : dict K B :=
  map (fun kv => (fst kv, f (snd kv))) d.

(** [torch.load(path, map_location=map_location)] of a shard file. *)
Definition torch_load_file (f : file) (map_location : option device) : exn + state_dict :=
  match f with
  | ShardFile sd =>
      inr {| sd_state := map_values (map_values (fun t => to_opt t map_location)) (sd_state sd);
             sd_state_default := sd_state_default sd;
             sd_names := sd_names sd;
             sd_gradient_accumulator :=
               option_map (map_values (fun t => to_opt t map_location))
                          (sd_gradient_accumulator sd) |}
  | _ => inl RuntimeError
  end.

Definition torch_load (fs : filesystem) (folder name : string) (map_location : option device)
  : exn + state_dict :=
  match read_file fs folder name with
  | inl e => inl e
  | inr f => torch_load_file f map_location
  end.

Definition is_digit (c : ascii) : bool :=
  (48 <=? nat_of_ascii c) && (nat_of_ascii c <=? 57).

Fixpoint read_digits (s : list ascii) (acc : option nat) : option nat :=
  match s with
  | c :: s' =>
      if is_digit c
      then read_digits s' (Some (10 * match acc with Some a => a | None => 0 end
                                 + (nat_of_ascii c - 48)))
      else acc
  | [] => acc
  end.

Fixpoint strip_prefix (p s : list ascii) : option (list ascii) :=
  match p, s with
  | [], _ => Some s
  | c :: p', d :: s' => if (c =? d)%char then strip_prefix p' s' else None
  | _ :: _, [] => None
  end.

(** The number written after the first occurrence of [tag]. *)
Fixpoint rank_after (tag s : list ascii) : option nat :=
  match strip_prefix tag s with
  | Some rest => read_digits rest None
  | None => match s with [] => None | _ :: s' => rank_after tag s' end
  end.

(** Modelled from the spec: [extract_parallel_ranks_from_shard_path] of
    nanotron.optim.zero, which is not under src.  File names encode the
    rank coordinate as [_pp-<r>-of-<n>], [_dp-<r>-of-<n>], [_tp-<r>-of-<n>];
    the function reads the ranks back: (pp, dp, tp) for a ZeRO shard,
    (pp, tp) otherwise. *)
Definition extract_parallel_ranks_from_shard_path (shard_path : string) (is_zero1 : bool)
  : exn + (nat * option nat * nat) :=
  let s := list_ascii_of_string shard_path in
  match rank_after (list_ascii_of_string "_pp-") s,
        rank_after (list_ascii_of_string "_tp-") s with
  | Some pp, Some tp =>
      if is_zero1 then
        match rank_after (list_ascii_of_string "_dp-") s with
        | Some dp => inr (pp, Some dp, tp)
        | None => inl AttributeError
        end
      else inr (pp, None, tp)
  | _, _ => inl AttributeError
  end.

(** [get_key_by_value] (lines 411-412). *)
Definition get_key_by_value (d : dict nat string) (target_value : string) : option nat :=
  match filter (fun kv => String.eqb (snd kv) target_value) d with
  | (key, _) :: _ => Some key
  | [] => None
  end.

(** [s.replace("module.", "")]; [skip] counts the characters of an
    occurrence still to drop. *)
Fixpoint replace_module (skip : nat) (s : string) : string :=
  match s with
  | EmptyString => EmptyString
  | String c s' =>
      match skip with
      | S k => replace_module k s'
      | O => if String.prefix "module." s
             then replace_module 6 s'
             else String c (replace_module 0 s')
      end
  end.

(** Modelled from the spec: [find_optim_index_from_param_name] of
    nanotron.optim.zero, which is not under src, as called with
    [is_zero1=False]: the index under which the shards of pipeline rank
    [pp_rank] record the parameter in their ["names"] map, [None] when that
    pipeline rank does not contain the parameter. *)
Definition find_optim_index_from_param_name (param_name : string)
    (ckp_sharded_optim_states : dict (nat * nat) state_dict) (pp_rank : nat)
  : exn + option nat :=
  match dict_get ckp_sharded_optim_states (pp_rank, 0) with
  | None => inl KeyError
  | Some shard =>
      match sd_names shard with
      | None => inl KeyError
      | Some names => inr (get_key_by_value names (replace_module 0 param_name))
      end
  end.

(** Modelled from the spec: [get_sliced_tensor] of nanotron.optim.zero,
    which is not under src: the slice of the flat buffer at the offset range
    [start_offset, end_offset). *)
Definition get_sliced_tensor (param : tensor) (start_offset end_offset : nat) : tensor :=
  slice param start_offset end_offset.

(** [sorted] on strings. *)
Fixpoint insert_string (x : string) (l : list string) : list string :=
  match l with
  | [] => [x]
  | y :: l' => if String.ltb x y then x :: y :: l' else y :: insert_string x l'
  end.

Definition sorted_strings (l : list string) : list string :=
  fold_left (fun acc x => insert_string x acc) l [].

(** [d.keys() - ["step"]]; the set is given in the order of the keys (the
    source sorts it at line 250 and iterates it unsorted at lines 443-459). *)
Definition keys_without_step (d : dict string tensor) : list string :=
  filter (fun k => negb (String.eqb k "step")) (keys d).

(** [enumerate(l)] *)
Definition enumerate {A} (l : list A) : list (nat * A) := combine (seq 0 (List.length l)) l.

Definition device_eqb (a b : device) : bool :=
  match a, b with
  | cpu, cpu => true
  | cuda i, cuda j => i =? j
  | meta, meta => true
  | _, _ => false
  end.

(** [create_merged_optim_states] (lines 386-394). *)
Definition create_merged_optim_states (param_shapes : dict string (list nat))
    (map_location : option device) : dict string (dict string tensor) :=
  fold_left (fun merged_states '(name, p_shape) =>
               dict_set merged_states name
                 [("exp_avg", to_opt (zeros p_shape) map_location);
                  ("exp_avg_sq", to_opt (zeros p_shape) map_location)])
            param_shapes [].

(** [create_merged_gradients] (lines 396-401). *)
Definition create_merged_gradients (param_shapes : dict string (list nat))
    (map_location : option device) : dict string tensor :=
  fold_left (fun merged_grads '(name, p_shape) =>
               dict_set merged_grads name (to_opt (zeros p_shape) map_location))
            param_shapes [].

(** [load_sharded_states] (lines 403-409); [load_type] selects
    [checkpoint["state"]] or [checkpoint["gradient_accumulator"]]. *)
Definition load_sharded_states {A} (shard_paths : list (string * file))
    (map_location : option device) (load_type : state_dict -> exn + A)
  : exn + dict (nat * nat) A :=
  fold_left (fun acc '(shard_path, f) =>
    match acc with
    | inl e => inl e
    | inr sharded_states =>
        match extract_parallel_ranks_from_shard_path shard_path true with
        | inl e => inl e
        | inr (_, None, _) => inl TypeError
        | inr (pp_rank, Some dp_rank, tp_rank) =>
            match torch_load_file f map_location with
            | inl e => inl e
            | inr checkpoint =>
                match load_type checkpoint with
                | inl e => inl e
                | inr v => inr (dict_set sharded_states (tp_rank, dp_rank) v)
                end
            end
        end
    end) shard_paths (inr []).

Definition load_type_state (checkpoint : state_dict)
  : exn + dict nat (dict string tensor) := inr (sd_state checkpoint).

Definition load_type_gradient_accumulator (checkpoint : state_dict)
  : exn + dict string tensor :=
  match sd_gradient_accumulator checkpoint with
  | Some ga => inr ga
  | None => inl KeyError
  end.

(* ------------------------------------------------------------------ *)
(** * load_optimizer: the topology-agnostic path (lines 200-364) *)
(* ------------------------------------------------------------------ *)

Definition ZeroDistributedOptimizer_name : string := class_name ZeroDistributedOptimizer.

Section TopologyAgnostic.

(** Collaborators that are not under src: [TensorMetadata] of
    nanotron.serialize.metadata, the value of [param.get_sharded_info()],
    [torch.empty], [merge_and_shard_tp_tensors] of nanotron.serialize.utils
    (it writes into both buffers and returns the first; here it returns
    both as they are after the call) and
    [merge_dp_shard_in_zero1_optimizer] of nanotron.optim.zero. *)
Variable TensorMetadata : Type.
Variable ShardedInfo : Type.
Variable unsharded_shape : ShardedInfo -> list nat.
Variable torch_empty : list nat -> option device -> tensor.
Variable merge_and_shard_tp_tensors :
  tensor -> tensor -> tensor -> TensorMetadata -> ShardedInfo -> exn + (tensor * tensor).

(** What the source reads of a [NanotronParameter]: [is_tied] holds when
    [get_tied_info()] is there, [is_sharded] when [get_sharded_info()] is. *)
Record NanotronParameter : Type := {
  p_shape : list nat;
  p_device : device;
  tied_info_name : option string;
  sharded_info : option ShardedInfo
}.

Inductive parameter : Type :=
| nanotron_parameter (p : NanotronParameter)
| torch_parameter.

(** What the source reads of the model: the keys of [model.state_dict()]
    in order, and [model.get_parameter]. *)
Record Model : Type := {
  state_dict_keys : list string;
  get_parameter : dict string parameter
}.

Variable merge_dp_shard_in_zero1_optimizer :
  Model -> optimizer_config -> list (string * file) -> ParallelContext -> option device ->
  exn + dict (nat * nat) state_dict.

(** The variables of the path that the parameter loop mutates, among them
    the loop variables that lines 349-359 read after their loops. *)
Record tp_locals : Type := {
  new_state : dict nat (dict string tensor);
  new_optim_state_param_names : dict nat string;
  state_key : option string;
  ckp_optim_state : option state_dict;
  old_optim_state_index : option (option nat)
}.

Definition set_new_state st (L : tp_locals) : tp_locals :=
  {| new_state := st;
     new_optim_state_param_names := new_optim_state_param_names L;
     state_key := state_key L;
     ckp_optim_state := ckp_optim_state L;
     old_optim_state_index := old_optim_state_index L |}.
Definition set_names names (L : tp_locals) : tp_locals :=
  {| new_state := new_state L;
     new_optim_state_param_names := names;
     state_key := state_key L;
     ckp_optim_state := ckp_optim_state L;
     old_optim_state_index := old_optim_state_index L |}.
Definition set_state_key k (L : tp_locals) : tp_locals :=
  {| new_state := new_state L;
     new_optim_state_param_names := new_optim_state_param_names L;
     state_key := Some k;
     ckp_optim_state := ckp_optim_state L;
     old_optim_state_index := old_optim_state_index L |}.
Definition set_ckp_optim_state c (L : tp_locals) : tp_locals :=
  {| new_state := new_state L;
     new_optim_state_param_names := new_optim_state_param_names L;
     state_key := state_key L;
     ckp_optim_state := Some c;
     old_optim_state_index := old_optim_state_index L |}.
Definition set_old_optim_state_index i (L : tp_locals) : tp_locals :=
  {| new_state := new_state L;
     new_optim_state_param_names := new_optim_state_param_names L;
     state_key := state_key L;
     ckp_optim_state := ckp_optim_state L;
     old_optim_state_index := Some i |}.

(** [new_optim_state_dict["state"][param_index]] on the [defaultdict]. *)
Definition new_state_getitem (param_index : nat) : py tp_locals (dict string tensor) :=
  L <- get ;;
  match dict_get (new_state L) param_index with
  | Some e => ret e
  | None => put (set_new_state (dict_set (new_state L) param_index []) L) ;;; ret []
  end.

(** [new_optim_state_dict["state"][param_index][key] = t] *)
Definition new_state_setitem (param_index : nat) (key : string) (t : tensor)
  : py tp_locals unit :=
  e <- new_state_getitem param_index ;;
  modify (fun L => set_new_state (dict_set (new_state L) param_index (dict_set e key t)) L).

Variable ckp_optimizer_config : optimizer_config.
Variable map_location : option device.
Variable param_shard_metadata : dict string (dict (nat * nat) TensorMetadata).
Variable ckp_sharded_optim_states : dict (nat * nat) state_dict.
Variable OPTIMIZER_STATE_NAMES : list string.

Definition ckp_optim_type : string := cfg_type ckp_optimizer_config.

(** The head of both shard loops (lines 301-306 and 336-341): the loop
    variable is bound and the index of the parameter looked up. *)
Definition visit_shard (base_name : string) (pp_rank : nat) (ckp : state_dict)
  : py tp_locals (option nat) :=
  modify (set_ckp_optim_state ckp) ;;;
  index <- lift (find_optim_index_from_param_name base_name ckp_sharded_optim_states pp_rank) ;;
  modify (set_old_optim_state_index index) ;;;
  ret index.

(** Lines 288-333: a sharded parameter. *)
Definition restore_sharded (param : NanotronParameter) (new_shard_metadata : ShardedInfo)
    (param_index : nat) (param_name base_name : string) : py tp_locals unit :=
  let new_unshared_shape := unsharded_shape new_shard_metadata in
  for_each OPTIMIZER_STATE_NAMES (fun key =>
    modify (set_state_key key) ;;;
    let buffer :=
      to_opt {| t_device := p_device param; t_data := t_data (zeros (p_shape param)) |}
             map_location in
    let unsharded_buffer := torch_empty new_unshared_shape map_location in
    fold_m ckp_sharded_optim_states (buffer, unsharded_buffer)
      (fun buffers '((pp_rank, tp_rank), ckp) =>
         index <- visit_shard base_name pp_rank ckp ;;
         match index with
         | None => ret buffers
         | Some i =>
             entry <- lookup_or KeyError (dict_get (sd_state ckp) i) ;;
             ckp_shard_data <- lookup_or KeyError (dict_get entry key) ;;
             metadata <- lookup_or KeyError
                           (dict_get param_shard_metadata (replace_module 0 param_name)) ;;
             metadata_pp_rank <-
               match tied_info_name param with
               | Some _ =>
                   match metadata with
                   | [] => raise StopIteration
                   | ((pp, _), _) :: _ => ret pp
                   end
               | None => ret pp_rank
               end ;;
             ckp_shard_metadata <- lookup_or KeyError
                                     (dict_get metadata (metadata_pp_rank, tp_rank)) ;;
             ckp_shard_data <-
               (if String.eqb ckp_optim_type ZeroDistributedOptimizer_name then
                  shapes <- lookup_or KeyError (cfg_orig_param_shapes ckp_optimizer_config) ;;
                  orig_shape <- lookup_or KeyError (dict_get shapes param_name) ;;
                  lift (view ckp_shard_data orig_shape)
                else ret ckp_shard_data) ;;
             merged <- lift (merge_and_shard_tp_tensors (fst buffers) (snd buffers)
                               ckp_shard_data ckp_shard_metadata new_shard_metadata) ;;
             new_state_setitem param_index key (fst merged) ;;;
             ret merged
         end) ;;;
    ret tt).

(** Lines 335-347: a parameter that is not sharded. *)
Definition restore_replicated (param_index : nat) (base_name : string)
  : py tp_locals unit :=
  for_each ckp_sharded_optim_states (fun '((pp_rank, tp_rank), ckp) =>
    index <- visit_shard base_name pp_rank ckp ;;
    match index with
    | None => ret tt
    | Some i =>
        for_each OPTIMIZER_STATE_NAMES (fun key =>
          modify (set_state_key key) ;;;
          entry <- lookup_or KeyError (dict_get (sd_state ckp) i) ;;
          value <- lookup_or KeyError (dict_get entry key) ;;
          new_state_setitem param_index key value)
    end).

(** Lines 349-353: the state named by what [state_key] is bound to. *)
Definition flatten_last_state (param_index : nat) : py tp_locals unit :=
  if String.eqb ckp_optim_type ZeroDistributedOptimizer_name then
    L <- get ;;
    key <- lookup_or UnboundLocalError (state_key L) ;;
    entry <- new_state_getitem param_index ;;
    value <- lookup_or KeyError (dict_get entry key) ;;
    new_state_setitem param_index key (flatten value)
  else ret tt.

(** Lines 355-359: the step, read from the shard and the index the
    variables [ckp_optim_state] and [old_optim_state_index] are bound to
    when the shard loop is over. *)
Definition restore_step (param_index : nat) : py tp_locals unit :=
  L <- get ;;
  ckp <- lookup_or UnboundLocalError (ckp_optim_state L) ;;
  index <- lookup_or UnboundLocalError (old_optim_state_index L) ;;
  i <- lookup_or KeyError index ;;
  entry <- lookup_or KeyError (dict_get (sd_state ckp) i) ;;
  match dict_get entry "step" with
  | Some step => new_state_setitem param_index "step" step
  | None => ret tt
  end.

(** Lines 264-359: the body of the loop over the parameters. *)
Definition restore_parameter (model : Model) (param_index : nat) (param_name : string)
  : py tp_locals unit :=
  match dict_get (get_parameter model) param_name with
  | Some (nanotron_parameter param) =>
      let base_name :=
        match tied_info_name param with Some name => name | None => param_name end in
      L <- get ;;
      if negb (String.eqb param_name base_name)
         && existsb (String.eqb base_name) (values (new_optim_state_param_names L))
      then ret tt
      else
        modify (fun L => set_names
                  (dict_set (new_optim_state_param_names L) param_index base_name) L) ;;;
        match sharded_info param with
        | Some new_shard_metadata =>
            restore_sharded param new_shard_metadata param_index param_name base_name
        | None => restore_replicated param_index base_name
        end ;;;
        flatten_last_state param_index ;;;
        restore_step param_index
  | _ => raise (NotImplementedError "Parameters are required to be NanotronParameter")
  end.

(** Lines 259-359: the loop over the parameters of the model. *)
Definition restore_all (model : Model) : py tp_locals unit :=
  for_each (enumerate (state_dict_keys model))
           (fun '(param_index, param_name) => restore_parameter model param_index param_name).

End TopologyAgnostic.

(* ------------------------------------------------------------------ *)
(** * load_optimizer: resharding a ZeRO-1 state (lines 426-485) *)
(* ------------------------------------------------------------------ *)

(** The local variables of [load_optimizer] that the block mutates:
    [state_dict], and [dp_rank], the variable of the loops over the
    checkpoint's offsets, which [apply_offsets] and line 481 read. *)
Record locals : Type := {
  state_dict_var : option state_dict;
  dp_rank_var : option nat
}.

Definition set_dp_rank_var (r : nat) (L : locals) : locals :=
  {| state_dict_var := state_dict_var L; dp_rank_var := Some r |}.

(** A mutation of the dictionary the variable [state_dict] is bound to. *)
Definition on_state_dict {A} (m : py state_dict A) : py locals A :=
  fun L =>
    match state_dict_var L with
    | None => (inl UnboundLocalError, L)
    | Some sd =>
        let (r, sd') := m sd in
        (r, {| state_dict_var := Some sd'; dp_rank_var := dp_rank_var L |})
    end.

Definition read_state_dict : py locals state_dict := on_state_dict get.

Definition read_dp_rank : py locals nat :=
  L <- get ;; lookup_or UnboundLocalError (dp_rank_var L).

(** [apply_offsets] with [state_keys] (lines 415-420).  With no key the
    source takes its other branch, whose right-hand side looks the name of
    the parameter up among integer indices: a KeyError. *)
Definition apply_offsets_state_keys
    (merged_tensor : dict string (dict string tensor))
    (sharded_states : dict (nat * nat) (dict nat (dict string tensor)))
    (param_name : string) (offsets : nat * nat) (tp_rank : nat)
    (state_keys : list string) : py locals (dict string (dict string tensor)) :=
  match state_keys with
  | [] => raise KeyError
  | _ =>
    fold_m state_keys merged_tensor (fun merged_tensor key =>
      sd <- read_state_dict ;;
      names <- lookup_or KeyError (sd_names sd) ;;
      let p_idx := get_key_by_value names param_name in
      dp_rank <- read_dp_rank ;;
      shard <- lookup_or KeyError (dict_get sharded_states (tp_rank, dp_rank)) ;;
      i <- lookup_or KeyError p_idx ;;
      entry <- lookup_or KeyError (dict_get shard i) ;;
      src <- lookup_or KeyError (dict_get entry key) ;;
      merged <- lookup_or KeyError (dict_get merged_tensor param_name) ;;
      dst <- lookup_or KeyError (dict_get merged key) ;;
      dst' <- lift (slice_assign dst (fst offsets) (snd offsets) src) ;;
      ret (dict_set merged_tensor param_name (dict_set merged key dst')))
  end.

(** [apply_offsets] without [state_keys] (lines 421-424). *)
Definition apply_offsets_plain
    (merged_tensor : dict string tensor)
    (sharded_states : dict (nat * nat) (dict string tensor))
    (param_name : string) (offsets : nat * nat) (tp_rank : nat)
  : py locals (dict string tensor) :=
  dp_rank <- read_dp_rank ;;
  shard <- lookup_or KeyError (dict_get sharded_states (tp_rank, dp_rank)) ;;
  src <- lookup_or KeyError (dict_get shard param_name) ;;
  dst <- lookup_or KeyError (dict_get merged_tensor param_name) ;;
  dst' <- lift (slice_assign dst (fst offsets) (snd offsets) src) ;;
  ret (dict_set merged_tensor param_name dst').

(** Lines 450-454: every saved range is copied into the merged states. *)
Definition merge_optim_states (ckp_offsets : offsets_table)
    (ckp_sharded_optim_states : dict (nat * nat) (dict nat (dict string tensor)))
    (tp_rank : nat) (OPTIMIZER_STATE_NAMES : list string)
    (merged_optim_states : dict string (dict string tensor))
  : py locals (dict string (dict string tensor)) :=
  fold_m ckp_offsets merged_optim_states (fun merged '(p_name, offsets) =>
    fold_m offsets merged (fun merged '(dp_rank, offset) =>
      modify (set_dp_rank_var dp_rank) ;;;
      apply_offsets_state_keys merged ckp_sharded_optim_states p_name offset tp_rank
                               OPTIMIZER_STATE_NAMES)).

(** Lines 475-477: the same for the gradient accumulator. *)
Definition merge_grad_accumulator (ckp_offsets : offsets_table)
    (ckp_sharded_grad_accum : dict (nat * nat) (dict string tensor))
    (tp_rank : nat) (merged_grad_accumulator : dict string tensor)
  : py locals (dict string tensor) :=
  fold_m ckp_offsets merged_grad_accumulator (fun merged '(p_name, offsets) =>
    fold_m offsets merged (fun merged '(dp_rank, offset) =>
      modify (set_dp_rank_var dp_rank) ;;;
      apply_offsets_plain merged ckp_sharded_grad_accum p_name offset tp_rank)).

(** [optimizer.param_name_to_dp_rank_offsets[param_name][rank]] *)
Definition current_offsets_of (optimizer : Optimizer) (param_name : string) (rank : nat)
  : py locals (nat * nat) :=
  attrs <- lookup_or AttributeError (attrs_of optimizer) ;;
  table <- lookup_or TypeError (param_name_to_dp_rank_offsets attrs) ;;
  offsets <- lookup_or KeyError (dict_get table param_name) ;;
  lookup_or KeyError (dict_get offsets rank).

(** Lines 456-467: the states of [state_dict] are replaced by slices of the
    merged states. *)
Definition update_state_slices (optimizer : Optimizer) (current_dp_rank : nat)
    (OPTIMIZER_STATE_NAMES : list string)
    (merged_optim_states : dict string (dict string tensor)) : py locals unit :=
  sd <- read_state_dict ;;
  for_each (keys (sd_state sd)) (fun param_index =>
    sd <- read_state_dict ;;
    names <- lookup_or KeyError (sd_names sd) ;;
    param_name <-
      match filter (fun kv => fst kv =? param_index) names with
      | (_, name) :: _ => ret name
      | [] => raise IndexError
      end ;;
    for_each OPTIMIZER_STATE_NAMES (fun state_name =>
      current_offsets <- current_offsets_of optimizer param_name current_dp_rank ;;
      merged <- lookup_or KeyError (dict_get merged_optim_states param_name) ;;
      param <- lookup_or KeyError (dict_get merged state_name) ;;
      let sliced_tensor :=
        get_sliced_tensor param (fst current_offsets) (snd current_offsets) in
      py_assert (0 <? numel sliced_tensor) "" ;;;
      on_state_dict (state_setitem param_index state_name sliced_tensor))).

(** Lines 479-485: the gradient accumulator of [state_dict] is replaced by
    slices of the merged one, at the offsets of rank [int(dp_rank)]. *)
Definition update_gradient_accumulator (optimizer : Optimizer)
    (merged_grad_accumulator : dict string tensor) : py locals unit :=
  sd <- read_state_dict ;;
  gradient_accumulator <- lookup_or KeyError (sd_gradient_accumulator sd) ;;
  for_each (keys gradient_accumulator) (fun p_name =>
    dp_rank <- read_dp_rank ;;
    new_offset <- current_offsets_of optimizer p_name dp_rank ;;
    sd <- read_state_dict ;;
    gradient_accumulator <- lookup_or KeyError (sd_gradient_accumulator sd) ;;
    grad <- lookup_or KeyError (dict_get gradient_accumulator p_name) ;;
    merged <- lookup_or KeyError (dict_get merged_grad_accumulator p_name) ;;
    py_assert (device_eqb (t_device grad) (t_device merged)) "" ;;;
    on_state_dict (gradient_accumulator_setitem p_name
                     (slice merged (fst new_offset) (snd new_offset)))).

Definition TP_CHANGE_MESSAGE : string := "Don't support changing TP size for ZeRO-1".

(** Lines 441-467: the optimizer states. *)
Definition reshard_optim_states (optimizer : Optimizer) (parallel_context : ParallelContext)
    (ckp_optimizer_config : optimizer_config) (shard_paths : list (string * file))
    (map_location : option device) : py locals unit :=
  let current_dp_rank := dp_rank parallel_context in
  let tp_rank := tp_rank parallel_context in
  optim_state0 <- on_state_dict (state_getitem 0) ;;
  let OPTIMIZER_STATE_NAMES := keys_without_step optim_state0 in
  param_shapes <- lookup_or KeyError (cfg_orig_param_shapes ckp_optimizer_config) ;;
  ckp_sharded_optim_states <-
    lift (load_sharded_states shard_paths map_location load_type_state) ;;
  let merged_optim_states := create_merged_optim_states param_shapes map_location in
  ckp_offsets <- lookup_or KeyError (cfg_param_name_to_dp_rank_offsets ckp_optimizer_config) ;;
  merged_optim_states <-
    merge_optim_states ckp_offsets ckp_sharded_optim_states tp_rank OPTIMIZER_STATE_NAMES
                       merged_optim_states ;;
  update_state_slices optimizer current_dp_rank OPTIMIZER_STATE_NAMES merged_optim_states.

(** Lines 472-485: the gradient accumulator. *)
Definition reshard_grad_accumulator (optimizer : Optimizer) (parallel_context : ParallelContext)
    (ckp_optimizer_config : optimizer_config) (shard_paths : list (string * file))
    (map_location : option device) : py locals unit :=
  let tp_rank := tp_rank parallel_context in
  param_shapes <- lookup_or KeyError (cfg_orig_param_shapes ckp_optimizer_config) ;;
  ckp_sharded_grad_accum <-
    lift (load_sharded_states shard_paths map_location load_type_gradient_accumulator) ;;
  let merged_grad_accumulator := create_merged_gradients param_shapes map_location in
  ckp_offsets <- lookup_or KeyError (cfg_param_name_to_dp_rank_offsets ckp_optimizer_config) ;;
  merged_grad_accumulator <-
    merge_grad_accumulator ckp_offsets ckp_sharded_grad_accum tp_rank merged_grad_accumulator ;;
  update_gradient_accumulator optimizer merged_grad_accumulator.

(** Lines 433-485: the reshard when the data-parallel size has changed. *)
Definition reshard_zero (optimizer : Optimizer) (parallel_context : ParallelContext)
    (ckp_optimizer_config : optimizer_config) (shard_paths : list (string * file))
    (map_location : option device) : py locals unit :=
  reshard_optim_states optimizer parallel_context ckp_optimizer_config shard_paths
                       map_location ;;;
  py_assert (cfg_tp_size ckp_optimizer_config =? tp_size parallel_context)
            TP_CHANGE_MESSAGE ;;;
  reshard_grad_accumulator optimizer parallel_context ckp_optimizer_config shard_paths
                           map_location.

(* ------------------------------------------------------------------ *)
(** * load_optimizer *)
(* ------------------------------------------------------------------ *)

Definition SHARD_METADATA_MESSAGE (ckp_tp_size tp_size : nat) : string :=
  "You have to pass how the original parameters are sharded in order to resume in a different tensor parallel size, ckp_tp_size: "
  +++ str ckp_tp_size +++ ", current tp_size: " +++ str tp_size.
Definition MODEL_MESSAGE : string :=
  "You have to pass the model in order to adjust the optimizer states according to how the current parameters are sharded".

(** Lines 233-244: the shards of a checkpoint that is not ZeRO, by
    (pp_rank, tp_rank). *)
Definition load_replicated_shards (shard_paths : list (string * file))
    (map_location : option device) : exn + dict (nat * nat) state_dict :=
  fold_left (fun acc '(shard_path, f) =>
    match acc with
    | inl e => inl e
    | inr ckp_sharded_optim_states =>
        match extract_parallel_ranks_from_shard_path shard_path false with
        | inl e => inl e
        | inr (pp_rank, _, tp_rank) =>
            match torch_load_file f map_location with
            | inl e => inl e
            | inr checkpoint =>
                inr (dict_set ckp_sharded_optim_states (pp_rank, tp_rank) checkpoint)
            end
        end
    end) shard_paths (inr []).

(** [json.load] of the manifest. *)
Definition load_config (fs : filesystem) (root_folder : string) : exn + optimizer_config :=
  match read_file fs root_folder OPTIMIZER_CONFIG_FILE_NAME with
  | inl e => inl e
  | inr (ConfigFile config) => inr config
  | inr _ => inl JSONDecodeError
  end.

Section LoadOptimizer.

Variable TensorMetadata : Type.
Variable ShardedInfo : Type.
Variable unsharded_shape : ShardedInfo -> list nat.
Variable torch_empty : list nat -> option device -> tensor.
Variable merge_and_shard_tp_tensors :
  tensor -> tensor -> tensor -> TensorMetadata -> ShardedInfo -> exn + (tensor * tensor).
Variable merge_dp_shard_in_zero1_optimizer :
  Model ShardedInfo -> optimizer_config -> list (string * file) -> ParallelContext ->
  option device -> exn + dict (nat * nat) state_dict.

(** Lines 203-364: the state rebuilt from the shards of another
    tensor-parallel or pipeline-parallel size. *)
Definition topology_agnostic_load (optimizer : Optimizer)
    (parallel_context : ParallelContext) (fs : filesystem) (root_folder : string)
    (ckp_optimizer_config : optimizer_config) (map_location : option device)
    (param_shard_metadata : option (dict string (dict (nat * nat) TensorMetadata)))
    (model : option (Model ShardedInfo)) : py tp_locals state_dict :=
  match param_shard_metadata, model with
  | None, _ =>
      raise (AssertionError (SHARD_METADATA_MESSAGE (cfg_tp_size ckp_optimizer_config)
                                                    (tp_size parallel_context)))
  | Some _, None => raise (AssertionError MODEL_MESSAGE)
  | Some param_shard_metadata, Some model =>
      let ckp_pp_size := cfg_pp_size ckp_optimizer_config in
      let ckp_tp_size := cfg_tp_size ckp_optimizer_config in
      let ckp_dp_size := cfg_dp_size ckp_optimizer_config in
      let ckpt_expert_parallel_size := cfg_expert_parallel_size ckp_optimizer_config in
      ckp_sharded_optim_states <-
        lift (if String.eqb (cfg_type ckp_optimizer_config) ZeroDistributedOptimizer_name
              then
                merge_dp_shard_in_zero1_optimizer model ckp_optimizer_config
                  (glob fs root_folder
                     (zero_shard_pattern ckp_pp_size ckp_dp_size ckp_tp_size
                                         ckpt_expert_parallel_size))
                  parallel_context map_location
              else
                load_replicated_shards
                  (glob fs root_folder (replicated_shard_pattern ckp_pp_size ckp_tp_size))
                  map_location) ;;
      let new_optim_state_dict := optimizer_state_dict optimizer in
      shard00 <- lookup_or KeyError (dict_get ckp_sharded_optim_states (0, 0)) ;;
      optim_state0 <- lookup_or KeyError (dict_get (sd_state shard00) 0) ;;
      let OPTIMIZER_STATE_NAMES := sorted_strings (keys_without_step optim_state0) in
      match OPTIMIZER_STATE_NAMES with
      | [] => raise IndexError
      | _ :: _ =>
          restore_all unsharded_shape torch_empty merge_and_shard_tp_tensors
                      ckp_optimizer_config map_location param_shard_metadata
                      ckp_sharded_optim_states OPTIMIZER_STATE_NAMES model ;;;
          L <- get ;;
          ret {| sd_state := new_state L;
                 sd_state_default := true;
                 sd_names := Some (new_optim_state_param_names L);
                 sd_gradient_accumulator :=
                   sd_gradient_accumulator new_optim_state_dict |}
      end
  end.

Definition tp_locals_init : tp_locals :=
  {| new_state := [];
     new_optim_state_param_names := [];
     state_key := None;
     ckp_optim_state := None;
     old_optim_state_index := None |}.

(** Lines 365-384: the shard file of this process is loaded as it is. *)
Definition direct_load (optimizer : Optimizer) (parallel_context : ParallelContext)
    (fs : filesystem) (root_folder : string) (ckp_optimizer_config : optimizer_config)
    (map_location : option device) : exn + state_dict :=
  let ckp_dp_size := cfg_dp_size ckp_optimizer_config in
  if ckp_dp_size =? 0 then inl ZeroDivisionError
  else
    match inherit_from optimizer ZeroDistributedOptimizer with
    | inl e => inl e
    | inr is_zero =>
        match get_optimizer_filename
                (tp_rank parallel_context, tp_size parallel_context)
                (pp_rank parallel_context, pp_size parallel_context)
                (Some (pp_rank parallel_context / ckp_dp_size, ckp_dp_size))
                (Some (expert_rank parallel_context, expert_parallel_size parallel_context))
                (Some is_zero) with
        | inl e => inl e
        | inr name => torch_load fs root_folder name map_location
        end
    end.

(** The store holds the local variables [state_dict] and [dp_rank]; the
    value is the optimizer as the call leaves it.  Only line 487 changes
    the optimizer, so an exception leaves it as it was. *)
Definition load_optimizer (optimizer : Optimizer) (parallel_context : ParallelContext)
    (root_folder : string) (map_location : option device)
    (param_shard_metadata : option (dict string (dict (nat * nat) TensorMetadata)))
    (model : option (Model ShardedInfo)) (fs : filesystem) : py locals Optimizer :=
  let root_folder := root_folder +++ "/optimizer" in
  ckp_optimizer_config <- lift (load_config fs root_folder) ;;
  let ckp_pp_size := cfg_pp_size ckp_optimizer_config in
  let ckp_tp_size := cfg_tp_size ckp_optimizer_config in
  let ckp_dp_size := cfg_dp_size ckp_optimizer_config in
  let ckpt_expert_parallel_size := cfg_expert_parallel_size ckp_optimizer_config in
  state_dict <-
    lift (if negb (ckp_tp_size =? tp_size parallel_context)
             || negb (ckp_pp_size =? pp_size parallel_context)
          then fst (topology_agnostic_load optimizer parallel_context fs root_folder
                      ckp_optimizer_config map_location param_shard_metadata model
                      tp_locals_init)
          else direct_load optimizer parallel_context fs root_folder
                           ckp_optimizer_config map_location) ;;
  modify (fun L => {| state_dict_var := Some state_dict; dp_rank_var := dp_rank_var L |}) ;;;
  if isinstance optimizer ZeroDistributedOptimizer then
    let shard_paths :=
      glob fs root_folder
           (zero_shard_pattern ckp_pp_size ckp_dp_size ckp_tp_size
                               ckpt_expert_parallel_size) in
    (if negb (ckp_dp_size =? dp_size parallel_context)
     then reshard_zero optimizer parallel_context ckp_optimizer_config shard_paths
                       map_location
     else ret tt) ;;;
    state_dict <- read_state_dict ;;
    ret (load_state_dict optimizer state_dict)
  else ret optimizer.

Definition locals_init : locals := {| state_dict_var := None; dp_rank_var := None |}.

End LoadOptimizer.

(* ------------------------------------------------------------------ *)
(** * Definitions the statements use *)
(* ------------------------------------------------------------------ *)

(** The optimizers [inherit_from] looks at: [self], then each wrapped
    optimizer for as long as it is an [InheritFromOtherOptimizer]. *)
Fixpoint wrapper_chain (self : Optimizer) : list Optimizer :=
  self ::
  match self with
  | Wrapper _ _ inner =>
      if isinstance inner InheritFromOtherOptimizer then wrapper_chain inner else []
  | Leaf _ _ => []
  end.

(** The classes agree with the constructors: a [Wrapper] is an instance of
    [InheritFromOtherOptimizer], a [Leaf] is not. *)
Fixpoint well_formed (o : Optimizer) : bool :=
  match o with
  | Leaf c _ => negb (issubclass c InheritFromOtherOptimizer)
  | Wrapper c _ inner => issubclass c InheritFromOtherOptimizer && well_formed inner
  end.

(** A [ZeroDistributedOptimizer] has its table of offsets (its constructor
    sets it), so the assertion of line 114 holds. *)
Definition offsets_present (o : Optimizer) : bool :=
  if isinstance o ZeroDistributedOptimizer then
    match attrs_of o with
    | Some attrs =>
        match param_name_to_dp_rank_offsets attrs with Some _ => true | None => false end
    | None => false
    end
  else true.

(** The name [save_optimizer] gives the shard of this process (lines
    127-135). *)
Definition shard_filename (optimizer : Optimizer) (parallel_context : ParallelContext)
  : exn + string :=
  match inherit_from optimizer ZeroDistributedOptimizer with
  | inl e => inl e
  | inr is_zero =>
      get_optimizer_filename
        (tp_rank parallel_context, tp_size parallel_context)
        (pp_rank parallel_context, pp_size parallel_context)
        (Some (dp_rank parallel_context, dp_size parallel_context))
        (Some (expert_rank parallel_context, expert_parallel_size parallel_context))
        (Some is_zero)
  end.

Definition no_attrs : zero_attrs :=
  {| param_name_to_dp_rank_offsets := None; orig_param_shapes := [] |}.

Definition empty_state_dict : state_dict :=
  {| sd_state := []; sd_state_default := false; sd_names := None;
     sd_gradient_accumulator := None |}.


(** ** Concrete optimizers, processes and checkpoints *)

Definition on_cpu (data : list Z) : tensor := {| t_device := cpu; t_data := data |}.

(** A torch optimizer wrapped in a plain [InheritFromOtherOptimizer]. *)
Definition replicated_optimizer (sd : state_dict) : Optimizer :=
  Wrapper InheritFromOtherOptimizer no_attrs (Leaf torch_Optimizer sd).

(** A torch optimizer wrapped in a [ZeroDistributedOptimizer]. *)
Definition zero_optimizer (offsets : offsets_table) (shapes : dict string (list nat))
    (sd : state_dict) : Optimizer :=
  Wrapper ZeroDistributedOptimizer
          {| param_name_to_dp_rank_offsets := Some offsets; orig_param_shapes := shapes |}
          (Leaf torch_Optimizer sd).

(** The process of tensor-parallel rank [tp] of [tps] and data-parallel
    rank [dp] of [dps], with one pipeline stage and one expert group. *)
Definition process (tp tps dp dps : nat) : ParallelContext :=
  {| tp_rank := tp; tp_size := tps;
     pp_rank := 0; pp_size := 1;
     dp_rank := dp; dp_size := dps;
     expert_rank := 0; expert_parallel_size := 1;
     world_rank := dp * tps + tp |}.

(** One parameter ["w"] with the two moments and a step. *)
Definition one_param_state (exp_avg exp_avg_sq : list Z) (step : Z) (grad : list Z)
  : state_dict :=
  {| sd_state := [(0, [("exp_avg", on_cpu exp_avg);
                       ("exp_avg_sq", on_cpu exp_avg_sq);
                       ("step", on_cpu [step])])];
     sd_state_default := false;
     sd_names := Some [(0, "w")];
     sd_gradient_accumulator := Some [("w", on_cpu grad)] |}.

(** The file system after the listed processes have saved, in order. *)
Definition save_all (saves : list (Optimizer * ParallelContext)) (root_folder : string)
  : py filesystem unit :=
  for_each saves (fun '(optimizer, parallel_context) =>
                    save_optimizer optimizer parallel_context root_folder).

(** ** What state_dict_to_device is compared with *)

(** Every state tensor moved to [d]; the gradient accumulator as it was. *)
Definition states_moved_to (d : device) (sd : state_dict) : state_dict :=
  set_sd_state sd (map_values (map_values (fun t => to t d)) (sd_state sd)).

(** Every state tensor and every gradient-accumulator tensor moved to [d]. *)
Definition moved_to (d : device) (sd : state_dict) : state_dict :=
  {| sd_state := map_values (map_values (fun t => to t d)) (sd_state sd);
     sd_state_default := sd_state_default sd;
     sd_names := sd_names sd;
     sd_gradient_accumulator :=
       option_map (map_values (fun t => to t d)) (sd_gradient_accumulator sd) |}.

(** [state_dict["state"][0]["exp_avg"]], when it is there. *)
Definition exp_avg_of (sd : state_dict) : option tensor :=
  match dict_get (sd_state sd) 0 with
  | Some optim_state => dict_get optim_state "exp_avg"
  | None => None
  end.

(** Dictionaries hold each key once. *)
Definition state_dict_wf (sd : state_dict) : Prop :=
  dict_wf (sd_state sd)
  /\ Forall (fun kv => dict_wf (snd kv)) (sd_state sd)
  /\ match sd_gradient_accumulator sd with Some ga => dict_wf ga | None => True end.

(** The third clause of C10 as the claim words it: a call with a target
    that is not a CUDA device raises the AssertionError of the last line,
    with every tensor moved. *)
Definition raises_after_move (d : device) (sd : state_dict) : Prop :=
  state_dict_to_device d sd = (inl (AssertionError GPU_MESSAGE), moved_to d sd).

(** A state whose tensors are on the GPU. *)
Definition state_on_gpu : state_dict :=
  {| sd_state := [(0, [("exp_avg", {| t_device := cuda 0; t_data := [1%Z] |});
                       ("exp_avg_sq", {| t_device := cuda 0; t_data := [2%Z] |})])];
     sd_state_default := false;
     sd_names := Some [(0, "w")];
     sd_gradient_accumulator := Some [("w", {| t_device := cuda 0; t_data := [3%Z] |})] |}.

(** ** Running load_optimizer without the collaborators of the
       topology-agnostic path

    The collaborators raise if they are reached, so a run that succeeds has
    not called them. *)

Definition no_unsharded_shape (_ : unit) : list nat := [].
Definition no_torch_empty (_ : list nat) (_ : option device) : tensor := on_cpu [].
Definition no_merge_and_shard_tp_tensors (_ _ _ : tensor) (_ _ : unit)
  : exn + (tensor * tensor) := inl (NotImplementedError "merge_and_shard_tp_tensors").
Definition no_merge_dp_shard_in_zero1_optimizer (_ : Model unit) (_ : optimizer_config)
    (_ : list (string * file)) (_ : ParallelContext) (_ : option device)
  : exn + dict (nat * nat) state_dict :=
  inl (NotImplementedError "merge_dp_shard_in_zero1_optimizer").

(** [load_optimizer(optimizer, parallel_context, root_folder)] with the
    other arguments at their default [None]. *)
Definition load_optimizer_defaults (optimizer : Optimizer)
    (parallel_context : ParallelContext) (root_folder : string) (fs : filesystem)
  : (exn + Optimizer) * locals :=
  load_optimizer (TensorMetadata := unit) no_unsharded_shape no_torch_empty
                 no_merge_and_shard_tp_tensors no_merge_dp_shard_in_zero1_optimizer
                 optimizer parallel_context root_folder None None None fs locals_init.

(** [a, a+1, ..., a+n-1] as tensor elements. *)
Definition iota (a n : nat) : list Z := map Z.of_nat (seq a n).

(** ** A ZeRO checkpoint of one parameter of 4 elements over 2 ranks *)

Definition offsets_2 : offsets_table := [("w", [(0, (0, 2)); (1, (2, 4))])].
Definition shapes_4 : dict string (list nat) := [("w", [4])].

Definition state_of_rank0 : state_dict := one_param_state [1; 2]%Z [3; 4]%Z 5%Z [6; 7]%Z.
Definition state_of_rank1 : state_dict := one_param_state [10; 20]%Z [30; 40]%Z 5%Z [60; 70]%Z.
Definition fresh_state : state_dict := one_param_state [0; 0]%Z [0; 0]%Z 0%Z [0; 0]%Z.

Definition saves_zero_2 : list (Optimizer * ParallelContext) :=
  [(zero_optimizer offsets_2 shapes_4 state_of_rank0, process 0 1 0 2);
   (zero_optimizer offsets_2 shapes_4 state_of_rank1, process 0 1 1 2)].

(** ** The scenario of the spec: 400 elements saved over 4 ranks, loaded
       over 2 *)

Definition offsets_4x100 : offsets_table :=
  [("w", [(0, (0, 100)); (1, (100, 200)); (2, (200, 300)); (3, (300, 400))])].
Definition offsets_2x200 : offsets_table := [("w", [(0, (0, 200)); (1, (200, 400))])].
Definition shapes_400 : dict string (list nat) := [("w", [400])].

(** The shard of rank [r]: elements [100 r ..] of each flat buffer; the
    buffers start at 0, 1000 and 2000. *)
Definition state_of_quarter (r : nat) : state_dict :=
  one_param_state (iota (100 * r) 100) (iota (1000 + 100 * r) 100) 7%Z
                  (iota (2000 + 100 * r) 100).

Definition saves_zero_4 : list (Optimizer * ParallelContext) :=
  map (fun r => (zero_optimizer offsets_4x100 shapes_400 (state_of_quarter r),
                 process 0 1 r 4)) [0; 1; 2; 3].

(** The reverse: saved over 2 ranks of 200 elements, loaded over 4. *)
Definition state_of_half (r : nat) : state_dict :=
  one_param_state (iota (200 * r) 200) (iota (1000 + 200 * r) 200) 7%Z
                  (iota (2000 + 200 * r) 200).

Definition saves_zero_2x200 : list (Optimizer * ParallelContext) :=
  map (fun r => (zero_optimizer offsets_2x200 shapes_400 (state_of_half r),
                 process 0 1 r 2)) [0; 1].

Definition gradient_of (o : Optimizer) : option (list Z) :=
  match sd_gradient_accumulator (optimizer_state_dict o) with
  | Some ga => option_map t_data (dict_get ga "w")
  | None => None
  end.

Definition moment_of (o : Optimizer) (name : string) : option (list Z) :=
  match dict_get (sd_state (optimizer_state_dict o)) 0 with
  | Some e => option_map t_data (dict_get e name)
  | None => None
  end.

(** The folders the processes of each scenario leave behind. *)
Definition checkpoint_zero_2 : filesystem := snd (save_all saves_zero_2 "ckpt" []).
Definition checkpoint_zero_4 : filesystem := snd (save_all saves_zero_4 "ckpt" []).
Definition checkpoint_zero_2x200 : filesystem := snd (save_all saves_zero_2x200 "ckpt" []).
Definition checkpoint_replicated : filesystem :=
  snd (save_optimizer (replicated_optimizer state_of_rank0) (process 0 1 0 1) "ckpt" []).

(** ** A ZeRO optimizer below another wrapper *)

(** A subclass of [InheritFromOtherOptimizer] that is not ZeRO. *)
Definition OptimizerFromGradientAccumulator : py_class :=
  subclass "OptimizerFromGradientAccumulator" InheritFromOtherOptimizer.

(** The ZeRO optimizer of the checkpoint over 2 ranks, wrapped once more. *)
Definition wrapped_zero_optimizer (sd : state_dict) : Optimizer :=
  Wrapper OptimizerFromGradientAccumulator no_attrs (zero_optimizer offsets_2 shapes_4 sd).

Definition saves_wrapped_zero : list (Optimizer * ParallelContext) :=
  [(wrapped_zero_optimizer state_of_rank0, process 0 1 0 2);
   (wrapped_zero_optimizer state_of_rank1, process 0 1 1 2)].

Definition checkpoint_wrapped_zero : filesystem :=
  snd (save_all saves_wrapped_zero "ckpt" []).

(** The names of the entries of a folder, in the order of their creation. *)
Definition listdir (fs : filesystem) (folder : string) : list string :=
  keys (match dict_get fs folder with Some entries => entries | None => [] end).

(** ** Coverage of a merged buffer *)

(** No range the checkpoint records for parameter [p] holds index [i]. *)
Definition uncovered (ckp_offsets : offsets_table) (p : string) (i : nat) : Prop :=
  forall offsets r a b,
    In (p, offsets) ckp_offsets -> In (r, (a, b)) offsets -> ~ (a <= i < b).

(** The range [a, b) of rank [r] is the one range of [offsets] that holds
    index [i]. *)
Definition sole_range (offsets : dict nat (nat * nat)) (r a b i : nat) : Prop :=
  In (r, (a, b)) offsets /\ a <= i < b
  /\ forall r' a' b',
       In (r', (a', b')) offsets -> a' <= i < b' -> (r', (a', b')) = (r, (a, b)).

(** In the merged gradients, an element that no range of the checkpoint
    covers is zero. *)
Definition gradients_zero_outside (ckp_offsets : offsets_table)
    (merged : dict string tensor) : Prop :=
  forall p t i, dict_get merged p = Some t -> uncovered ckp_offsets p i ->
                i < numel t -> nth_error (t_data t) i = Some 0%Z.

(** The same in the merged states, for each state of each parameter. *)
Definition states_zero_outside (ckp_offsets : offsets_table)
    (merged : dict string (dict string tensor)) : Prop :=
  forall p m k t i, dict_get merged p = Some m -> dict_get m k = Some t ->
                    uncovered ckp_offsets p i ->
                    i < numel t -> nth_error (t_data t) i = Some 0%Z.

(** In the merged gradients, an element that one range of the checkpoint
    covers is the element of the shard of that rank (line 422), when the
    shard holds as many elements as its range. *)
Definition gradients_copied (ckp_offsets : offsets_table)
    (sharded : dict (nat * nat) (dict string tensor)) (tp_rank : nat)
    (merged : dict string tensor) : Prop :=
  forall p offsets r a b t i,
    In (p, offsets) ckp_offsets -> sole_range offsets r a b i ->
    dict_get merged p = Some t -> i < numel t ->
    exists shard src,
      dict_get sharded (tp_rank, r) = Some shard
      /\ dict_get shard p = Some src
      /\ (numel src = b - a -> nth_error (t_data t) i = nth_error (t_data src) (i - a)).

(** The same in the merged states: the shard is looked up at the index the
    local [state_dict] gives the parameter (lines 417-420). *)
Definition states_copied (ckp_offsets : offsets_table)
    (sharded : dict (nat * nat) (dict nat (dict string tensor))) (tp_rank : nat)
    (names : dict nat string) (state_names : list string)
    (merged : dict string (dict string tensor)) : Prop :=
  forall p offsets r a b key m t i,
    In (p, offsets) ckp_offsets -> sole_range offsets r a b i -> In key state_names ->
    dict_get merged p = Some m -> dict_get m key = Some t -> i < numel t ->
    exists shard p_idx entry src,
      dict_get sharded (tp_rank, r) = Some shard
      /\ get_key_by_value names p = Some p_idx
      /\ dict_get shard p_idx = Some entry
      /\ dict_get entry key = Some src
      /\ (numel src = b - a -> nth_error (t_data t) i = nth_error (t_data src) (i - a)).

(** A checkpoint over 2 ranks whose ranges [0, 1) and [2, 4) leave index 1
    of the 4 elements out; it is loaded over 4 ranks of one element. *)
Definition offsets_gap : offsets_table := [("w", [(0, (0, 1)); (1, (2, 4))])].
Definition offsets_4x1 : offsets_table :=
  [("w", [(0, (0, 1)); (1, (1, 2)); (2, (2, 3)); (3, (3, 4))])].

Definition saves_gap : list (Optimizer * ParallelContext) :=
  [(zero_optimizer offsets_gap shapes_4 (one_param_state [11] [21] 7 [31])%Z,
    process 0 1 0 2);
   (zero_optimizer offsets_gap shapes_4 (one_param_state [13; 14] [23; 24] 7 [33; 34])%Z,
    process 0 1 1 2)].

Definition checkpoint_gap : filesystem := snd (save_all saves_gap "ckpt" []).

(** The gradient shards of the checkpoint with the gap, by
    (tp_rank, dp_rank), and the merged gradients they give. *)
Definition gap_sharded_gradients : dict (nat * nat) (dict string tensor) :=
  [((0, 0), [("w", on_cpu [31%Z])]); ((0, 1), [("w", on_cpu [33%Z; 34%Z])])].
Definition gap_merged_gradients : dict string tensor :=
  [("w", on_cpu [31%Z; 0%Z; 33%Z; 34%Z])].

(** The manifest of the checkpoint with the gap. *)
Definition config_gap : optimizer_config :=
  {| cfg_type := "ZeroDistributedOptimizer";
     cfg_tp_size := 1; cfg_dp_size := 2; cfg_pp_size := 1;
     cfg_expert_parallel_size := 1;
     cfg_param_name_to_dp_rank_offsets := Some offsets_gap;
     cfg_orig_param_shapes := Some shapes_4 |}.

(** ** A change of both the tensor-parallel and the data-parallel size *)



(** The manifest of the checkpoint over 2 data-parallel ranks and 1
    tensor-parallel rank. *)
Definition config_zero_2 : optimizer_config :=
  {| cfg_type := "ZeroDistributedOptimizer";
     cfg_tp_size := 1; cfg_dp_size := 2; cfg_pp_size := 1;
     cfg_expert_parallel_size := 1;
     cfg_param_name_to_dp_rank_offsets := Some offsets_2;
     cfg_orig_param_shapes := Some shapes_4 |}.

(** The state the first stage hands over, here of 4 elements. *)
Definition state_before_reshard : state_dict :=
  {| sd_state := [(0, [("exp_avg", on_cpu [1; 2; 3; 4]%Z);
                       ("exp_avg_sq", on_cpu [5; 6; 7; 8]%Z)])];
     sd_state_default := true;
     sd_names := Some [(0, "w")];
     sd_gradient_accumulator := Some [("w", on_cpu [9; 9; 9; 9]%Z)] |}.


Definition locals_before_reshard : locals :=
  {| state_dict_var := Some state_before_reshard; dp_rank_var := None |}.






(** ** The topology-agnostic path on parameters that are not sharded *)

(** [load_optimizer] with a model and (empty) shard metadata; the
    collaborators still raise if they are reached. *)
Definition load_optimizer_with_model (optimizer : Optimizer)
    (parallel_context : ParallelContext) (root_folder : string) (model : Model unit)
    (fs : filesystem) : (exn + Optimizer) * locals :=
  load_optimizer (TensorMetadata := unit) no_unsharded_shape no_torch_empty
                 no_merge_and_shard_tp_tensors no_merge_dp_shard_in_zero1_optimizer
                 optimizer parallel_context root_folder None (Some []) (Some model)
                 fs locals_init.

(** A parameter that is not sharded, tied to [name] or not tied. *)
Definition replicated_parameter (tied : option string) : parameter unit :=
  nanotron_parameter {| p_shape := [2]; p_device := cpu;
                        tied_info_name := tied; sharded_info := None |}.






Definition embed_state : state_dict :=
  {| sd_state := [(0, [("exp_avg", on_cpu [1; 2]%Z);
                       ("exp_avg_sq", on_cpu [3; 4]%Z);
                       ("step", on_cpu [5%Z])])];
     sd_state_default := false;
     sd_names := Some [(0, "embed")];
     sd_gradient_accumulator := None |}.

Definition checkpoint_embed : filesystem :=
  snd (save_optimizer (replicated_optimizer embed_state) (process 0 1 0 1) "ckpt" []).


(** ** Two shards that disagree on the step *)

(** The process of tensor-parallel rank [tp] of 2 in expert group 0 of 2. *)
Definition process_tp2_exp2 (tp : nat) : ParallelContext :=
  {| tp_rank := tp; tp_size := 2;
     pp_rank := 0; pp_size := 1;
     dp_rank := 0; dp_size := 1;
     expert_rank := 0; expert_parallel_size := 2;
     world_rank := tp |}.

Definition norm_state (step : Z) : state_dict :=
  {| sd_state := [(0, [("exp_avg", on_cpu [1; 2]%Z);
                       ("exp_avg_sq", on_cpu [3; 4]%Z);
                       ("step", on_cpu [step])])];
     sd_state_default := false;
     sd_names := Some [(0, "norm")];
     sd_gradient_accumulator := None |}.

Definition saves_two_steps : list (Optimizer * ParallelContext) :=
  [(replicated_optimizer (norm_state 5), process_tp2_exp2 0);
   (replicated_optimizer (norm_state 7), process_tp2_exp2 1)].

Definition checkpoint_two_steps : filesystem := snd (save_all saves_two_steps "ckpt" []).

Definition model_norm : Model unit :=
  {| state_dict_keys := ["norm"];
     get_parameter := [("norm", replicated_parameter None)] |}.

(** The step recorded for a parameter index. *)
Definition step_of (st : dict nat (dict string tensor)) (param_index : nat) : option tensor :=
  match dict_get st param_index with
  | Some entry => dict_get entry "step"
  | None => None
  end.

(** The same model with the embedding first. *)
Definition model_main_first : Model unit :=
  {| state_dict_keys := ["embed"; "lm_head"];
     get_parameter := [("embed", replicated_parameter (Some "embed"));
                       ("lm_head", replicated_parameter (Some "embed"))] |}.

(** The parameter loop on a model, for a checkpoint that is not ZeRO and
    holds the one shard [embed_state]. *)
Definition config_embed : optimizer_config :=
  {| cfg_type := "InheritFromOtherOptimizer";
     cfg_tp_size := 1; cfg_dp_size := 1; cfg_pp_size := 1;
     cfg_expert_parallel_size := 1;
     cfg_param_name_to_dp_rank_offsets := None;
     cfg_orig_param_shapes := None |}.


(** The body of the parameter loop on the parameter of [model_norm], for
    the two shards that disagree on the step. *)
Definition shards_two_steps : dict (nat * nat) state_dict :=
  [((0, 0), norm_state 5)] ++ [((0, 1), norm_state 7)].

Definition restore_norm : py tp_locals unit :=
  restore_parameter (TensorMetadata := unit) no_unsharded_shape no_torch_empty
                    no_merge_and_shard_tp_tensors config_embed None []
                    shards_two_steps ["exp_avg"; "exp_avg_sq"] model_norm 0 "norm".

(** ** The offsets the current optimizer assigns *)

(** [optimizer.param_name_to_dp_rank_offsets[param_name][rank]] is the range
    [range]. *)
Definition assigned_range (optimizer : Optimizer) (param_name : string) (rank : nat)
    (range : nat * nat) : Prop :=
  exists attrs table offsets,
    attrs_of optimizer = Some attrs
    /\ param_name_to_dp_rank_offsets attrs = Some table
    /\ dict_get table param_name = Some offsets
    /\ dict_get offsets rank = Some range.

(** The name line 458 finds for a parameter index:
    [[name for idx, name in names.items() if idx == param_index][0]]. *)
Definition name_at (names : dict nat string) (param_index : nat) : option string :=
  match filter (fun kv => fst kv =? param_index) names with
  | (_, name) :: _ => Some name
  | [] => None
  end.
(* ------------------------------------------------------------------ *)
(** * InheritFromOtherOptimizer.get_base_optimizer *)
(* ------------------------------------------------------------------ *)

Section GetBaseOptimizer.

(** [get_base_optimizer] of an optimizer that is not an
    [InheritFromOtherOptimizer]: a method of a class that is not under src
    (or an AttributeError, when the class has none). *)
Variable leaf_get_base_optimizer : py_class -> state_dict -> exn + Optimizer.

(** [InheritFromOtherOptimizer.get_base_optimizer] (lines 77-81). *)
Fixpoint get_base_optimizer (self : Optimizer) : exn + Optimizer :=
  match self with
  | Wrapper _ _ inner =>
      if isinstance inner torch_Optimizer then inr inner else get_base_optimizer inner
  | Leaf cls state => leaf_get_base_optimizer cls state
  end.

End GetBaseOptimizer.

(** The optimizer at the bottom of the wrappers, the one that owns the
    state. *)
Fixpoint innermost (self : Optimizer) : Optimizer :=
  match self with
  | Wrapper _ _ inner => innermost inner
  | Leaf _ _ => self
  end.

Definition is_wrapper (self : Optimizer) : bool :=
  match self with Wrapper _ _ _ => true | Leaf _ _ => false end.

(* ------------------------------------------------------------------ *)
(** * The files of the learning-rate scheduler (lines 57-61, 138-156, 490-499) *)
(* ------------------------------------------------------------------ *)

Section LrScheduler.

(** Collaborators that are not under src: [ObjectType.LR_SCHEDULER.value]
    of nanotron.serialize.utils, and the scheduler of torch with what its
    [state_dict()] returns, its [load_state_dict] and its [_initial_step];
    the last two change the scheduler in place, here they return it. *)
Variable LR_SCHEDULER_value : string.
Variable LRScheduler : Type.
Variable scheduler_state : Type.
Variable scheduler_state_dict : LRScheduler -> scheduler_state.
Variable scheduler_load_state_dict : LRScheduler -> scheduler_state -> LRScheduler.
Variable _initial_step : LRScheduler -> LRScheduler.

(** [lr_scheduler_filename] (lines 57-61). *)
Definition lr_scheduler_filename (parallel_context : ParallelContext) (is_zero : bool)
  : string :=
  if is_zero then
    LR_SCHEDULER_value
    +++ "_pp-" +++ str (pp_rank parallel_context)
    +++ "-of-" +++ str (pp_size parallel_context)
    +++ "_dp-" +++ str (dp_rank parallel_context)
    +++ "-of-" +++ str (dp_size parallel_context)
    +++ "_tp-" +++ str (tp_rank parallel_context)
    +++ "-of-" +++ str (tp_size parallel_context)
    +++ "_exp-" +++ str (expert_rank parallel_context)
    +++ "-of-" +++ str (expert_parallel_size parallel_context) +++ ".pt"
  else
    LR_SCHEDULER_value
    +++ "_pp-" +++ str (pp_rank parallel_context)
    +++ "-of-" +++ str (pp_size parallel_context)
    +++ "_tp-" +++ str (tp_rank parallel_context)
    +++ "-of-" +++ str (tp_size parallel_context)
    +++ "_exp-" +++ str (expert_rank parallel_context)
    +++ "-of-" +++ str (expert_parallel_size parallel_context) +++ ".pt".

(** The folders that hold the scheduler files: by path, each with the
    saved states by file name. *)
Definition scheduler_files : Type := dict string (dict string scheduler_state).

(** [folder.mkdir(exist_ok=True, parents=True)] *)
Definition scheduler_mkdir (folder : string) : py scheduler_files unit :=
  modify (fun fs : scheduler_files =>
            match dict_get fs folder with
            | Some _ => fs
            | None => dict_set fs folder ([] : dict string scheduler_state)
            end).

(** [torch.save(state, folder / name)] *)
Definition scheduler_torch_save (state : scheduler_state) (folder name : string)
  : py scheduler_files unit :=
  fs <- get ;;
  entries <- lookup_or FileNotFoundError (dict_get fs folder) ;;
  put (dict_set fs folder (dict_set entries name state)).

(** [torch.load(folder / name)] *)
Definition scheduler_torch_load (fs : scheduler_files) (folder name : string)
  : exn + scheduler_state :=
  match dict_get fs folder with
  | None => inl FileNotFoundError
  | Some entries =>
      match dict_get entries name with
      | None => inl FileNotFoundError
      | Some state => inr state
      end
  end.

(** [save_lr_scheduler] (lines 138-156), with [is_zero] a [bool] as
    [lr_scheduler_filename] declares it. *)
Definition save_lr_scheduler (lr_scheduler : LRScheduler) (is_zero : bool)
    (parallel_context : ParallelContext) (root_folder : string) : py scheduler_files unit :=
  if negb is_zero && (0 <? dp_rank parallel_context)
  then ret tt
  else
    let root_folder := root_folder +++ "/lr_scheduler" in
    scheduler_mkdir root_folder ;;;
    scheduler_torch_save (scheduler_state_dict lr_scheduler) root_folder
                         (lr_scheduler_filename parallel_context is_zero).

(** [load_lr_scheduler] (lines 490-499); the value is the scheduler as the
    call leaves it. *)
Definition load_lr_scheduler (lr_scheduler : LRScheduler) (is_zero : bool)
    (parallel_context : ParallelContext) (root_folder : string) (fs : scheduler_files)
  : exn + LRScheduler :=
  let root_folder := root_folder +++ "/lr_scheduler" in
  match scheduler_torch_load fs root_folder
          (lr_scheduler_filename parallel_context is_zero) with
  | inl e => inl e
  | inr state_dict => inr (_initial_step (scheduler_load_state_dict lr_scheduler state_dict))
  end.

End LrScheduler.

(** Two processes with the same place in the pipeline, tensor and expert
    groups, and, when [with_dp] holds, in the data-parallel group. *)
Definition same_coordinate (with_dp : bool) (pc pc' : ParallelContext) : Prop :=
  tp_rank pc = tp_rank pc' /\ tp_size pc = tp_size pc'
  /\ pp_rank pc = pp_rank pc' /\ pp_size pc = pp_size pc'
  /\ expert_rank pc = expert_rank pc'
  /\ expert_parallel_size pc = expert_parallel_size pc'
  /\ (with_dp = true -> dp_rank pc = dp_rank pc' /\ dp_size pc = dp_size pc').

(* ------------------------------------------------------------------ *)
(** * debug/monitor.py: convert_logs_to_flat_logs (lines 163-173) *)
(* ------------------------------------------------------------------ *)

Definition convert_logs_to_flat_logs {V : Type}
    (logs : dict string (dict string (dict string V))) : dict string V :=
  fold_left (fun flat_logs '(module_name, components) =>
    fold_left (fun flat_logs '(component_name, stats) =>
      fold_left (fun flat_logs '(metric_name, metric_value) =>
        dict_set flat_logs
                 (module_name +++ ":" +++ component_name +++ ":" +++ metric_name)
                 metric_value)
        stats flat_logs)
      components flat_logs)
    logs [].

(** The name holds no colon. *)
Fixpoint colon_free (s : string) : Prop :=
  match s with
  | EmptyString => True
  | String c s' => c <> ":"%char /\ colon_free s'
  end.

(** The logs as Python has them (no key twice in any dictionary), with
    names of modules and of metrics that hold no colon; the names of the
    components may hold some, as the [input:0] and [grad_output:1] of
    [track_weight_and_grad_stats] do. *)
Definition logs_wf {V : Type} (logs : dict string (dict string (dict string V))) : Prop :=
  dict_wf logs
  /\ Forall (fun mc =>
       colon_free (fst mc) /\ dict_wf (snd mc)
       /\ Forall (fun cs =>
            dict_wf (snd cs) /\ Forall (fun kv => colon_free (fst kv)) (snd cs))
                 (snd mc)) logs.

(* ------------------------------------------------------------------ *)
(** * models/llama.py: get_flops (lines 1221-1289) *)
(* ------------------------------------------------------------------ *)

(** The arguments are Python integers; [//] is the floor division, which
    raises on a zero divisor. *)
Definition get_flops
    (num_layers hidden_size num_heads : Z) (num_key_value_heads : option Z)
    (vocab_size seq_len ffn_hidden_size batch_size : Z) : exn + (Z * Z) :=
  let num_key_value_heads :=
    match num_key_value_heads with None => num_heads | Some n => n end in
  if (num_heads =? 0)%Z then inl ZeroDivisionError
  else
    let hidden_size_per_head := (hidden_size / num_heads)%Z in
    let decoder_qkv_proj_flops_fwd :=
      (2 * num_layers * batch_size * seq_len * hidden_size * num_heads * hidden_size_per_head
       + 2 * num_layers * batch_size * seq_len * hidden_size * 2 * num_key_value_heads
         * hidden_size_per_head)%Z in
    let decoder_qk_logits_flops_fwd :=
      (2 * num_layers * batch_size * num_heads * seq_len * hidden_size_per_head * seq_len)%Z in
    let decoder_v_logits_flops_fwd :=
      (2 * num_layers * batch_size * num_heads * seq_len * seq_len * hidden_size_per_head)%Z in
    let decoder_attn_out_flops_fwd :=
      (2 * num_layers * batch_size * num_heads * seq_len * hidden_size_per_head * hidden_size)%Z in
    let decoder_ffn_1_flops_fwd :=
      (4 * num_layers * batch_size * seq_len * hidden_size * ffn_hidden_size)%Z in
    let decoder_ffn_2_flops_fwd :=
      (2 * num_layers * batch_size * seq_len * ffn_hidden_size * hidden_size)%Z in
    let decoder_flops_fwd :=
      (decoder_qkv_proj_flops_fwd
       + decoder_qk_logits_flops_fwd
       + decoder_v_logits_flops_fwd
       + decoder_attn_out_flops_fwd
       + decoder_ffn_1_flops_fwd
       + decoder_ffn_2_flops_fwd)%Z in
    let lm_head_flops_fwd := (2 * batch_size * seq_len * hidden_size * vocab_size)%Z in
    let model_flops := (3 * (decoder_flops_fwd + lm_head_flops_fwd))%Z in
    let hardware_flops := model_flops in
    inr (model_flops, hardware_flops).

(* ------------------------------------------------------------------ *)
(** * Definitions the further statements use *)
(* ------------------------------------------------------------------ *)

(** What the names of the shard files and of the scheduler files hold after
    their prefix: the coordinate of the process, with the data-parallel part
    under ZeRO only. *)
Definition rank_tag (pp pps : nat) (dp : option (nat * nat)) (tp tps ex exs : nat) : string :=
  "_pp-" +++ str pp +++ "-of-" +++ str pps +++
  match dp with
  | Some (dp, dps) =>
      "_dp-" +++ str dp +++ "-of-" +++ str dps
      +++ "_tp-" +++ str tp +++ "-of-" +++ str tps
      +++ "_exp-" +++ str ex +++ "-of-" +++ str exs +++ ".pt"
  | None =>
      "_tp-" +++ str tp +++ "-of-" +++ str tps
      +++ "_exp-" +++ str ex +++ "-of-" +++ str exs +++ ".pt"
  end.

(** The string does not start with a digit. *)
Definition no_digit_ahead (s : string) : Prop :=
  match s with
  | EmptyString => True
  | String c _ => is_digit c = false
  end.

Definition no_digit_first (r : list ascii) : Prop :=
  match r with
  | [] => True
  | c :: _ => is_digit c = false
  end.

(** The manifest of an optimizer on a process (lines 84-122): its class,
    the sizes of the groups and, for a [ZeroDistributedOptimizer], its table
    of offsets and the shapes of its parameters. *)
Definition manifest_of (optimizer : Optimizer) (pc : ParallelContext)
    (config : optimizer_config) : Prop :=
  cfg_type config = class_name (class_of optimizer)
  /\ cfg_tp_size config = tp_size pc
  /\ cfg_dp_size config = dp_size pc
  /\ cfg_pp_size config = pp_size pc
  /\ cfg_expert_parallel_size config = expert_parallel_size pc
  /\ if isinstance optimizer ZeroDistributedOptimizer
     then exists attrs offsets,
            attrs_of optimizer = Some attrs
            /\ param_name_to_dp_rank_offsets attrs = Some offsets
            /\ cfg_param_name_to_dp_rank_offsets config = Some offsets
            /\ cfg_orig_param_shapes config = Some (orig_param_shapes attrs)
     else cfg_param_name_to_dp_rank_offsets config = None
          /\ cfg_orig_param_shapes config = None.

(** The metrics of the logs under their flat names, in the order the loops
    of [convert_logs_to_flat_logs] meet them. *)
Definition flat_items {V : Type} (logs : dict string (dict string (dict string V)))
  : list (string * V) :=
  flat_map (fun '(module_name, components) =>
    flat_map (fun '(component_name, stats) =>
      map (fun '(metric_name, metric_value) =>
             (module_name +++ ":" +++ component_name +++ ":" +++ metric_name,
              metric_value)) stats) components) logs.

(** Every merged entry holds the two moments only, as
    [create_merged_optim_states] makes them. *)
Definition two_moments_only (merged : dict string (dict string tensor)) : Prop :=
  Forall (fun pe : string * dict string tensor =>
            forall k, In k (keys (snd pe)) -> k = "exp_avg" \/ k = "exp_avg_sq") merged.

(* ------------------------------------------------------------------ *)
(** * save_optimizer: convert_to_string (lines 102-110) *)
(* ------------------------------------------------------------------ *)

(** The values the tables of a [ZeroDistributedOptimizer] are made of:
    integers and strings, in dictionaries (with integers or strings as
    keys), lists and tuples. *)
Inductive atom : Type :=
| a_int (n : Z)
| a_str (s : string).

#[warnings="-register-all"]
Inductive pyval : Type :=
| py_atom (a : atom)
| py_dict (items : list (atom * pyval))
| py_list (elements : list pyval)
| py_tuple (elements : list pyval).

(** [==] on keys: an integer never equals a string. *)
#[export] Instance atom_Key : Key atom :=
  fun a b =>
    match a, b with
    | a_int n, a_int m => (n =? m)%Z
    | a_str s, a_str t => String.eqb s t
    | _, _ => false
    end.

(** [str(x)] of an integer or a string. *)
Definition str_of (a : atom) : string :=
  match a with
  | a_int n => NilZero.string_of_int (Z.to_int n)
  | a_str s => s
  end.

(** The dictionary comprehension of line 104 builds its result key by key,
    so of two keys with the same [str] the second value stays. *)
Fixpoint convert_to_string (input_item : pyval) : pyval :=
  match input_item with
  | py_dict items =>
      py_dict (fold_left (fun acc kv =>
                            dict_set acc (a_str (str_of (fst kv)))
                                     (convert_to_string (snd kv)))
                         items [])
  | py_list elements => py_list (map convert_to_string elements)
  | py_tuple elements => py_tuple (map convert_to_string elements)
  | py_atom a => py_atom (a_str (str_of a))
  end.

Definition is_str (a : atom) : Prop :=
  match a with a_str _ => True | a_int _ => False end.

(** Every key and every leaf of the value is a string. *)
Fixpoint all_strings (v : pyval) : Prop :=
  match v with
  | py_atom a => is_str a
  | py_dict items =>
      (fix each (l : list (atom * pyval)) : Prop :=
         match l with
         | [] => True
         | (k, x) :: l' => is_str k /\ all_strings x /\ each l'
         end) items
  | py_list elements | py_tuple elements =>
      (fix each (l : list pyval) : Prop :=
         match l with
         | [] => True
         | x :: l' => all_strings x /\ each l'
         end) elements
  end.

(* ------------------------------------------------------------------ *)
(** * Facts on dictionaries and on the store monad *)
(* ------------------------------------------------------------------ *)

Unset Implicit Arguments.

Section DictFacts.
Context {K V : Type} `{Key K}.
Hypothesis key_ok : forall a b : K, key_eqb a b = true <-> a = b.

Lemma key_eqb_refl (k : K) : key_eqb k k = true.
Proof. apply key_ok; reflexivity. Qed.

Lemma key_eqb_neq (a b : K) : a <> b -> key_eqb a b = false.
Proof.
  intros N. destruct (key_eqb a b) eqn:E; [|reflexivity].
  apply key_ok in E; contradiction.
Qed.

Lemma dict_get_set_eq (d : dict K V) k v : dict_get (dict_set d k v) k = Some v.
Proof.
  induction d as [|[k' v'] d IH]; simpl.
  - rewrite key_eqb_refl; reflexivity.
  - destruct (key_eqb k' k) eqn:E; simpl; rewrite E; auto.
Qed.

Lemma dict_get_set_neq (d : dict K V) k k' v :
  k <> k' -> dict_get (dict_set d k v) k' = dict_get d k'.
Proof.
  intros N. induction d as [|[k0 v0] d IH]; simpl.
  - rewrite key_eqb_neq; auto.
  - destruct (key_eqb k0 k) eqn:E; simpl.
    + apply key_ok in E; subst k0. rewrite key_eqb_neq; auto.
    + rewrite IH; reflexivity.
Qed.

Lemma dict_get_In (d : dict K V) k v : dict_get d k = Some v -> In (k, v) d.
Proof.
  induction d as [|[k' v'] d IH]; simpl; [discriminate|].
  destruct (key_eqb k' k) eqn:E.
  - apply key_ok in E; subst. intros [= ->]; auto.
  - auto.
Qed.

Lemma dict_get_None (d : dict K V) k : dict_get d k = None <-> ~ In k (keys d).
Proof.
  induction d as [|[k' v'] d IH]; simpl; [tauto|].
  destruct (key_eqb k' k) eqn:E.
  - apply key_ok in E; subst. split; [discriminate | intros N; exfalso; auto].
  - rewrite IH. split.
    + intros N [E'|I]; [subst; rewrite key_eqb_refl in E; discriminate | auto].
    + intros N I; auto.
Qed.

Lemma In_dict_get (d : dict K V) k v :
  dict_wf d -> In (k, v) d -> dict_get d k = Some v.
Proof.
  unfold dict_wf. induction d as [|[k' v'] d IH]; simpl; [tauto|].
  intros W [E|I].
  - inversion E; subst. rewrite key_eqb_refl; reflexivity.
  - inversion W as [|? ? N W']; subst.
    destruct (key_eqb k' k) eqn:E.
    + apply key_ok in E; subst. exfalso; apply N.
      change k with (fst (k, v)). apply in_map; exact I.
    + auto.
Qed.

Lemma keys_dict_set_in (d : dict K V) k v :
  In k (keys d) -> keys (dict_set d k v) = keys d.
Proof.
  induction d as [|[k' v'] d IH]; simpl; [tauto|].
  intros I. destruct (key_eqb k' k) eqn:E; simpl; [reflexivity|].
  f_equal. apply IH. destruct I as [->|I]; [rewrite key_eqb_refl in E; discriminate | exact I].
Qed.

Lemma dict_set_fresh (d : dict K V) k v :
  ~ In k (keys d) -> dict_set d k v = d ++ [(k, v)].
Proof.
  induction d as [|[k' v'] d IH]; simpl; [reflexivity|].
  intros N. rewrite key_eqb_neq by (intros ->; auto).
  f_equal. apply IH. auto.
Qed.

Lemma keys_dict_set (d : dict K V) k v :
  keys (dict_set d k v) = if dict_mem d k then keys d else keys d ++ [k].
Proof.
  unfold dict_mem. destruct (dict_get d k) eqn:E.
  - apply keys_dict_set_in. apply dict_get_In in E.
    change k with (fst (k, v0)). apply in_map; exact E.
  - apply dict_get_None in E. rewrite dict_set_fresh by exact E.
    unfold keys. rewrite map_app; reflexivity.
Qed.

Lemma dict_set_wf (d : dict K V) k v : dict_wf d -> dict_wf (dict_set d k v).
Proof.
  unfold dict_wf. intros W. rewrite keys_dict_set. unfold dict_mem.
  destruct (dict_get d k) eqn:E; [exact W|].
  apply dict_get_None in E.
  apply NoDup_rev in W. rewrite <- (rev_involutive (keys d ++ [k])).
  apply NoDup_rev. rewrite rev_app_distr; simpl. constructor; [|exact W].
  rewrite <- in_rev. exact E.
Qed.
End DictFacts.

Lemma string_key_ok (a b : string) : key_eqb a b = true <-> a = b.
Proof. apply String.eqb_eq. Qed.

Lemma nat_key_ok (a b : nat) : key_eqb a b = true <-> a = b.
Proof. apply Nat.eqb_eq. Qed.

Lemma pair_key_ok (a b : nat * nat) : key_eqb a b = true <-> a = b.
Proof.
  destruct a as [a1 a2], b as [b1 b2]. unfold key_eqb, pair_Key; simpl.
  rewrite andb_true_iff. unfold key_eqb, nat_Key. rewrite !Nat.eqb_eq.
  split; [intros [-> ->]; reflexivity | intros E; inversion E; auto].
Qed.

(** A property of the store that a computation keeps, however it ends. *)
Definition preserves {St A} (P : St -> Prop) (m : py St A) : Prop :=
  forall s r s', P s -> m s = (r, s') -> P s'.

Section Preserves.
Context {St : Type} (P : St -> Prop).

Lemma preserves_ret {A} (a : A) : preserves P (ret a).
Proof. intros s r s' H E; inversion E; subst; exact H. Qed.

Lemma preserves_raise {A} (e : exn) : preserves P (@raise St A e).
Proof. intros s r s' H E; inversion E; subst; exact H. Qed.

Lemma preserves_get : preserves P get.
Proof. intros s r s' H E; inversion E; subst; exact H. Qed.

Lemma preserves_lookup_or {A} e (o : option A) : preserves P (lookup_or e o).
Proof. destruct o; [apply preserves_ret | apply preserves_raise]. Qed.

Lemma preserves_lift {A} (r : exn + A) : preserves P (lift r).
Proof. destruct r; [apply preserves_raise | apply preserves_ret]. Qed.


Lemma preserves_modify (f : St -> St) :
  (forall s, P s -> P (f s)) -> preserves P (modify f).
Proof. intros F s r s' H E; inversion E; subst; auto. Qed.

Lemma preserves_put (s0 : St) : P s0 -> preserves P (put s0).
Proof. intros F s r s' H E; inversion E; subst; auto. Qed.

Lemma preserves_bind {A B} (m : py St A) (k : A -> py St B) :
  preserves P m -> (forall a, preserves P (k a)) -> preserves P (bind m k).
Proof.
  intros Hm Hk s r s' H E. unfold bind in E.
  destruct (m s) as [[e|a] s1] eqn:Em.
  - inversion E; subst. eapply Hm; eauto.
  - eapply Hk; [|exact E]. eapply Hm; eauto.
Qed.

Lemma preserves_for_each {A} (l : list A) (body : A -> py St unit) :
  (forall x, In x l -> preserves P (body x)) -> preserves P (for_each l body).
Proof.
  induction l as [|x l IH]; simpl; intros Hb.
  - apply preserves_ret.
  - apply preserves_bind; [apply Hb; auto|].
    intros _. apply IH. intros y I; apply Hb; auto.
Qed.

Lemma preserves_fold_m {A B} (l : list A) (body : B -> A -> py St B) :
  (forall acc x, In x l -> preserves P (body acc x)) ->
  forall acc, preserves P (fold_m l acc body).
Proof.
  induction l as [|x l IH]; simpl; intros Hb acc.
  - apply preserves_ret.
  - apply preserves_bind; [apply Hb; auto|].
    intros acc'. apply IH. intros a y I; apply Hb; auto.
Qed.
End Preserves.

(** Running a bind whose first part is known. *)
Lemma bind_inr {St A B} (m : py St A) (k : A -> py St B) s a s' :
  m s = (inr a, s') -> bind m k s = k a s'.
Proof. intros E; unfold bind; rewrite E; reflexivity. Qed.

Lemma bind_inl {St A B} (m : py St A) (k : A -> py St B) s e s' :
  m s = (inl e, s') -> bind m k s = (inl e, s').
Proof. intros E; unfold bind; rewrite E; reflexivity. Qed.

(** A bind that succeeds went through a success of its first part. *)
Lemma bind_success {St A B} (m : py St A) (k : A -> py St B) s b s' :
  bind m k s = (inr b, s') ->
  exists a s1, m s = (inr a, s1) /\ k a s1 = (inr b, s').
Proof.
  unfold bind. destruct (m s) as [[e|a] s1]; [discriminate|].
  intros E; exists a, s1; auto.
Qed.

Lemma lookup_or_success {St A} e (o : option A) (s : St) a s' :
  lookup_or e o s = (inr a, s') -> o = Some a /\ s' = s.
Proof. destruct o; unfold lookup_or, ret, raise; intros E; inversion E; auto. Qed.

Lemma lift_success {St A} (r : exn + A) (s : St) a s' :
  lift r s = (inr a, s') -> r = inr a /\ s' = s.
Proof. destruct r; unfold lift, ret, raise; intros E; inversion E; auto. Qed.

Lemma fold_m_invariant {St A B} (I : B -> Prop) (l : list A) (body : B -> A -> py St B) :
  (forall acc x s acc' s', In x l -> I acc -> body acc x s = (inr acc', s') -> I acc') ->
  forall acc s acc' s', I acc -> fold_m l acc body s = (inr acc', s') -> I acc'.
Proof.
  induction l as [|x l IH]; simpl; intros Hb acc s acc' s' Ha E.
  - inversion E; subst; exact Ha.
  - apply bind_success in E. destruct E as (a1 & s1 & E1 & E2).
    eapply IH; [| |exact E2].
    + intros; eapply Hb; eauto.
    + eapply Hb; eauto.
Qed.

Ltac py_step H a s H1 H2 :=
  apply bind_success in H; destruct H as (a & s & H1 & H2).

Lemma for_each_last {St A} (l : list A) (x : A) (body : A -> py St unit) s s' :
  for_each (l ++ [x]) body s = (inr tt, s') ->
  exists s1, for_each l body s = (inr tt, s1) /\ body x s1 = (inr tt, s').
Proof.
  revert s. induction l as [|y l IH]; intros s E; simpl in *.
  - exists s. split; [reflexivity|].
    unfold bind in E. destruct (body x s) as [[e|[]] s1]; inversion E; reflexivity.
  - apply bind_success in E. destruct E as ([] & s1 & E1 & E2).
    destruct (IH s1 E2) as (s2 & F1 & F2).
    exists s2. split; [|exact F2].
    rewrite (bind_inr _ _ _ _ _ E1). exact F1.
Qed.

Lemma fold_m_last {St A B} (l : list A) (x : A) (body : B -> A -> py St B) acc s r s' :
  fold_m (l ++ [x]) acc body s = (inr r, s') ->
  exists acc1 s1, fold_m l acc body s = (inr acc1, s1) /\ body acc1 x s1 = (inr r, s').
Proof.
  revert acc s. induction l as [|y l IH]; intros acc s E; simpl in *.
  - exists acc, s. split; [reflexivity|].
    unfold bind in E. destruct (body acc x s) as [[e|b] s1]; inversion E; reflexivity.
  - apply bind_success in E. destruct E as (acc1 & s1 & E1 & E2).
    destruct (IH acc1 s1 E2) as (acc2 & s2 & F1 & F2).
    exists acc2, s2. split; [|exact F2].
    rewrite (bind_inr _ _ _ _ _ E1). exact F1.
Qed.

(* ------------------------------------------------------------------ *)
(** * The wrapper chain (C9) *)
(* ------------------------------------------------------------------ *)

(** An optimizer that is not an [InheritFromOtherOptimizer] has no method
    [inherit_from]. *)
Lemma inherit_from_leaf (c : py_class) (sd : state_dict) (cls : py_class) :
  inherit_from (Leaf c sd) cls = inl AttributeError.
Proof. reflexivity. Qed.

Lemma well_formed_wrapper (o : Optimizer) :
  well_formed o = true ->
  isinstance o InheritFromOtherOptimizer = true ->
  exists c a inner, o = Wrapper c a inner.
Proof.
  destruct o as [c sd | c a inner]; simpl.
  - unfold isinstance. simpl class_of. intros W I. rewrite I in W. discriminate W.
  - intros _ _. exists c, a, inner. reflexivity.
Qed.

Lemma inherit_from_existsb (self : Optimizer) (cls : py_class) :
  well_formed self = true ->
  isinstance self InheritFromOtherOptimizer = true ->
  inherit_from self cls = inr (existsb (fun w => isinstance w cls) (wrapper_chain self)).
Proof.
  induction self as [c sd | c a inner IH]; intros W I.
  - destruct (well_formed_wrapper _ W I) as (c' & a' & inner' & E). discriminate E.
  - simpl in W. apply andb_prop in W. destruct W as [_ W].
    cbn [inherit_from wrapper_chain existsb].
    destruct (isinstance (Wrapper c a inner) cls); [reflexivity|].
    destruct (isinstance inner InheritFromOtherOptimizer) eqn:E.
    + rewrite (IH W eq_refl). reflexivity.
    + reflexivity.
Qed.

Lemma wrapper_chain_tail (self w : Optimizer) :
  In w (tl (wrapper_chain self)) -> isinstance w InheritFromOtherOptimizer = true.
Proof.
  induction self as [c sd | c a inner IH]; simpl; [tauto|].
  destruct (isinstance inner InheritFromOtherOptimizer) eqn:E; simpl; [|tauto].
  destruct inner as [c' sd' | c' a' inner']; simpl in *.
  - intros [<- | []]; exact E.
  - intros [<- | H]; [exact E | apply IH; exact H].
Qed.

(** The walk of [inherit_from].  On an [InheritFromOtherOptimizer] it
    returns, and returns [True] exactly when [self] or a wrapper reached
    through the [optimizer] fields is an instance of [cls]; every optimizer
    reached is an [InheritFromOtherOptimizer]; and when the wrapped optimizer
    is not one, the answer is that of [self] alone, whatever the wrapped
    optimizer is an instance of. *)
Lemma inherit_from_walks_wrappers (self : Optimizer) (cls : py_class) :
  well_formed self = true ->
  isinstance self InheritFromOtherOptimizer = true ->
  (exists b, inherit_from self cls = inr b)
  /\ (inherit_from self cls = inr true <->
      exists w, In w (wrapper_chain self) /\ isinstance w cls = true)
  /\ (forall w, In w (tl (wrapper_chain self)) ->
                isinstance w InheritFromOtherOptimizer = true)
  /\ (forall c a inner,
        self = Wrapper c a inner ->
        isinstance inner InheritFromOtherOptimizer = false ->
        inherit_from self cls = inr (isinstance self cls)).
Proof.
  intros W I. split; [|split; [|split]].
  - eexists. apply (inherit_from_existsb _ _ W I).
  - rewrite (inherit_from_existsb _ _ W I). rewrite <- existsb_exists.
    split; [intros [= H]; exact H | intros ->; reflexivity].
  - intros w; apply wrapper_chain_tail.
  - intros c a inner -> E. simpl. rewrite E.
    destruct (isinstance (Wrapper c a inner) cls); reflexivity.
Qed.

(** A torch optimizer inside a plain wrapper is an instance of
    [torch.optim.Optimizer], yet the wrapper does not inherit from it. *)
Example inherit_from_ignores_leaf :
  let leaf := Leaf torch_Optimizer empty_state_dict in
  isinstance leaf torch_Optimizer = true
  /\ inherit_from (Wrapper InheritFromOtherOptimizer no_attrs leaf) torch_Optimizer
     = inr false.
Proof. split; reflexivity. Qed.

(** C9, at a [ZeroDistributedOptimizer] below another wrapper.
    [inherit_from] finds it and [isinstance] does not, and the decisions of
    [save_optimizer] and [load_optimizer] are split between the two: the
    shards are written under the ZeRO names, one for each data-parallel rank
    (lines 73 and 134), next to a manifest that bears the class of the outer
    wrapper and no offsets (line 100); [load_optimizer] reads the ZeRO shard
    (line 381) and returns with the optimizer as it was (line 426).  The
    ZeRO optimizer alone gets the offsets in its manifest and the state of
    the shard. *)
Theorem wrapped_zero_is_zero_by_name_only :
  let optimizer := wrapped_zero_optimizer fresh_state in
  let zero := zero_optimizer offsets_2 shapes_4 fresh_state in
  inherit_from optimizer ZeroDistributedOptimizer = inr true
  /\ isinstance optimizer ZeroDistributedOptimizer = false
  /\ listdir checkpoint_wrapped_zero "ckpt/optimizer"
     = ["optimizer_config.json";
        "optimizer_pp-0-of-1_dp-0-of-2_tp-0-of-1_exp-0-of-1.pt";
        "optimizer_pp-0-of-1_dp-1-of-2_tp-0-of-1_exp-0-of-1.pt"]
  /\ load_config checkpoint_wrapped_zero "ckpt/optimizer"
     = inr {| cfg_type := "OptimizerFromGradientAccumulator";
              cfg_tp_size := 1; cfg_dp_size := 2; cfg_pp_size := 1;
              cfg_expert_parallel_size := 1;
              cfg_param_name_to_dp_rank_offsets := None;
              cfg_orig_param_shapes := None |}
  /\ load_optimizer_defaults optimizer (process 0 1 0 2) "ckpt" checkpoint_wrapped_zero
     = (inr optimizer,
        {| state_dict_var := Some state_of_rank0; dp_rank_var := None |})
  /\ load_config checkpoint_zero_2 "ckpt/optimizer" = inr config_zero_2
  /\ load_optimizer_defaults zero (process 0 1 0 2) "ckpt" checkpoint_zero_2
     = (inr (zero_optimizer offsets_2 shapes_4 state_of_rank0),
        {| state_dict_var := Some state_of_rank0; dp_rank_var := None |}).
Proof.
  cbv zeta. repeat split; vm_compute; reflexivity.
Qed.

(* ------------------------------------------------------------------ *)
(** * Numbers in file names *)
(* ------------------------------------------------------------------ *)

Lemma to_uint_nonnil (n : nat) : Nat.to_uint n <> Decimal.Nil.
Proof.
  intros H. assert (E : n = 0).
  { rewrite <- (DecimalNat.Unsigned.of_to n), H. reflexivity. }
  subst n. discriminate H.
Qed.

Lemma str_inj (n m : nat) : str n = str m -> n = m.
Proof.
  unfold str. intros H.
  apply DecimalNat.Unsigned.to_uint_inj.
  assert (A := NilZero.usu (Nat.to_uint n) (to_uint_nonnil n)).
  assert (B := NilZero.usu (Nat.to_uint m) (to_uint_nonnil m)).
  rewrite H in A. rewrite A in B. inversion B; reflexivity.
Qed.

Fixpoint digits (s : string) : Prop :=
  match s with
  | EmptyString => True
  | String c s' => is_digit c = true /\ digits s'
  end.

Lemma digits_uint (d : Decimal.uint) : digits (NilEmpty.string_of_uint d).
Proof. induction d; simpl; auto. Qed.

Lemma digits_str (n : nat) : digits (str n).
Proof.
  unfold str, NilZero.string_of_uint.
  destruct (Nat.to_uint n); try apply digits_uint.
  simpl; auto.
Qed.

Lemma append_inj_l (p x y : string) : p +++ x = p +++ y -> x = y.
Proof. induction p as [|c p IH]; simpl; intros H; [exact H | inversion H; auto]. Qed.

Lemma digits_before_dash (a b r r' : string) :
  digits a -> digits b ->
  a +++ String "-" r = b +++ String "-" r' -> a = b.
Proof.
  revert b. induction a as [|c a IH]; intros [|c' b] Da Db H; simpl in *.
  - reflexivity.
  - inversion H; subst c'. destruct Db as [Db _]. discriminate Db.
  - inversion H; subst c. destruct Da as [Da _]. discriminate Da.
  - inversion H; subst c'. f_equal. apply IH; tauto.
Qed.


(* ------------------------------------------------------------------ *)
(** * File names determine the coordinate of the process *)
(* ------------------------------------------------------------------ *)

Lemma digits_split (a b r r' : string) :
  digits a -> digits b -> no_digit_ahead r -> no_digit_ahead r' ->
  a +++ r = b +++ r' -> a = b /\ r = r'.
Proof.
  revert b. induction a as [|c a IH]; intros [|c' b] Da Db Nr Nr' H; simpl in *.
  - auto.
  - subst r. simpl in Nr. destruct Db as [Db _]. congruence.
  - subst r'. simpl in Nr'. destruct Da as [Da _]. congruence.
  - inversion H; subst c'. destruct Da as [_ Da], Db as [_ Db].
    destruct (IH b Da Db Nr Nr' H2) as [-> ->]. auto.
Qed.

(** A number, a literal that starts with no digit, and the rest. *)
Lemma segment_inj (lit : string) (n m : nat) (r r' : string) :
  no_digit_ahead (lit +++ r) -> no_digit_ahead (lit +++ r') ->
  str n +++ lit +++ r = str m +++ lit +++ r' -> n = m /\ r = r'.
Proof.
  intros N N' H.
  destruct (digits_split _ _ _ _ (digits_str n) (digits_str m) N N' H) as [A B].
  split; [apply str_inj; exact A | apply (append_inj_l lit); exact B].
Qed.

Lemma rank_tag_inj pp pps dp tp tps ex exs pp' pps' dp' tp' tps' ex' exs' :
  rank_tag pp pps dp tp tps ex exs = rank_tag pp' pps' dp' tp' tps' ex' exs' ->
  pp = pp' /\ pps = pps' /\ dp = dp' /\ tp = tp' /\ tps = tps' /\ ex = ex' /\ exs = exs'.
Proof.
  unfold rank_tag. intros H.
  apply (append_inj_l "_pp-") in H.
  apply (segment_inj "-of-") in H; [|reflexivity|reflexivity]. destruct H as [-> H].
  destruct dp as [[dp dps]|], dp' as [[dp' dps']|]; cbv beta iota in H.
  - apply (segment_inj "_dp-") in H; [|reflexivity|reflexivity]. destruct H as [-> H].
    apply (segment_inj "-of-") in H; [|reflexivity|reflexivity]. destruct H as [-> H].
    apply (segment_inj "_tp-") in H; [|reflexivity|reflexivity]. destruct H as [-> H].
    apply (segment_inj "-of-") in H; [|reflexivity|reflexivity]. destruct H as [-> H].
    apply (segment_inj "_exp-") in H; [|reflexivity|reflexivity]. destruct H as [-> H].
    apply (segment_inj "-of-") in H; [|reflexivity|reflexivity]. destruct H as [-> H].
    apply (segment_inj ".pt" _ _ "" "") in H; [|reflexivity|reflexivity].
    destruct H as [-> _]. repeat split.
  - exfalso.
    destruct (digits_split _ _ _ _ (digits_str pps) (digits_str pps')
                (eq_refl : no_digit_ahead ("_dp-" +++ _))
                (eq_refl : no_digit_ahead ("_tp-" +++ _)) H) as [_ B].
    cbn [String.append] in B. discriminate B.
  - exfalso.
    destruct (digits_split _ _ _ _ (digits_str pps) (digits_str pps')
                (eq_refl : no_digit_ahead ("_tp-" +++ _))
                (eq_refl : no_digit_ahead ("_dp-" +++ _)) H) as [_ B].
    cbn [String.append] in B. discriminate B.
  - apply (segment_inj "_tp-") in H; [|reflexivity|reflexivity]. destruct H as [-> H].
    apply (segment_inj "-of-") in H; [|reflexivity|reflexivity]. destruct H as [-> H].
    apply (segment_inj "_exp-") in H; [|reflexivity|reflexivity]. destruct H as [-> H].
    apply (segment_inj "-of-") in H; [|reflexivity|reflexivity]. destruct H as [-> H].
    apply (segment_inj ".pt" _ _ "" "") in H; [|reflexivity|reflexivity].
    destruct H as [-> _]. repeat split.
Qed.

Lemma get_optimizer_filename_tag tp tps pp pps dp dps ex exs (z : bool) :
  get_optimizer_filename (tp, tps) (pp, pps) (Some (dp, dps)) (Some (ex, exs)) (Some z)
  = inr (OPTIMIZER_value
         +++ rank_tag pp pps (if z then Some (dp, dps) else None) tp tps ex exs).
Proof. destruct z; reflexivity. Qed.

(** Two optimizers and processes whose shards get the same name agree on
    being ZeRO and on the coordinate, under ZeRO with the data-parallel
    rank and size. *)
Lemma shard_filename_inj (optimizer optimizer' : Optimizer) (pc pc' : ParallelContext)
      (z z' : bool) (name : string) :
  inherit_from optimizer ZeroDistributedOptimizer = inr z ->
  inherit_from optimizer' ZeroDistributedOptimizer = inr z' ->
  shard_filename optimizer pc = inr name ->
  shard_filename optimizer' pc' = inr name ->
  z = z' /\ same_coordinate z pc pc'.
Proof.
  unfold shard_filename. intros -> ->.
  rewrite !get_optimizer_filename_tag. intros H H'.
  assert (E : OPTIMIZER_value
              +++ rank_tag (pp_rank pc) (pp_size pc)
                    (if z then Some (dp_rank pc, dp_size pc) else None)
                    (tp_rank pc) (tp_size pc) (expert_rank pc) (expert_parallel_size pc)
              = OPTIMIZER_value
                +++ rank_tag (pp_rank pc') (pp_size pc')
                      (if z' then Some (dp_rank pc', dp_size pc') else None)
                      (tp_rank pc') (tp_size pc') (expert_rank pc')
                      (expert_parallel_size pc'))
    by congruence.
  apply append_inj_l in E. apply rank_tag_inj in E.
  destruct E as (E1 & E2 & D & E3 & E4 & E5 & E6).
  unfold same_coordinate.
  destruct z, z'; try discriminate D; (split; [reflexivity|]);
    repeat (split; [assumption|]); intros T; try discriminate T.
  inversion D; auto.
Qed.

(* ------------------------------------------------------------------ *)
(** * Who writes a shard (C8) *)
(* ------------------------------------------------------------------ *)

Lemma read_after_write (fs : filesystem) folder entries name f :
  dict_get fs folder = Some entries ->
  exists fs', write_file folder name f fs = (inr tt, fs')
              /\ dict_get fs' folder = Some (dict_set entries name f).
Proof.
  intros E. unfold write_file, bind, get, lookup_or, put, ret. rewrite E.
  eexists; split; [reflexivity|].
  apply (dict_get_set_eq string_key_ok).
Qed.

Lemma mkdir_makes (fs : filesystem) folder :
  exists fs' entries, mkdir folder fs = (inr tt, fs') /\ dict_get fs' folder = Some entries.
Proof.
  unfold mkdir, modify. destruct (dict_get fs folder) as [entries|] eqn:E.
  - exists fs, entries. split; [reflexivity | exact E].
  - exists (dict_set fs folder []), []. 
    split; [reflexivity | apply (dict_get_set_eq string_key_ok)].
Qed.

Lemma shard_filename_total (optimizer : Optimizer) (pc : ParallelContext) (z : bool) :
  inherit_from optimizer ZeroDistributedOptimizer = inr z ->
  exists name, shard_filename optimizer pc = inr name.
Proof.
  unfold shard_filename, get_optimizer_filename. intros ->.
  destruct z; eexists; reflexivity.
Qed.

(** C8.  [save_optimizer] asks the optimizer whether it is ZeRO (line 73;
    an optimizer without the method [inherit_from] raises there, with
    nothing written).  For an optimizer that is not ZeRO on a process of
    data-parallel rank above 0, [save_optimizer] returns with the file system
    as it was: no folder and no file is created.  In every other case (ZeRO
    on any rank, or rank 0) it returns with the state of the optimizer
    written under the name of the coordinate of the process.  That name is
    the process's own: a process that gets the same name for its shard
    agrees on ZeRO and has the same tensor, pipeline and expert coordinate
    and, under ZeRO, the same data-parallel rank and size. *)
Theorem save_optimizer_writes_iff (optimizer : Optimizer) (pc : ParallelContext)
    (root_folder : string) (fs : filesystem)
    (Hoffsets : offsets_present optimizer = true) :
  match inherit_from optimizer ZeroDistributedOptimizer with
  | inl e => save_optimizer optimizer pc root_folder fs = (inl e, fs)
  | inr is_zero =>
      if is_zero || (dp_rank pc =? 0)
      then exists name fs',
             shard_filename optimizer pc = inr name
             /\ save_optimizer optimizer pc root_folder fs = (inr tt, fs')
             /\ read_file fs' (root_folder +++ "/optimizer") name
                = inr (ShardFile (optimizer_state_dict optimizer))
             /\ forall (optimizer' : Optimizer) (pc' : ParallelContext),
                  shard_filename optimizer' pc' = inr name ->
                  inherit_from optimizer' ZeroDistributedOptimizer = inr is_zero
                  /\ same_coordinate is_zero pc pc'
      else save_optimizer optimizer pc root_folder fs = (inr tt, fs)
  end.
Proof.
  unfold save_optimizer.
  destruct (inherit_from optimizer ZeroDistributedOptimizer) as [e|z] eqn:Hz;
    [reflexivity|].
  rewrite (bind_inr _ _ fs z fs) by reflexivity. cbv beta.
  assert (G : negb z && (0 <? dp_rank pc) = negb (z || (dp_rank pc =? 0))).
  { rewrite negb_orb. f_equal. destruct (dp_rank pc); reflexivity. }
  rewrite G.
  destruct (z || (dp_rank pc =? 0)) eqn:W; simpl; [|reflexivity].
  destruct (shard_filename_total optimizer pc z Hz) as [name Hn].
  exists name.
  assert (Own : forall (optimizer' : Optimizer) (pc' : ParallelContext),
             shard_filename optimizer' pc' = inr name ->
             inherit_from optimizer' ZeroDistributedOptimizer = inr z
             /\ same_coordinate z pc pc').
  { intros optimizer' pc' Hn'.
    destruct (inherit_from optimizer' ZeroDistributedOptimizer) as [e'|z'] eqn:Hz'.
    - unfold shard_filename in Hn'. rewrite Hz' in Hn'. discriminate Hn'.
    - destruct (shard_filename_inj optimizer optimizer' pc pc' z z' name Hz Hz' Hn Hn')
        as [<- C].
      split; [reflexivity | exact C]. }
  assert (Hg : get_optimizer_filename
                 (tp_rank pc, tp_size pc) (pp_rank pc, pp_size pc)
                 (Some (dp_rank pc, dp_size pc))
                 (Some (expert_rank pc, expert_parallel_size pc)) (Some z) = inr name).
  { unfold shard_filename in Hn. rewrite Hz in Hn. exact Hn. }
  destruct (mkdir_makes fs (root_folder +++ "/optimizer")) as (fs1 & en1 & M1 & G1).
  rewrite (bind_inr _ _ _ _ _ M1). cbv beta.
  assert (S : forall fs2 en2, dict_get fs2 (root_folder +++ "/optimizer") = Some en2 ->
            exists fs',
              bind (lift (inr z))
                   (fun is_zero : bool =>
                      bind (lift (get_optimizer_filename
                                    (tp_rank pc, tp_size pc) (pp_rank pc, pp_size pc)
                                    (Some (dp_rank pc, dp_size pc))
                                    (Some (expert_rank pc, expert_parallel_size pc))
                                    (Some is_zero)))
                           (fun name => write_file (root_folder +++ "/optimizer") name
                                          (ShardFile (optimizer_state_dict optimizer)))) fs2
              = (inr tt, fs')
              /\ read_file fs' (root_folder +++ "/optimizer") name
                 = inr (ShardFile (optimizer_state_dict optimizer))).
  { intros fs2 en2 G2.
    rewrite (bind_inr _ _ fs2 z fs2) by reflexivity. cbv beta.
    rewrite Hg. unfold lift.
    destruct (read_after_write fs2 _ _ name (ShardFile (optimizer_state_dict optimizer)) G2)
      as (fs' & Wr & Gt).
    exists fs'. split; [exact Wr|].
    unfold read_file. rewrite Gt, (dict_get_set_eq string_key_ok). reflexivity. }
  destruct (world_rank pc =? 0).
  - destruct (read_after_write fs1 _ _ OPTIMIZER_CONFIG_FILE_NAME EmptyFile G1)
      as (fs2 & W2 & G2).
    match goal with
    | |- exists fs', _ /\ bind (bind ?w ?k) ?k2 _ = _ /\ _ =>
        assert (C : exists fs3 en3, bind w k fs1 = (inr tt, fs3)
                    /\ dict_get fs3 (root_folder +++ "/optimizer") = Some en3)
    end.
    { rewrite (bind_inr _ _ _ _ _ W2). cbv beta zeta.
      unfold offsets_present in Hoffsets.
      assert (Fin : forall config,
                exists fs3 en3,
                  write_file (root_folder +++ "/optimizer") OPTIMIZER_CONFIG_FILE_NAME
                             (ConfigFile config) fs2 = (inr tt, fs3)
                  /\ dict_get fs3 (root_folder +++ "/optimizer") = Some en3).
      { intros config.
        destruct (read_after_write fs2 _ _ OPTIMIZER_CONFIG_FILE_NAME (ConfigFile config) G2)
          as (fs3 & W3 & G3).
        exists fs3; eexists; split; [exact W3 | exact G3]. }
      destruct (isinstance optimizer ZeroDistributedOptimizer).
      - destruct (attrs_of optimizer) as [attrs|]; [|discriminate].
        destruct (param_name_to_dp_rank_offsets attrs) as [t|] eqn:Hp; [|discriminate].
        unfold bind at 1 2. unfold lookup_or at 1. unfold ret at 1.
        rewrite Hp. unfold ret at 1. apply Fin.
      - unfold bind at 1. unfold ret at 1. apply Fin. }
    destruct C as (fs3 & en3 & C & G3).
    rewrite (bind_inr _ _ _ _ _ C). cbv beta.
    destruct (S fs3 en3 G3) as (fs' & R1 & R2).
    exists fs'. split; [exact Hn|]. split; [exact R1|]. split; [exact R2 | exact Own].
  - rewrite (bind_inr _ _ fs1 tt fs1) by reflexivity. cbv beta.
    destruct (S fs1 en1 G1) as (fs' & R1 & R2).
    exists fs'. split; [exact Hn|]. split; [exact R1|]. split; [exact R2 | exact Own].
Qed.

Lemma save_optimizer_writes_iff_witness :
  offsets_present (zero_optimizer offsets_2 shapes_4 state_of_rank1) = true
  /\ exists name fs',
       shard_filename (zero_optimizer offsets_2 shapes_4 state_of_rank1) (process 0 1 1 2)
       = inr name
       /\ save_optimizer (zero_optimizer offsets_2 shapes_4 state_of_rank1)
                         (process 0 1 1 2) "ckpt" [] = (inr tt, fs')
       /\ read_file fs' ("ckpt" +++ "/optimizer") name = inr (ShardFile state_of_rank1)
       /\ forall (optimizer' : Optimizer) (pc' : ParallelContext),
            shard_filename optimizer' pc' = inr name ->
            inherit_from optimizer' ZeroDistributedOptimizer = inr true
            /\ same_coordinate true (process 0 1 1 2) pc'.
Proof.
  split; [reflexivity|].
  exact (save_optimizer_writes_iff (zero_optimizer offsets_2 shapes_4 state_of_rank1)
                                   (process 0 1 1 2) "ckpt" [] eq_refl).
Defined.

(** A replicated optimizer on data-parallel rank 1 writes nothing. *)
Example replicated_rank1_writes_nothing :
  save_optimizer (replicated_optimizer state_of_rank1) (process 0 1 1 2) "ckpt" []
  = (inr tt, []).
Proof. reflexivity. Qed.

(** A torch optimizer that is not wrapped has no [inherit_from]. *)
Example bare_optimizer_is_refused :
  save_optimizer (Leaf torch_Optimizer state_of_rank1) (process 0 1 0 2) "ckpt" []
  = (inl AttributeError, []).
Proof. reflexivity. Qed.

(* ------------------------------------------------------------------ *)
(** * Shard names and the patterns that look for them (C4) *)
(* ------------------------------------------------------------------ *)

Definition literal (l : list ascii) : Prop :=
  Forall (fun c => (c =? "*")%char = false /\ (c =? "?")%char = false) l.

Lemma glob_match_literal (l p s : list ascii) :
  literal l -> glob_match (l ++ p) (l ++ s) = glob_match p s.
Proof.
  induction 1 as [|c l [H1 H2] _ IH]; simpl; [reflexivity|].
  rewrite H1, H2, Ascii.eqb_refl. simpl. exact IH.
Qed.

Lemma glob_match_star (p x s : list ascii) :
  glob_match p s = true -> glob_match ("*"%char :: p) (x ++ s) = true.
Proof.
  intros H. simpl. induction x as [|c x IH]; simpl.
  - destruct s; rewrite H; reflexivity.
  - rewrite IH. apply orb_true_r.
Qed.

Lemma list_ascii_app (a b : string) :
  list_ascii_of_string (a +++ b) = list_ascii_of_string a ++ list_ascii_of_string b.
Proof. induction a as [|c a IH]; simpl; [reflexivity | rewrite IH; reflexivity]. Qed.

Lemma literal_uint (d : Decimal.uint) :
  literal (list_ascii_of_string (NilEmpty.string_of_uint d)).
Proof.
  induction d; simpl; constructor; auto; split; reflexivity.
Qed.

Lemma literal_str (n : nat) : literal (list_ascii_of_string (str n)).
Proof.
  unfold str, NilZero.string_of_uint.
  destruct (Nat.to_uint n); try apply literal_uint.
  repeat constructor.
Qed.

Lemma literal_app (a b : list ascii) : literal a -> literal b -> literal (a ++ b).
Proof. intros A B. apply Forall_app; split; assumption. Qed.

(** A pattern [lit * rest] matches [lit x s] when [rest] matches [s]. *)
Lemma glob_match_segment (lit x p s : list ascii) :
  literal lit ->
  glob_match p s = true ->
  glob_match (lit ++ "*"%char :: p) (lit ++ x ++ s) = true.
Proof.
  intros L H. rewrite glob_match_literal by exact L. apply glob_match_star; exact H.
Qed.

(** The name of a ZeRO shard, as [get_optimizer_filename] builds it. *)
Definition zero_shard_name (tp pp dp ex tps pps dps exs : nat) : string :=
  OPTIMIZER_value +++ "_pp-" +++ str pp +++ "-of-" +++ str pps
  +++ "_dp-" +++ str dp +++ "-of-" +++ str dps
  +++ "_tp-" +++ str tp +++ "-of-" +++ str tps
  +++ "_exp-" +++ str ex +++ "-of-" +++ str exs +++ ".pt".

Lemma zero_shard_name_matches (tp pp dp ex tps pps dps exs : nat) :
  fnmatch (zero_shard_name tp pp dp ex tps pps dps exs)
          (zero_shard_pattern pps dps tps exs) = true.
Proof.
  unfold fnmatch, zero_shard_pattern, zero_shard_name, OPTIMIZER_value.
  repeat rewrite list_ascii_app.
  change (list_ascii_of_string "_pp-*-of-")
    with (list_ascii_of_string "_pp-" ++ "*"%char :: list_ascii_of_string "-of-").
  change (list_ascii_of_string "_dp-*-of-")
    with (list_ascii_of_string "_dp-" ++ "*"%char :: list_ascii_of_string "-of-").
  change (list_ascii_of_string "_tp-*-of-")
    with (list_ascii_of_string "_tp-" ++ "*"%char :: list_ascii_of_string "-of-").
  change (list_ascii_of_string "_exp-*-of-")
    with (list_ascii_of_string "_exp-" ++ "*"%char :: list_ascii_of_string "-of-").
  assert (Lo : literal (list_ascii_of_string "optimizer")) by (repeat constructor).
  assert (Lof : literal (list_ascii_of_string "-of-")) by (repeat constructor).
  assert (Lpp : literal (list_ascii_of_string "_pp-")) by (repeat constructor).
  assert (Ldp : literal (list_ascii_of_string "_dp-")) by (repeat constructor).
  assert (Ltp : literal (list_ascii_of_string "_tp-")) by (repeat constructor).
  assert (Lex : literal (list_ascii_of_string "_exp-")) by (repeat constructor).
  repeat rewrite <- app_assoc.
  rewrite (glob_match_literal _ _ _ Lo).
  repeat rewrite <- app_comm_cons.
  apply glob_match_segment; [exact Lpp|].
  rewrite (glob_match_literal _ _ _ Lof), (glob_match_literal _ _ _ (literal_str pps)).
  apply glob_match_segment; [exact Ldp|].
  rewrite (glob_match_literal _ _ _ Lof), (glob_match_literal _ _ _ (literal_str dps)).
  apply glob_match_segment; [exact Ltp|].
  rewrite (glob_match_literal _ _ _ Lof), (glob_match_literal _ _ _ (literal_str tps)).
  apply glob_match_segment; [exact Lex|].
  rewrite (glob_match_literal _ _ _ Lof), (glob_match_literal _ _ _ (literal_str exs)).
  reflexivity.
Qed.

(** X22.  The pattern for ZeRO checkpoints finds every ZeRO shard of the recorded
    sizes, whatever its ranks. *)
Lemma zero_pattern_matches (tp pp dp ex tps pps dps exs : nat) (name : string) :
  get_optimizer_filename (tp, tps) (pp, pps) (Some (dp, dps)) (Some (ex, exs)) (Some true)
  = inr name ->
  fnmatch name (zero_shard_pattern pps dps tps exs) = true.
Proof.
  intros H.
  assert (E : @inr exn string name = inr (zero_shard_name tp pp dp ex tps pps dps exs))
    by (rewrite <- H; reflexivity).
  injection E as ->. apply zero_shard_name_matches.
Qed.

(** C4, at a checkpoint that is not ZeRO, of tensor-parallel size 2 and
    expert size 1: the shard [save_optimizer] writes is not matched by the
    pattern [load_optimizer] globs with, so no shard is found. *)
Theorem replicated_pattern_misses_shard :
  let optimizer := replicated_optimizer (one_param_state [1%Z] [2%Z] 3%Z [4%Z]) in
  let name := "optimizer_pp-0-of-1_tp-0-of-2_exp-0-of-1.pt" in
  shard_filename optimizer (process 0 2 0 1) = inr name
  /\ fnmatch name (replicated_shard_pattern 1 2) = false
  /\ exists fs,
       save_all [(optimizer, process 0 2 0 1); (optimizer, process 1 2 0 1)] "ckpt" []
       = (inr tt, fs)
       /\ keys (match dict_get fs "ckpt/optimizer" with Some e => e | None => [] end)
          = ["optimizer_config.json";
             "optimizer_pp-0-of-1_tp-0-of-2_exp-0-of-1.pt";
             "optimizer_pp-0-of-1_tp-1-of-2_exp-0-of-1.pt"]
       /\ glob fs "ckpt/optimizer" (replicated_shard_pattern 1 2) = [].
Proof.
  cbv zeta. split; [reflexivity|]. split; [vm_compute; reflexivity|].
  eexists. split; [vm_compute; reflexivity|]. split; vm_compute; reflexivity.
Qed.
(* ------------------------------------------------------------------ *)
(** * One shard file per data-parallel rank under ZeRO *)
(* ------------------------------------------------------------------ *)

Lemma zero_shard_names_differ (tp pp dp dp' ex tps pps dps exs : nat) :
  dp <> dp' ->
  zero_shard_name tp pp dp ex tps pps dps exs <> zero_shard_name tp pp dp' ex tps pps dps exs.
Proof.
  intros N H. apply N. apply str_inj.
  unfold zero_shard_name in H.
  do 6 apply append_inj_l in H.
  apply (digits_before_dash _ _ _ _ (digits_str dp) (digits_str dp') H).
Qed.

(** Under ZeRO, two processes that differ in their data-parallel rank only
    write their shards under different names. *)
Lemma zero_ranks_write_distinct_files (optimizer : Optimizer) (pc pc' : ParallelContext)
      (name name' : string) :
  inherit_from optimizer ZeroDistributedOptimizer = inr true ->
  tp_rank pc = tp_rank pc' -> tp_size pc = tp_size pc' ->
  pp_rank pc = pp_rank pc' -> pp_size pc = pp_size pc' ->
  expert_rank pc = expert_rank pc' ->
  expert_parallel_size pc = expert_parallel_size pc' ->
  dp_size pc = dp_size pc' ->
  dp_rank pc <> dp_rank pc' ->
  shard_filename optimizer pc = inr name ->
  shard_filename optimizer pc' = inr name' ->
  name <> name'.
Proof.
  intros Hz E1 E2 E3 E4 E5 E6 E7 N H H'.
  unfold shard_filename in H, H'. rewrite Hz in H, H'.
  rewrite <- E1, <- E2, <- E3, <- E4, <- E5, <- E6, <- E7 in H'.
  assert (A : @inr exn string name
              = inr (zero_shard_name (tp_rank pc) (pp_rank pc) (dp_rank pc) (expert_rank pc)
                       (tp_size pc) (pp_size pc) (dp_size pc) (expert_parallel_size pc)))
    by (rewrite <- H; reflexivity).
  assert (B : @inr exn string name'
              = inr (zero_shard_name (tp_rank pc) (pp_rank pc) (dp_rank pc') (expert_rank pc)
                       (tp_size pc) (pp_size pc) (dp_size pc) (expert_parallel_size pc)))
    by (rewrite <- H'; reflexivity).
  injection A as ->. injection B as ->.
  apply zero_shard_names_differ. exact N.
Qed.

(* ------------------------------------------------------------------ *)
(** * Moving a state to a device (C10) *)
(* ------------------------------------------------------------------ *)

Section UpdateInPlace.
Context {K V : Type} `{Key K}.
Hypothesis key_ok : forall a b : K, key_eqb a b = true <-> a = b.
Variable f : V -> V.

Lemma dict_set_middle (a b : dict K V) k v v' :
  ~ In k (keys a) -> dict_set (a ++ (k, v) :: b) k v' = a ++ (k, v') :: b.
Proof.
  induction a as [|[k0 v0] a IH]; simpl; intros N.
  - rewrite (key_eqb_refl key_ok); reflexivity.
  - rewrite (key_eqb_neq key_ok) by (intros ->; auto).
    rewrite IH by auto. reflexivity.
Qed.

Lemma dict_set_same (d : dict K V) k v : dict_get d k = Some v -> dict_set d k v = d.
Proof.
  induction d as [|[k0 v0] d IH]; simpl; [discriminate|].
  destruct (key_eqb k0 k) eqn:E.
  - intros [= ->]; reflexivity.
  - intros G; rewrite IH by exact G; reflexivity.
Qed.

Lemma dict_set_set (d : dict K V) k v v' :
  dict_set (dict_set d k v) k v' = dict_set d k v'.
Proof.
  induction d as [|[k0 v0] d IH]; simpl.
  - rewrite (key_eqb_refl key_ok); reflexivity.
  - destruct (key_eqb k0 k) eqn:E; simpl; rewrite E; [reflexivity|].
    rewrite IH; reflexivity.
Qed.

(** Setting every key of a dictionary to the image of its value, one key
    after the other, is mapping over the values. *)
Lemma update_each_prefix (done todo : dict K V) :
  dict_wf (done ++ todo) ->
  fold_left (fun acc kv => dict_set acc (fst kv) (f (snd kv))) todo
            (map_values f done ++ todo)
  = map_values f (done ++ todo).
Proof.
  revert done. induction todo as [|[k v] todo IH]; intros done W; simpl.
  - rewrite !app_nil_r; reflexivity.
  - rewrite dict_set_middle.
    + replace (map_values f done ++ (k, f v) :: todo)
        with (map_values f (done ++ [(k, v)]) ++ todo)
        by (unfold map_values; rewrite map_app, <- app_assoc; reflexivity).
      rewrite IH by (rewrite <- app_assoc; exact W).
      rewrite <- app_assoc; reflexivity.
    + unfold dict_wf, keys in W. rewrite map_app in W. simpl in W.
      apply NoDup_remove_2 in W. intros I; apply W.
      apply in_or_app; left.
      unfold keys, map_values in I. rewrite map_map in I. exact I.
Qed.

Lemma update_each (d : dict K V) :
  dict_wf d ->
  fold_left (fun acc kv => dict_set acc (fst kv) (f (snd kv))) d d = map_values f d.
Proof. intros W. apply (update_each_prefix [] d W). Qed.
End UpdateInPlace.

Lemma dict_get_map_values {K A B} `{Key K} (f : A -> B) (d : dict K A) k :
  dict_get (map_values f d) k = option_map f (dict_get d k).
Proof.
  induction d as [|[k0 v0] d IH]; simpl; [reflexivity|].
  destruct (key_eqb k0 k); [reflexivity | exact IH].
Qed.

Lemma keys_map_values {K A B} (f : A -> B) (d : dict K A) :
  keys (map_values f d) = keys d.
Proof. unfold keys, map_values. rewrite map_map. reflexivity. Qed.

Section UpdateAll.
Context {V : Type}.
Variable G : V -> V.

Definition updated (l st : dict nat V) : dict nat V :=
  map (fun kv => (fst kv, match dict_get l (fst kv) with
                          | Some e => G e
                          | None => snd kv
                          end)) st.

Lemma dict_set_as_map (st : dict nat V) k v :
  dict_wf st -> In k (keys st) ->
  dict_set st k v = map (fun kv => if fst kv =? k then (fst kv, v) else kv) st.
Proof.
  unfold dict_wf. induction st as [|[k0 v0] st IH]; simpl; [tauto|].
  intros W I. inversion W as [|? ? N W']; subst.
  unfold key_eqb, nat_Key. destruct (k0 =? k) eqn:E.
  - apply Nat.eqb_eq in E; subst k0. f_equal.
    rewrite <- (map_id st) at 1. apply map_ext_in.
    intros [k1 v1] I1; simpl. destruct (k1 =? k) eqn:E1; [|reflexivity].
    apply Nat.eqb_eq in E1; subst. exfalso; apply N.
    change k with (fst (k, v1)); apply in_map; exact I1.
  - f_equal. apply IH; [exact W'|].
    destruct I as [->|I]; [rewrite Nat.eqb_refl in E; discriminate | exact I].
Qed.

Lemma fold_set_updated (l st : dict nat V) :
  dict_wf l -> dict_wf st -> incl (keys l) (keys st) ->
  fold_left (fun st kv => dict_set st (fst kv) (G (snd kv))) l st = updated l st.
Proof.
  revert st. induction l as [|[k e] l IH]; intros st Wl Wst I; simpl.
  - unfold updated; simpl. rewrite <- (map_id st) at 1.
    apply map_ext; intros [a b]; reflexivity.
  - inversion Wl as [|? ? N Wl']; subst.
    rewrite dict_set_as_map by (auto; apply I; left; reflexivity).
    rewrite IH.
    + unfold updated. rewrite map_map. apply map_ext.
      intros [k1 v1]; simpl. change (key_eqb k k1) with (k =? k1).
      rewrite (Nat.eqb_sym k k1).
      destruct (k1 =? k) eqn:E; simpl; [|reflexivity].
      apply Nat.eqb_eq in E; subst k1.
      assert (Hn : dict_get l k = None) by (apply (dict_get_None nat_key_ok); exact N).
      rewrite Hn; reflexivity.
    + exact Wl'.
    + unfold dict_wf, keys. rewrite map_map.
      erewrite map_ext; [exact Wst|].
      intros [k1 v1]; simpl. destruct (k1 =? k); reflexivity.
    + intros x Hx. unfold keys. rewrite map_map.
      erewrite map_ext; [apply I; right; exact Hx|].
      intros [k1 v1]; simpl. destruct (k1 =? k); reflexivity.
Qed.

Lemma insert_by_key_perm (x : nat * V) l : Permutation (insert_by_key x l) (x :: l).
Proof.
  induction l as [|y l IH]; simpl; [reflexivity|].
  destruct (fst x <? fst y); [reflexivity|].
  rewrite IH. apply perm_swap.
Qed.

Lemma sorted_by_key_perm (l : list (nat * V)) : Permutation (sorted_by_key l) l.
Proof.
  unfold sorted_by_key.
  assert (Hg : forall acc, Permutation (fold_left (fun acc x => insert_by_key x acc) l acc)
                                       (l ++ acc)).
  { induction l as [|x l IH]; intros acc; simpl; [reflexivity|].
    rewrite IH, insert_by_key_perm. symmetry. apply Permutation_middle. }
  rewrite Hg, app_nil_r. reflexivity.
Qed.

(** Updating every entry, in sorted order of the keys, maps over all. *)
Lemma fold_set_sorted (st : dict nat V) :
  dict_wf st ->
  fold_left (fun st kv => dict_set st (fst kv) (G (snd kv))) (sorted_by_key st) st
  = map_values G st.
Proof.
  intros W.
  assert (P := sorted_by_key_perm st).
  assert (Ws : dict_wf (sorted_by_key st)).
  { unfold dict_wf, keys. eapply Permutation_NoDup; [|exact W].
    apply Permutation_map. symmetry; exact P. }
  rewrite fold_set_updated; [|exact Ws|exact W|].
  - unfold updated, map_values. apply map_ext_in. intros [k v] I; simpl.
    rewrite (In_dict_get nat_key_ok (sorted_by_key st) k v Ws); [reflexivity|].
    eapply Permutation_in; [symmetry; exact P | exact I].
  - intros k Hk. eapply Permutation_in; [|exact Hk].
    apply Permutation_map. exact P.
Qed.
End UpdateAll.

Lemma set_sd_state_id (sd : state_dict) : set_sd_state sd (sd_state sd) = sd.
Proof. destruct sd; reflexivity. Qed.

Lemma state_getitem_found (sd : state_dict) index e :
  dict_get (sd_state sd) index = Some e -> state_getitem index sd = (inr e, sd).
Proof. intros E. unfold state_getitem, bind, get. rewrite E. reflexivity. Qed.

Lemma state_setitem_found (sd : state_dict) index e name t :
  dict_get (sd_state sd) index = Some e ->
  state_setitem index name t sd
  = (inr tt, set_sd_state sd (dict_set (sd_state sd) index (dict_set e name t))).
Proof.
  intros E. unfold state_setitem. rewrite (bind_inr _ _ _ _ _ (state_getitem_found _ _ _ E)).
  reflexivity.
Qed.

(** The inner loop of lines 168-169 on one entry. *)
Lemma move_entry (d : device) (index : nat) (l : dict string tensor) :
  forall (sd : state_dict) (e : dict string tensor),
    dict_get (sd_state sd) index = Some e ->
    for_each l (fun '(name, tensor) => state_setitem index name (to tensor d)) sd
    = (inr tt,
       set_sd_state sd
         (dict_set (sd_state sd) index
            (fold_left (fun acc kv => dict_set acc (fst kv) (to (snd kv) d)) l e))).
Proof.
  induction l as [|[name t] l IH]; intros sd e E; simpl.
  - unfold ret. rewrite (dict_set_same _ _ _ E), set_sd_state_id. reflexivity.
  - rewrite (bind_inr _ _ _ _ _ (state_setitem_found _ _ _ _ _ E)).
    rewrite (IH _ (dict_set e name (to t d))).
    + simpl. rewrite (dict_set_set nat_key_ok). reflexivity.
    + simpl. apply (dict_get_set_eq nat_key_ok).
Qed.

(** The loop of lines 167-169 over any list of entries that are in the
    dictionary under distinct keys. *)
Lemma move_entries (d : device) (items : dict nat (dict string tensor)) :
  forall sd : state_dict,
    dict_wf items ->
    (forall k e, In (k, e) items -> dict_get (sd_state sd) k = Some e /\ dict_wf e) ->
    for_each items (fun '(index, optim_state) =>
      for_each optim_state (fun '(name, tensor) =>
        state_setitem index name (to tensor d))) sd
    = (inr tt,
       set_sd_state sd
         (fold_left (fun st kv => dict_set st (fst kv)
                                    (map_values (fun t => to t d) (snd kv)))
                    items (sd_state sd))).
Proof.
  induction items as [|[k e] items IH]; intros sd W H; simpl.
  - rewrite set_sd_state_id. reflexivity.
  - destruct (H k e (or_introl eq_refl)) as [E We].
    rewrite (bind_inr _ _ _ _ _ (move_entry d k e sd e E)).
    rewrite (update_each string_key_ok (fun t => to t d) _ We).
    inversion W as [|? ? N W']; subst.
    rewrite IH.
    + reflexivity.
    + exact W'.
    + intros k' e' I. destruct (H k' e' (or_intror I)) as [E' We'].
      split; [|exact We']. simpl.
      rewrite (dict_get_set_neq nat_key_ok); [exact E'|].
      intros ->. apply N. change k' with (fst (k', e')). apply in_map; exact I.
Qed.

(** The loop of lines 171-172. *)
Lemma move_gradients (d : device) (l : dict string tensor) :
  forall (sd : state_dict) (ga : dict string tensor),
    sd_gradient_accumulator sd = Some ga ->
    for_each l (fun '(name, tensor) => gradient_accumulator_setitem name (to tensor d)) sd
    = (inr tt,
       set_sd_gradient_accumulator sd
         (fold_left (fun acc kv => dict_set acc (fst kv) (to (snd kv) d)) l ga)).
Proof.
  induction l as [|[name t] l IH]; intros sd ga E; simpl.
  - unfold ret. destruct sd; simpl in *; subst; reflexivity.
  - unfold gradient_accumulator_setitem at 1, bind at 1 2 3, get, lookup_or.
    rewrite E. unfold ret, put.
    rewrite (IH _ (dict_set ga name (to t d))) by reflexivity.
    reflexivity.
Qed.

Lemma move_all_states (d : device) (sd : state_dict) :
  state_dict_wf sd ->
  for_each (sorted_by_key (sd_state sd)) (fun '(index, optim_state) =>
    for_each optim_state (fun '(name, tensor) =>
      state_setitem index name (to tensor d))) sd
  = (inr tt, states_moved_to d sd).
Proof.
  intros (W & We & _).
  assert (P := sorted_by_key_perm (sd_state sd)).
  rewrite move_entries.
  - rewrite (fold_set_sorted _ _ W). reflexivity.
  - unfold dict_wf, keys. eapply Permutation_NoDup; [|exact W].
    apply Permutation_map. symmetry; exact P.
  - intros k e I. apply (Permutation_in _ P) in I. split.
    + apply (In_dict_get nat_key_ok _ _ _ W I).
    + rewrite Forall_forall in We. apply (We (k, e) I).
Qed.

Lemma exp_avg_after_move (d : device) (st : dict nat (dict string tensor)) e t :
  dict_get st 0 = Some e -> dict_get e "exp_avg" = Some t ->
  dict_get (map_values (map_values (fun t => to t d)) st) 0
  = Some (map_values (fun t => to t d) e)
  /\ dict_get (map_values (fun t => to t d) e) "exp_avg" = Some (to t d).
Proof.
  intros E1 E2. rewrite !dict_get_map_values, E1, E2. split; reflexivity.
Qed.

(** C10, as the code has it.  Without [state["state"][0]["exp_avg"]] the
    call raises a KeyError.  With it: when it is not on the CPU, the first
    assertion fails and nothing has moved; when it is on the CPU, every
    state tensor is moved, then every gradient-accumulator tensor, and the
    call succeeds exactly when the target is a CUDA device, the last
    assertion failing after the move otherwise. *)
Theorem state_dict_to_device_outcome (d : device) (sd : state_dict)
    (W : state_dict_wf sd) :
  match exp_avg_of sd with
  | None => exists sd', state_dict_to_device d sd = (inl KeyError, sd')
  | Some exp_avg =>
      state_dict_to_device d sd =
      if negb (String.eqb (device_type (t_device exp_avg)) "cpu")
      then (inl (AssertionError CPU_MESSAGE), sd)
      else
        match sd_gradient_accumulator sd with
        | None => (inl KeyError, states_moved_to d sd)
        | Some _ =>
            if String.eqb (device_type d) "cuda"
            then (inr tt, moved_to d sd)
            else (inl (AssertionError GPU_MESSAGE), moved_to d sd)
        end
  end.
Proof.
  unfold exp_avg_of, state_dict_to_device.
  destruct (dict_get (sd_state sd) 0) as [e0|] eqn:E0.
  - rewrite (bind_inr _ _ _ _ _ (state_getitem_found _ _ _ E0)).
    destruct (dict_get e0 "exp_avg") as [t|] eqn:Et.
    + unfold lookup_or at 1. rewrite (bind_inr _ _ sd t sd) by reflexivity.
      destruct (String.eqb (device_type (t_device t)) "cpu") eqn:Ec; simpl negb; cbv iota.
      * unfold py_assert at 1. rewrite (bind_inr _ _ sd tt sd) by reflexivity.
        rewrite (bind_inr _ _ sd sd sd) by reflexivity.
        rewrite (bind_inr _ _ _ _ _ (move_all_states d sd W)).
        rewrite (bind_inr _ _ (states_moved_to d sd) (states_moved_to d sd)
                          (states_moved_to d sd)) by reflexivity.
        change (sd_gradient_accumulator (states_moved_to d sd))
          with (sd_gradient_accumulator sd).
        destruct (sd_gradient_accumulator sd) as [ga|] eqn:Eg.
        -- unfold lookup_or at 1.
           rewrite (bind_inr _ _ (states_moved_to d sd) ga (states_moved_to d sd))
             by reflexivity.
           rewrite (bind_inr _ _ _ _ _
                      (move_gradients d ga (states_moved_to d sd) ga Eg)).
           destruct W as (_ & _ & Wg). rewrite Eg in Wg.
           rewrite (update_each string_key_ok (fun t => to t d) _ Wg).
           assert (M : set_sd_gradient_accumulator (states_moved_to d sd)
                         (map_values (fun t => to t d) ga) = moved_to d sd).
           { unfold moved_to. rewrite Eg. reflexivity. }
           rewrite M.
           destruct (exp_avg_after_move d (sd_state sd) e0 t E0 Et) as [A1 A2].
           assert (Gm : state_getitem 0 (moved_to d sd)
                        = (inr (map_values (fun t => to t d) e0), moved_to d sd))
             by (apply state_getitem_found; exact A1).
           rewrite (bind_inr _ _ _ _ _ Gm). rewrite A2.
           unfold lookup_or.
           rewrite (bind_inr _ _ (moved_to d sd) (to t d) (moved_to d sd)) by reflexivity.
           simpl t_device. unfold py_assert.
           destruct (String.eqb (device_type d) "cuda"); reflexivity.
        -- reflexivity.
      * reflexivity.
    + exists sd. reflexivity.
  - unfold state_getitem at 1, bind at 1 2, get. rewrite E0.
    destruct (sd_state_default sd); eexists; reflexivity.
Qed.

(** C10 does not hold as worded: with the state on the GPU and the target
    ["cpu"], the assertion that fails is the first one, before any move. *)
Lemma raises_before_move_from_gpu : ~ raises_after_move cpu state_on_gpu.
Proof. unfold raises_after_move. vm_compute. discriminate. Qed.

Lemma state_dict_to_device_outcome_witness :
  state_dict_wf state_on_gpu
  /\ state_dict_to_device cpu state_on_gpu
     = (inl (AssertionError CPU_MESSAGE), state_on_gpu).
Proof.
  assert (W : state_dict_wf state_on_gpu).
  { unfold state_dict_wf, dict_wf; simpl. repeat split.
    - repeat constructor; simpl; intuition discriminate.
    - repeat constructor; simpl; intuition discriminate.
    - repeat constructor; simpl; intuition discriminate. }
  split; [exact W|].
  exact (state_dict_to_device_outcome cpu state_on_gpu W).
Defined.

(* ------------------------------------------------------------------ *)
(** * Saving and loading at one topology (C1) *)
(* ------------------------------------------------------------------ *)

(** C1, at a ZeRO optimizer over two data-parallel ranks: both ranks save
    their shard; the process of data-parallel rank 1 then loads at the same
    topology and ends with the state rank 0 saved, not its own.  Line 379
    names the shard by [pp_rank // ckp_dp_size]. *)
Theorem same_topology_load_takes_rank0_shard :
  save_all saves_zero_2 "ckpt" [] = (inr tt, checkpoint_zero_2)
  /\ (exists loaded,
        fst (load_optimizer_defaults (zero_optimizer offsets_2 shapes_4 fresh_state)
                                     (process 0 1 1 2) "ckpt" checkpoint_zero_2)
        = inr loaded
        /\ optimizer_state_dict loaded = state_of_rank0)
  /\ state_of_rank0 <> state_of_rank1.
Proof.
  split; [vm_compute; reflexivity|]. split.
  - eexists. split; vm_compute; reflexivity.
  - discriminate.
Qed.

(** An optimizer that is not an instance of [ZeroDistributedOptimizer]
    leaves [load_optimizer] as it entered: line 487 is inside the branch of
    line 426. *)
Lemma replicated_optimizer_not_loaded :
  save_optimizer (replicated_optimizer state_of_rank0) (process 0 1 0 1) "ckpt" []
  = (inr tt, checkpoint_replicated)
  /\ fst (load_optimizer_defaults (replicated_optimizer fresh_state)
                                  (process 0 1 0 1) "ckpt" checkpoint_replicated)
     = inr (replicated_optimizer fresh_state).
Proof. split; vm_compute; reflexivity. Qed.

(* ------------------------------------------------------------------ *)
(** * Resharding over the data-parallel ranks (C2) *)
(* ------------------------------------------------------------------ *)

(** C2, at the scenario of the spec and at its reverse.  Saved over 4 ranks
    and loaded over 2, both ranks fail with a KeyError: line 481 looks the
    gradient offsets up at [int(dp_rank)], the last rank of the checkpoint
    (3), which the current table does not have.  Saved over 2 ranks and
    loaded over 4, rank 0 succeeds with the states of its own range
    [0, 100) and the gradients of the range [100, 200) of rank 1. *)
Theorem gradient_slice_taken_at_checkpoint_rank :
  save_all saves_zero_4 "ckpt" [] = (inr tt, checkpoint_zero_4)
  /\ fst (load_optimizer_defaults
            (zero_optimizer offsets_2x200 shapes_400 (state_of_half 0))
            (process 0 1 0 2) "ckpt" checkpoint_zero_4) = inl KeyError
  /\ fst (load_optimizer_defaults
            (zero_optimizer offsets_2x200 shapes_400 (state_of_half 1))
            (process 0 1 1 2) "ckpt" checkpoint_zero_4) = inl KeyError
  /\ save_all saves_zero_2x200 "ckpt" [] = (inr tt, checkpoint_zero_2x200)
  /\ exists loaded,
       fst (load_optimizer_defaults
              (zero_optimizer offsets_4x100 shapes_400 (state_of_quarter 0))
              (process 0 1 0 4) "ckpt" checkpoint_zero_2x200) = inr loaded
       /\ moment_of loaded "exp_avg" = Some (iota 0 100)
       /\ moment_of loaded "exp_avg_sq" = Some (iota 1000 100)
       /\ gradient_of loaded = Some (iota 2100 100).
Proof.
  split; [vm_compute; reflexivity|].
  split; [vm_compute; reflexivity|].
  split; [vm_compute; reflexivity|].
  split; [vm_compute; reflexivity|].
  eexists. split; [vm_compute; reflexivity|].
  split; [vm_compute; reflexivity|].
  split; vm_compute; reflexivity.
Qed.

(* ------------------------------------------------------------------ *)
(** * The rank at which the gradient accumulator is sliced *)
(* ------------------------------------------------------------------ *)

Lemma read_dp_rank_success (L : locals) r L' :
  read_dp_rank L = (inr r, L') -> dp_rank_var L = Some r /\ L' = L.
Proof.
  unfold read_dp_rank, bind, get. intros E.
  apply lookup_or_success in E. exact E.
Qed.

Lemma read_state_dict_success (L : locals) sd L' :
  read_state_dict L = (inr sd, L') -> state_dict_var L = Some sd /\ L' = L.
Proof.
  unfold read_state_dict, on_state_dict, get. intros E.
  destruct (state_dict_var L) as [sd0|] eqn:Es; [|discriminate].
  inversion E; subst. split; [reflexivity|].
  destruct L as [s d]; simpl in *. subst s. reflexivity.
Qed.

Lemma current_offsets_of_success optimizer p rank (L : locals) range L' :
  current_offsets_of optimizer p rank L = (inr range, L') ->
  assigned_range optimizer p rank range /\ L' = L.
Proof.
  unfold current_offsets_of. intros E.
  py_step E attrs s1 E1 E. py_step E table s2 E2 E. py_step E offsets s3 E3 E.
  apply lookup_or_success in E1, E2, E3, E.
  destruct E1 as [E1 ->], E2 as [E2 ->], E3 as [E3 ->], E as [E ->].
  split; [|reflexivity]. exists attrs, table, offsets. auto.
Qed.

Lemma py_assert_success {St} b msg (s : St) u s' :
  py_assert b msg s = (inr u, s') -> b = true /\ s' = s.
Proof. destruct b; unfold py_assert, ret, raise; intros E; inversion E; auto. Qed.

(** One round of the loop of lines 480-485. *)
Lemma update_gradient_step optimizer merged p (L : locals) sd ga r L' :
  state_dict_var L = Some sd -> sd_gradient_accumulator sd = Some ga ->
  dp_rank_var L = Some r ->
  (dp_rank <- read_dp_rank ;;
   new_offset <- current_offsets_of optimizer p dp_rank ;;
   sd <- read_state_dict ;;
   gradient_accumulator <- lookup_or KeyError (sd_gradient_accumulator sd) ;;
   grad <- lookup_or KeyError (dict_get gradient_accumulator p) ;;
   merged <- lookup_or KeyError (dict_get merged p) ;;
   py_assert (device_eqb (t_device grad) (t_device merged)) "" ;;;
   on_state_dict (gradient_accumulator_setitem p
                    (slice merged (fst new_offset) (snd new_offset)))) L
  = (inr tt, L') ->
  exists m range,
    dict_get merged p = Some m
    /\ assigned_range optimizer p r range
    /\ L' = {| state_dict_var :=
                 Some (set_sd_gradient_accumulator sd
                         (dict_set ga p (slice m (fst range) (snd range))));
               dp_rank_var := Some r |}.
Proof.
  intros Hs Hg Hr E.
  py_step E r0 s1 E1 E. apply read_dp_rank_success in E1. destruct E1 as [E1 ->].
  rewrite Hr in E1. inversion E1; subst r0.
  py_step E range s2 E2 E. apply current_offsets_of_success in E2. destruct E2 as [E2 ->].
  py_step E sd0 s3 E3 E. apply read_state_dict_success in E3. destruct E3 as [E3 ->].
  rewrite Hs in E3. inversion E3; subst sd0.
  py_step E ga0 s4 E4 E. apply lookup_or_success in E4. destruct E4 as [E4 ->].
  rewrite Hg in E4. inversion E4; subst ga0.
  py_step E grad s5 E5 E. apply lookup_or_success in E5. destruct E5 as [E5 ->].
  py_step E m s6 E6 E. apply lookup_or_success in E6. destruct E6 as [E6 ->].
  py_step E u s7 E7 E. apply py_assert_success in E7. destruct E7 as [E7 ->].
  exists m, range. split; [exact E6|]. split; [exact E2|].
  unfold on_state_dict in E. rewrite Hs in E.
  unfold gradient_accumulator_setitem, bind, get, lookup_or, ret, put in E.
  rewrite Hg in E. inversion E; subst L'. rewrite Hr. reflexivity.
Qed.

Lemma update_gradient_loop optimizer merged r (l : list string) :
  forall (L : locals) sd ga L',
    state_dict_var L = Some sd -> sd_gradient_accumulator sd = Some ga ->
    dp_rank_var L = Some r ->
    for_each l (fun p_name =>
      dp_rank <- read_dp_rank ;;
      new_offset <- current_offsets_of optimizer p_name dp_rank ;;
      sd <- read_state_dict ;;
      gradient_accumulator <- lookup_or KeyError (sd_gradient_accumulator sd) ;;
      grad <- lookup_or KeyError (dict_get gradient_accumulator p_name) ;;
      merged <- lookup_or KeyError (dict_get merged p_name) ;;
      py_assert (device_eqb (t_device grad) (t_device merged)) "" ;;;
      on_state_dict (gradient_accumulator_setitem p_name
                       (slice merged (fst new_offset) (snd new_offset)))) L
    = (inr tt, L') ->
    exists sd' ga',
      state_dict_var L' = Some sd' /\ sd_gradient_accumulator sd' = Some ga'
      /\ (forall q, ~ In q l -> dict_get ga' q = dict_get ga q)
      /\ (NoDup l ->
          forall q, In q l ->
            exists m range,
              dict_get merged q = Some m
              /\ assigned_range optimizer q r range
              /\ dict_get ga' q = Some (slice m (fst range) (snd range))).
Proof.
  induction l as [|p l IH]; intros L sd ga L' Hs Hg Hr E; simpl in E.
  - inversion E; subst L'. exists sd, ga. repeat split; auto.
    intros _ q [].
  - apply bind_success in E. destruct E as ([] & L1 & E1 & E2).
    destruct (update_gradient_step optimizer merged p L sd ga r L1 Hs Hg Hr E1)
      as (m & range & Hm & Ha & HL1).
    subst L1.
    assert (IH' := fun sd1 ga1 H1 H2 H3 => IH _ sd1 ga1 L' H1 H2 H3 E2).
    destruct (IH' _ _ eq_refl eq_refl eq_refl) as (sd' & ga' & Hs' & Hg' & Hout & Hin).
    exists sd', ga'. split; [exact Hs'|]. split; [exact Hg'|]. split.
    + intros q Nq. rewrite (Hout q) by (intros I; apply Nq; right; exact I).
      apply (dict_get_set_neq string_key_ok). intros ->. apply Nq. left; reflexivity.
    + intros Nd q [<-|Iq]; inversion Nd as [|? ? Np Nl]; subst.
      * exists m, range. split; [exact Hm|]. split; [exact Ha|].
        rewrite (Hout p Np). apply (dict_get_set_eq string_key_ok).
      * apply (Hin Nl q Iq).
Qed.

(** Lines 479-485 slice every gradient at the offsets of the rank the
    variable [dp_rank] is bound to. *)
Lemma update_gradient_accumulator_slices optimizer merged (L : locals) sd ga r L' :
  state_dict_var L = Some sd -> sd_gradient_accumulator sd = Some ga -> dict_wf ga ->
  dp_rank_var L = Some r ->
  update_gradient_accumulator optimizer merged L = (inr tt, L') ->
  exists sd' ga',
    state_dict_var L' = Some sd' /\ sd_gradient_accumulator sd' = Some ga'
    /\ forall p, In p (keys ga) ->
         exists m range,
           dict_get merged p = Some m
           /\ assigned_range optimizer p r range
           /\ dict_get ga' p = Some (slice m (fst range) (snd range)).
Proof.
  intros Hs Hg Wg Hr E. unfold update_gradient_accumulator in E.
  py_step E sd0 s1 E1 E. apply read_state_dict_success in E1. destruct E1 as [E1 ->].
  rewrite Hs in E1. inversion E1; subst sd0.
  py_step E ga0 s2 E2 E. apply lookup_or_success in E2. destruct E2 as [E2 ->].
  rewrite Hg in E2. inversion E2; subst ga0.
  destruct (update_gradient_loop optimizer merged r (keys ga) L sd ga L' Hs Hg Hr E)
    as (sd' & ga' & Hs' & Hg' & _ & Hin).
  exists sd', ga'. split; [exact Hs'|]. split; [exact Hg'|].
  intros p Ip. apply (Hin Wg p Ip).
Qed.

Lemma apply_offsets_plain_keeps_rank r merged sharded p offsets tp_rank :
  preserves (fun L : locals => dp_rank_var L = r)
            (apply_offsets_plain merged sharded p offsets tp_rank).
Proof.
  unfold apply_offsets_plain.
  apply preserves_bind.
  { unfold read_dp_rank. apply preserves_bind; [apply preserves_get|].
    intros L. apply preserves_lookup_or. }
  intros r0. apply preserves_bind; [apply preserves_lookup_or|]. intros shard.
  apply preserves_bind; [apply preserves_lookup_or|]. intros src.
  apply preserves_bind; [apply preserves_lookup_or|]. intros dst.
  apply preserves_bind; [apply preserves_lift|]. intros dst'.
  apply preserves_ret.
Qed.

(** When the loops of lines 475-477 are over, [dp_rank] is bound to the last
    rank of the last parameter of the checkpoint's table. *)
Lemma merge_grad_accumulator_leaves_last_rank front p offsets_front r range
      sharded tp_rank merged (L : locals) merged' L' :
  merge_grad_accumulator (front ++ [(p, offsets_front ++ [(r, range)])]) sharded tp_rank
                         merged L = (inr merged', L') ->
  dp_rank_var L' = Some r.
Proof.
  unfold merge_grad_accumulator. intros E.
  apply fold_m_last in E. destruct E as (acc1 & L1 & _ & E).
  apply fold_m_last in E. destruct E as (acc2 & L2 & _ & E).
  py_step E u L3 E1 E. inversion E1; subst.
  apply (apply_offsets_plain_keeps_rank (Some r) acc2 sharded p range tp_rank
           (set_dp_rank_var r L2) (inr merged') L' eq_refl E).
Qed.

Lemma merge_grad_accumulator_keeps_state_dict sd ckp_offsets sharded tp_rank merged :
  preserves (fun L : locals => state_dict_var L = sd)
            (merge_grad_accumulator ckp_offsets sharded tp_rank merged).
Proof.
  unfold merge_grad_accumulator. apply preserves_fold_m. intros acc [p offsets] _.
  apply preserves_fold_m. intros acc2 [r offset] _.
  apply preserves_bind; [apply preserves_modify; intros L H; exact H|].
  intros _. unfold apply_offsets_plain.
  apply preserves_bind.
  { unfold read_dp_rank. apply preserves_bind; [apply preserves_get|].
    intros L. apply preserves_lookup_or. }
  intros r0. apply preserves_bind; [apply preserves_lookup_or|]. intros shard.
  apply preserves_bind; [apply preserves_lookup_or|]. intros src.
  apply preserves_bind; [apply preserves_lookup_or|]. intros dst.
  apply preserves_bind; [apply preserves_lift|]. intros dst'.
  apply preserves_ret.
Qed.

(** X24.  Lines 472-485 as a whole: when they go through, the shards of the
    checkpoint have been read and merged into the buffers of
    [create_merged_gradients], and every gradient of the local [state_dict]
    is the slice of its merged buffer at the offsets the current optimizer
    assigns to rank [r], the last data-parallel rank of the checkpoint's
    table, whatever the rank of the process is. *)
Lemma gradients_sliced_at_last_checkpoint_rank
      (optimizer : Optimizer) (pc : ParallelContext) (config : optimizer_config)
      (shard_paths : list (string * file)) (map_location : option device)
      (L L' : locals) (sd : state_dict) (ga : dict string tensor)
      front p offsets_front r range :
  cfg_param_name_to_dp_rank_offsets config
  = Some (front ++ [(p, offsets_front ++ [(r, range)])]) ->
  state_dict_var L = Some sd -> sd_gradient_accumulator sd = Some ga -> dict_wf ga ->
  reshard_grad_accumulator optimizer pc config shard_paths map_location L = (inr tt, L') ->
  exists sd' ga' shapes sharded merged L1,
    cfg_orig_param_shapes config = Some shapes
    /\ load_sharded_states shard_paths map_location load_type_gradient_accumulator
       = inr sharded
    /\ merge_grad_accumulator (front ++ [(p, offsets_front ++ [(r, range)])]) sharded
                              (tp_rank pc) (create_merged_gradients shapes map_location) L
       = (inr merged, L1)
    /\ state_dict_var L' = Some sd' /\ sd_gradient_accumulator sd' = Some ga'
    /\ forall q, In q (keys ga) ->
         exists m range',
           dict_get merged q = Some m
           /\ assigned_range optimizer q r range'
           /\ dict_get ga' q = Some (slice m (fst range') (snd range')).
Proof.
  intros Hc Hs Hg Wg E. unfold reshard_grad_accumulator in E.
  py_step E shapes s1 E1 E. apply lookup_or_success in E1. destruct E1 as [Hsh ->].
  py_step E sharded s2 E2 E. apply lift_success in E2. destruct E2 as [Hld ->].
  py_step E ckp_offsets s3 E3 E. apply lookup_or_success in E3. destruct E3 as [E3 ->].
  rewrite Hc in E3. inversion E3; subst ckp_offsets.
  py_step E merged L1 E4 E.
  assert (Hr : dp_rank_var L1 = Some r)
    by (eapply merge_grad_accumulator_leaves_last_rank; exact E4).
  assert (Hs1 : state_dict_var L1 = Some sd)
    by (eapply (merge_grad_accumulator_keeps_state_dict (Some sd)); [exact Hs | exact E4]).
  destruct (update_gradient_accumulator_slices optimizer merged L1 sd ga r L'
              Hs1 Hg Wg Hr E) as (sd' & ga' & A & B & C).
  exists sd', ga', shapes, sharded, merged, L1.
  split; [exact Hsh|]. split; [exact Hld|]. split; [exact E4|]. auto.
Qed.

(* ------------------------------------------------------------------ *)
(** * The rank at which the states are sliced *)
(* ------------------------------------------------------------------ *)

Lemma locals_eta (L : locals) :
  L = {| state_dict_var := state_dict_var L; dp_rank_var := dp_rank_var L |}.
Proof. destruct L; reflexivity. Qed.

(** One round of the loop of lines 459-467. *)
Lemma slice_state_step optimizer rank merged param_index param_name state_name
      (L : locals) sd e L' :
  state_dict_var L = Some sd -> dict_get (sd_state sd) param_index = Some e ->
  (current_offsets <- current_offsets_of optimizer param_name rank ;;
   merged <- lookup_or KeyError (dict_get merged param_name) ;;
   param <- lookup_or KeyError (dict_get merged state_name) ;;
   let sliced_tensor :=
     get_sliced_tensor param (fst current_offsets) (snd current_offsets) in
   py_assert (0 <? numel sliced_tensor) "" ;;;
   on_state_dict (state_setitem param_index state_name sliced_tensor)) L
  = (inr tt, L') ->
  exists m t range,
    dict_get merged param_name = Some m /\ dict_get m state_name = Some t
    /\ assigned_range optimizer param_name rank range
    /\ L' = {| state_dict_var :=
                 Some (set_sd_state sd
                         (dict_set (sd_state sd) param_index
                            (dict_set e state_name
                               (get_sliced_tensor t (fst range) (snd range)))));
               dp_rank_var := dp_rank_var L |}.
Proof.
  intros Hs He E.
  py_step E range s1 E1 E. apply current_offsets_of_success in E1. destruct E1 as [E1 ->].
  py_step E m s2 E2 E. apply lookup_or_success in E2. destruct E2 as [E2 ->].
  py_step E t s3 E3 E. apply lookup_or_success in E3. destruct E3 as [E3 ->].
  cbv zeta in E.
  py_step E u s4 E4 E. apply py_assert_success in E4. destruct E4 as [_ ->].
  exists m, t, range. split; [exact E2|]. split; [exact E3|]. split; [exact E1|].
  unfold on_state_dict in E. rewrite Hs in E.
  rewrite (state_setitem_found _ _ _ _ _ He) in E. inversion E; reflexivity.
Qed.

Lemma slice_state_loop optimizer rank merged param_index param_name (l : list string) :
  forall (L : locals) sd e L',
    state_dict_var L = Some sd -> dict_get (sd_state sd) param_index = Some e ->
    for_each l (fun state_name =>
      current_offsets <- current_offsets_of optimizer param_name rank ;;
      merged <- lookup_or KeyError (dict_get merged param_name) ;;
      param <- lookup_or KeyError (dict_get merged state_name) ;;
      let sliced_tensor :=
        get_sliced_tensor param (fst current_offsets) (snd current_offsets) in
      py_assert (0 <? numel sliced_tensor) "" ;;;
      on_state_dict (state_setitem param_index state_name sliced_tensor)) L
    = (inr tt, L') ->
    exists e',
      L' = {| state_dict_var :=
                Some (set_sd_state sd (dict_set (sd_state sd) param_index e'));
              dp_rank_var := dp_rank_var L |}
      /\ (forall q, ~ In q l -> dict_get e' q = dict_get e q)
      /\ (NoDup l ->
          forall q, In q l ->
            exists m t range,
              dict_get merged param_name = Some m /\ dict_get m q = Some t
              /\ assigned_range optimizer param_name rank range
              /\ dict_get e' q = Some (get_sliced_tensor t (fst range) (snd range))).
Proof.
  induction l as [|name l IH]; intros L sd e L' Hs He E; simpl in E.
  - inversion E; subst L'. exists e. split; [|split; [auto | intros _ q []]].
    rewrite (dict_set_same _ _ _ He), set_sd_state_id, <- Hs. apply locals_eta.
  - apply bind_success in E. destruct E as ([] & L1 & E1 & E2).
    destruct (slice_state_step optimizer rank merged param_index param_name name
                               L sd e L1 Hs He E1) as (m & t & range & Hm & Ht & Ha & HL1).
    subst L1.
    set (e1 := dict_set e name (get_sliced_tensor t (fst range) (snd range))) in *.
    assert (IH' := fun sd1 e2 H1 H2 => IH _ sd1 e2 L' H1 H2 E2).
    destruct (IH' _ e1 eq_refl) as (e' & HL' & Hout & Hin).
    { simpl. apply (dict_get_set_eq nat_key_ok). }
    exists e'. split; [|split].
    + rewrite HL'. simpl. rewrite (dict_set_set nat_key_ok). reflexivity.
    + intros q Nq. rewrite (Hout q) by (intros I; apply Nq; right; exact I).
      apply (dict_get_set_neq string_key_ok). intros ->. apply Nq. left; reflexivity.
    + intros Nd q [<-|Iq]; inversion Nd as [|? ? Np Nl]; subst.
      * exists m, t, range. split; [exact Hm|]. split; [exact Ht|]. split; [exact Ha|].
        rewrite (Hout name Np). apply (dict_get_set_eq string_key_ok).
      * apply (Hin Nl q Iq).
Qed.

(** What lines 456-467 make of the entry of one parameter index. *)
Definition sliced_at (optimizer : Optimizer) (rank : nat) (state_names : list string)
    (merged : dict string (dict string tensor)) (names : dict nat string)
    (param_index : nat) (entry : dict string tensor) : Prop :=
  exists param_name,
    name_at names param_index = Some param_name
    /\ forall state_name, In state_name state_names ->
         exists m t range,
           dict_get merged param_name = Some m /\ dict_get m state_name = Some t
           /\ assigned_range optimizer param_name rank range
           /\ dict_get entry state_name
              = Some (get_sliced_tensor t (fst range) (snd range)).

Lemma slice_index_loop optimizer rank state_names merged names (l : list nat) :
  NoDup state_names ->
  forall (L : locals) sd L',
    state_dict_var L = Some sd -> sd_names sd = Some names ->
    (forall i, In i l -> In i (keys (sd_state sd))) ->
    for_each l (fun param_index =>
      sd <- read_state_dict ;;
      names <- lookup_or KeyError (sd_names sd) ;;
      param_name <-
        match filter (fun kv => fst kv =? param_index) names with
        | (_, name) :: _ => ret name
        | [] => raise IndexError
        end ;;
      for_each state_names (fun state_name =>
        current_offsets <- current_offsets_of optimizer param_name rank ;;
        merged <- lookup_or KeyError (dict_get merged param_name) ;;
        param <- lookup_or KeyError (dict_get merged state_name) ;;
        let sliced_tensor :=
          get_sliced_tensor param (fst current_offsets) (snd current_offsets) in
        py_assert (0 <? numel sliced_tensor) "" ;;;
        on_state_dict (state_setitem param_index state_name sliced_tensor))) L
    = (inr tt, L') ->
    exists sd',
      state_dict_var L' = Some sd' /\ sd_names sd' = Some names
      /\ keys (sd_state sd') = keys (sd_state sd)
      /\ (forall i, ~ In i l -> dict_get (sd_state sd') i = dict_get (sd_state sd) i)
      /\ (NoDup l ->
          forall i, In i l ->
            exists entry, dict_get (sd_state sd') i = Some entry
                          /\ sliced_at optimizer rank state_names merged names i entry).
Proof.
  intros Nn. induction l as [|idx l IH]; intros L sd L' Hs Hnames Hin E; simpl in E.
  - inversion E; subst L'. exists sd. repeat split; auto. intros _ i [].
  - apply bind_success in E. destruct E as ([] & L1 & E1 & E2).
    py_step E1 sd0 s1 F1 E1. apply read_state_dict_success in F1. destruct F1 as [F1 ->].
    rewrite Hs in F1. inversion F1; subst sd0.
    py_step E1 names0 s2 F2 E1. apply lookup_or_success in F2. destruct F2 as [F2 ->].
    rewrite Hnames in F2. inversion F2; subst names0.
    py_step E1 pname s3 F3 E1.
    assert (Hp : name_at names idx = Some pname /\ s3 = L).
    { unfold name_at.
      destruct (filter (fun kv => fst kv =? idx) names) as [|[i0 n0] rest];
        inversion F3; subst; auto. }
    destruct Hp as [Hp ->].
    assert (Ie : exists e, dict_get (sd_state sd) idx = Some e).
    { destruct (dict_get (sd_state sd) idx) as [e|] eqn:G; [exists e; reflexivity|].
      apply (dict_get_None nat_key_ok) in G. exfalso; apply G. apply Hin; left; reflexivity. }
    destruct Ie as [e He].
    destruct (slice_state_loop optimizer rank merged idx pname state_names L sd e L1 Hs He E1)
      as (e' & HL1 & _ & Hnew).
    subst L1.
    set (sd1 := set_sd_state sd (dict_set (sd_state sd) idx e')) in *.
    assert (Kk : keys (sd_state sd1) = keys (sd_state sd)).
    { simpl. apply (keys_dict_set_in nat_key_ok). apply Hin; left; reflexivity. }
    assert (IH' := fun sd2 H1 H2 H3 => IH _ sd2 L' H1 H2 H3 E2).
    destruct (IH' sd1 eq_refl Hnames) as (sd' & Hs' & Hn' & Hk' & Hout & Hdone).
    { intros i Ii. rewrite Kk. apply Hin; right; exact Ii. }
    exists sd'. split; [exact Hs'|]. split; [exact Hn'|]. split; [rewrite Hk'; exact Kk|].
    split.
    + intros i Ni. rewrite (Hout i) by (intros I; apply Ni; right; exact I).
      simpl. apply (dict_get_set_neq nat_key_ok). intros ->. apply Ni; left; reflexivity.
    + intros Nd i [<-|Ii]; inversion Nd as [|? ? Np Nl]; subst.
      * exists e'. split.
        -- rewrite (Hout idx Np). simpl. apply (dict_get_set_eq nat_key_ok).
        -- exists pname. split; [exact Hp|]. intros state_name Is.
           apply (Hnew Nn state_name Is).
      * apply (Hdone Nl i Ii).
Qed.

(** X23.  Lines 456-467 as a whole: when they go through, every state of every
    parameter index is the slice of its merged buffer at the offsets the
    current optimizer assigns to the data-parallel rank of the process. *)
Lemma update_state_slices_at_current_rank optimizer rank state_names merged
      (L L' : locals) sd names :
  state_dict_var L = Some sd -> sd_names sd = Some names ->
  dict_wf (sd_state sd) -> NoDup state_names ->
  update_state_slices optimizer rank state_names merged L = (inr tt, L') ->
  exists sd',
    state_dict_var L' = Some sd'
    /\ forall i, In i (keys (sd_state sd)) ->
         exists entry, dict_get (sd_state sd') i = Some entry
                       /\ sliced_at optimizer rank state_names merged names i entry.
Proof.
  intros Hs Hn W Nn E. unfold update_state_slices in E.
  py_step E sd0 s1 E1 E. apply read_state_dict_success in E1. destruct E1 as [E1 ->].
  rewrite Hs in E1. inversion E1; subst sd0.
  destruct (slice_index_loop optimizer rank state_names merged names (keys (sd_state sd))
              Nn L sd L' Hs Hn (fun i I => I) E) as (sd' & Hs' & _ & _ & _ & Hdone).
  exists sd'. split; [exact Hs'|]. intros i Ii. apply (Hdone W i Ii).
Qed.

(* ------------------------------------------------------------------ *)
(** * What a merge leaves of the zero-filled buffer (C3) *)
(* ------------------------------------------------------------------ *)

Lemma splice_nth_error (d mid : list Z) (start len i : nat) :
  List.length mid = len -> start + len <= List.length d ->
  i < start \/ start + len <= i ->
  nth_error (firstn start d ++ mid ++ skipn (start + len) d) i = nth_error d i.
Proof.
  intros Hm Hl Hi.
  assert (Lf : List.length (firstn start d) = start) by (rewrite length_firstn; lia).
  destruct Hi as [Hi|Hi].
  - rewrite nth_error_app1 by lia. rewrite nth_error_firstn.
    apply Nat.ltb_lt in Hi. rewrite Hi. reflexivity.
  - rewrite nth_error_app2 by lia. rewrite nth_error_app2 by lia.
    rewrite nth_error_skipn. f_equal. lia.
Qed.

(** [t[a:b] = src] keeps the size of [t] and every element outside of
    [a, b). *)
Lemma slice_assign_outside (t src t' : tensor) (a b i : nat) :
  slice_assign t a b src = inr t' -> ~ (a <= i < b) ->
  numel t' = numel t /\ nth_error (t_data t') i = nth_error (t_data t) i.
Proof.
  unfold slice_assign, numel. intros E N.
  set (n := List.length (t_data t)) in *.
  set (start := Nat.min a n) in *.
  set (len := Nat.min b n - start) in *.
  assert (Hl : start + len <= n) by (subst start len; lia).
  assert (G : forall mid, List.length mid = len ->
            List.length (firstn start (t_data t) ++ mid ++ skipn (start + len) (t_data t)) = n
            /\ nth_error (firstn start (t_data t) ++ mid ++ skipn (start + len) (t_data t)) i
               = nth_error (t_data t) i).
  { intros mid Hm. split.
    - rewrite !length_app, length_firstn, length_skipn. fold n. lia.
    - destruct (Nat.eq_dec len 0) as [Z|NZ].
      + destruct mid; [|simpl in Hm; lia]. rewrite Z, Nat.add_0_r. simpl.
        rewrite firstn_skipn. reflexivity.
      + destruct (Nat.lt_ge_cases i n) as [Lt|Ge].
        * apply splice_nth_error; [exact Hm | exact Hl |].
          subst start len. lia.
        * assert (E1 : nth_error (t_data t) i = None) by (apply nth_error_None; exact Ge).
          rewrite E1. apply nth_error_None.
          rewrite !length_app, length_firstn, length_skipn. fold n. lia. }
  destruct (List.length (t_data src) =? len) eqn:El.
  - apply Nat.eqb_eq in El. inversion E; subst t'; simpl. apply G; exact El.
  - destruct (t_data src) as [|x [|y l]]; try discriminate.
    inversion E; subst t'; simpl. apply G. apply repeat_length.
Qed.

Lemma dict_set_Forall {K V} `{Key K} (Q : V -> Prop) (d : dict K V) k v :
  Forall (fun kv => Q (snd kv)) d -> Q v -> Forall (fun kv => Q (snd kv)) (dict_set d k v).
Proof.
  intros F Hv. induction d as [|[k0 v0] d IH]; simpl.
  - constructor; auto.
  - inversion F; subst. destruct (key_eqb k0 k); constructor; auto.
Qed.

Definition all_zero (t : tensor) : Prop :=
  forall i, i < numel t -> nth_error (t_data t) i = Some 0%Z.

Lemma zeros_all_zero (shape : list nat) (map_location : option device) :
  all_zero (to_opt (zeros shape) map_location).
Proof.
  intros i Hi.
  assert (D : t_data (to_opt (zeros shape) map_location) = repeat 0%Z (shape_numel shape))
    by (destruct map_location; reflexivity).
  unfold numel in Hi. rewrite D in *. rewrite repeat_length in Hi.
  apply nth_error_repeat; exact Hi.
Qed.

Lemma create_merged_gradients_zero (shapes : dict string (list nat)) map_location p t :
  dict_get (create_merged_gradients shapes map_location) p = Some t -> all_zero t.
Proof.
  unfold create_merged_gradients.
  assert (F : forall acc, Forall (fun kv : string * tensor => all_zero (snd kv)) acc ->
            Forall (fun kv : string * tensor => all_zero (snd kv))
              (fold_left (fun merged_grads '(name, p_shape) =>
                            dict_set merged_grads name (to_opt (zeros p_shape) map_location))
                         shapes acc)).
  { induction shapes as [|[name shape] shapes IH]; simpl; intros acc Fa; [exact Fa|].
    apply IH. apply dict_set_Forall; [exact Fa | apply zeros_all_zero]. }
  intros E. apply (dict_get_In string_key_ok) in E.
  specialize (F [] (Forall_nil _)). rewrite Forall_forall in F.
  apply (F (p, t) E).
Qed.

Lemma create_merged_optim_states_zero (shapes : dict string (list nat)) map_location p m k t :
  dict_get (create_merged_optim_states shapes map_location) p = Some m ->
  dict_get m k = Some t -> all_zero t.
Proof.
  unfold create_merged_optim_states.
  set (Q := fun m : dict string tensor => forall k t, dict_get m k = Some t -> all_zero t).
  assert (F : forall acc, Forall (fun kv : string * dict string tensor => Q (snd kv)) acc ->
            Forall (fun kv : string * dict string tensor => Q (snd kv))
              (fold_left (fun merged_states '(name, p_shape) =>
                            dict_set merged_states name
                              [("exp_avg", to_opt (zeros p_shape) map_location);
                               ("exp_avg_sq", to_opt (zeros p_shape) map_location)])
                         shapes acc)).
  { induction shapes as [|[name shape] shapes IH]; simpl; intros acc Fa; [exact Fa|].
    apply IH. apply dict_set_Forall; [exact Fa|].
    intros k' t' G. simpl in G.
    destruct (key_eqb "exp_avg" k'); [inversion G; apply zeros_all_zero|].
    destruct (key_eqb "exp_avg_sq" k'); [inversion G; apply zeros_all_zero | discriminate]. }
  intros E Ek. apply (dict_get_In string_key_ok) in E.
  specialize (F [] (Forall_nil _)). rewrite Forall_forall in F.
  apply (F (p, m) E k t Ek).
Qed.

Lemma apply_offsets_plain_success merged_tensor sharded_states param_name offsets tp_rank
      (L : locals) merged' L' :
  apply_offsets_plain merged_tensor sharded_states param_name offsets tp_rank L
  = (inr merged', L') ->
  exists dst src dst',
    dict_get merged_tensor param_name = Some dst
    /\ slice_assign dst (fst offsets) (snd offsets) src = inr dst'
    /\ merged' = dict_set merged_tensor param_name dst'.
Proof.
  unfold apply_offsets_plain. intros E.
  py_step E r s1 E1 E.
  py_step E shard s2 E2 E.
  py_step E src s3 E3 E.
  py_step E dst s4 E4 E.
  py_step E dst' s5 E5 E.
  apply lookup_or_success in E4. destruct E4 as [E4 _].
  apply lift_success in E5. destruct E5 as [E5 _].
  inversion E; subst.
  exists dst, src, dst'. auto.
Qed.

Lemma apply_offsets_plain_keeps ckp_offsets merged sharded p_name offsets r a b tp_rank
      (L : locals) merged' L' :
  In (p_name, offsets) ckp_offsets -> In (r, (a, b)) offsets ->
  gradients_zero_outside ckp_offsets merged ->
  apply_offsets_plain merged sharded p_name (a, b) tp_rank L = (inr merged', L') ->
  gradients_zero_outside ckp_offsets merged'.
Proof.
  intros I1 I2 Inv E.
  apply apply_offsets_plain_success in E.
  destruct E as (dst & src & dst' & Eg & Es & ->).
  intros p t i Gp U Hi.
  destruct (String.eqb_spec p_name p) as [<-|Np].
  - rewrite (dict_get_set_eq string_key_ok) in Gp. inversion Gp; subst t.
    destruct (slice_assign_outside _ _ _ _ _ i Es (U offsets r a b I1 I2)) as [Hn Hv].
    rewrite Hv. apply (Inv p_name dst i Eg U). rewrite <- Hn. exact Hi.
  - rewrite (dict_get_set_neq string_key_ok) in Gp by exact Np.
    apply (Inv p t i Gp U Hi).
Qed.

Lemma merge_grad_accumulator_keeps ckp_offsets sharded tp_rank merged (L : locals)
      merged' L' :
  gradients_zero_outside ckp_offsets merged ->
  merge_grad_accumulator ckp_offsets sharded tp_rank merged L = (inr merged', L') ->
  gradients_zero_outside ckp_offsets merged'.
Proof.
  unfold merge_grad_accumulator. intros Inv E.
  revert Inv E. apply fold_m_invariant.
  intros acc [p_name offsets] s acc' s' I1 Inv E. revert Inv E.
  apply fold_m_invariant.
  intros acc2 [r [a b]] s2 acc2' s2' I2 Inv E.
  py_step E u s3 E1 E.
  eapply apply_offsets_plain_keeps; eauto.
Qed.

Lemma apply_offsets_state_keys_keeps ckp_offsets merged sharded p_name offsets r a b tp_rank
      state_keys (L : locals) merged' L' :
  In (p_name, offsets) ckp_offsets -> In (r, (a, b)) offsets ->
  states_zero_outside ckp_offsets merged ->
  apply_offsets_state_keys merged sharded p_name (a, b) tp_rank state_keys L
  = (inr merged', L') ->
  states_zero_outside ckp_offsets merged'.
Proof.
  intros I1 I2 Inv E. unfold apply_offsets_state_keys in E.
  destruct state_keys as [|key0 rest]; [discriminate|].
  revert Inv E. generalize (key0 :: rest) as ks. intros ks.
  apply fold_m_invariant.
  intros acc key s acc' s' _ Inv E.
  py_step E sd s1 E1 E.
  py_step E names s2 E2 E.
  py_step E rk s3 E3 E.
  py_step E shard s4 E4 E.
  py_step E i0 s5 E5 E.
  py_step E entry s6 E6 E.
  py_step E src s7 E7 E.
  py_step E m0 s8 E8 E.
  py_step E dst s9 E9 E.
  py_step E dst' s10 E10 E.
  apply lookup_or_success in E8. destruct E8 as [E8 _].
  apply lookup_or_success in E9. destruct E9 as [E9 _].
  apply lift_success in E10. destruct E10 as [E10 _].
  inversion E; subst acc'.
  intros p m k t i Gp Gk U Hi.
  destruct (String.eqb_spec p_name p) as [<-|Np].
  - rewrite (dict_get_set_eq string_key_ok) in Gp. inversion Gp; subst m.
    destruct (String.eqb_spec key k) as [<-|Nk].
    + rewrite (dict_get_set_eq string_key_ok) in Gk. inversion Gk; subst t.
      simpl in E10.
      destruct (slice_assign_outside _ _ _ _ _ i E10 (U offsets r a b I1 I2)) as [Hn Hv].
      rewrite Hv. apply (Inv p_name m0 key dst i E8 E9 U). rewrite <- Hn. exact Hi.
    + rewrite (dict_get_set_neq string_key_ok) in Gk by exact Nk.
      apply (Inv p_name m0 k t i E8 Gk U Hi).
  - rewrite (dict_get_set_neq string_key_ok) in Gp by exact Np.
    apply (Inv p m k t i Gp Gk U Hi).
Qed.

Lemma merge_optim_states_keeps ckp_offsets sharded tp_rank names merged (L : locals)
      merged' L' :
  states_zero_outside ckp_offsets merged ->
  merge_optim_states ckp_offsets sharded tp_rank names merged L = (inr merged', L') ->
  states_zero_outside ckp_offsets merged'.
Proof.
  unfold merge_optim_states. intros Inv E.
  revert Inv E. apply fold_m_invariant.
  intros acc [p_name offsets] s acc' s' I1 Inv E. revert Inv E.
  apply fold_m_invariant.
  intros acc2 [r [a b]] s2 acc2' s2' I2 Inv E.
  py_step E u s3 E1 E.
  eapply apply_offsets_state_keys_keeps; eauto.
Qed.

(** [t[a:b] = src] keeps the size of [t]. *)
Lemma slice_assign_numel (t src t' : tensor) (a b : nat) :
  slice_assign t a b src = inr t' -> numel t' = numel t.
Proof.
  unfold slice_assign, numel. intros E.
  set (n := List.length (t_data t)) in *.
  set (start := Nat.min a n) in *.
  set (len := Nat.min b n - start) in *.
  assert (G : forall mid, List.length mid = len ->
            List.length (firstn start (t_data t) ++ mid ++ skipn (start + len) (t_data t)) = n).
  { intros mid Hm. rewrite !length_app, length_firstn, length_skipn. fold n.
    subst start len. lia. }
  destruct (List.length (t_data src) =? len) eqn:El.
  - apply Nat.eqb_eq in El. inversion E; subst t'; simpl. apply G; exact El.
  - destruct (t_data src) as [|x [|y l]]; try discriminate.
    inversion E; subst t'; simpl. apply G. apply repeat_length.
Qed.

(** [t[a:b] = src] with a [src] of [b - a] elements puts element [i - a] of
    [src] at every index [i] of [a, b). *)
Lemma slice_assign_inside (t src t' : tensor) (a b i : nat) :
  slice_assign t a b src = inr t' -> numel src = b - a -> a <= i < b -> i < numel t ->
  nth_error (t_data t') i = nth_error (t_data src) (i - a).
Proof.
  unfold slice_assign, numel. intros E Hs Hi Hn.
  set (n := List.length (t_data t)) in *.
  assert (Ea : Nat.min a n = a) by lia. rewrite Ea in E.
  destruct (List.length (t_data src) =? Nat.min b n - a) eqn:El.
  - apply Nat.eqb_eq in El. inversion E; subst t'; simpl.
    assert (Lf : List.length (firstn a (t_data t)) = a) by (rewrite length_firstn; lia).
    rewrite nth_error_app2 by lia. rewrite Lf.
    rewrite nth_error_app1 by lia. reflexivity.
  - apply Nat.eqb_neq in El.
    destruct (t_data src) as [|x [|y l]]; try discriminate.
    simpl in Hs, El. exfalso. lia.
Qed.

(** A loop whose rounds keep [I] of the store and [J] of the accumulator. *)
Lemma fold_m_kept {St A B : Type} (I : St -> Prop) (J : B -> Prop) (l : list A)
      (body : B -> A -> py St B) :
  (forall y acc s acc' s', In y l -> I s -> body acc y s = (inr acc', s') ->
                           I s' /\ (J acc -> J acc')) ->
  forall acc s acc' s', I s -> J acc -> fold_m l acc body s = (inr acc', s') ->
                        I s' /\ J acc'.
Proof.
  induction l as [|y l IH]; simpl; intros Hb acc s acc' s' Hi Hj E.
  - inversion E; subst; auto.
  - apply bind_success in E. destruct E as (a1 & s1 & E1 & E2).
    destruct (Hb y acc s a1 s1 (or_introl eq_refl) Hi E1) as [Hi1 Hj1].
    apply (IH (fun y0 acc0 s0 acc0' s0' Hy => Hb y0 acc0 s0 acc0' s0' (or_intror Hy))
              a1 s1 acc' s' Hi1 (Hj1 Hj) E2).
Qed.

(** A loop that goes through [x], where the round of [x] brings [J] about
    and every round keeps it. *)
Lemma fold_m_established {St A B : Type} (I : St -> Prop) (J : B -> Prop) (l : list A)
      (body : B -> A -> py St B) (x : A) :
  In x l ->
  (forall y acc s acc' s', In y l -> I s -> body acc y s = (inr acc', s') ->
                           I s' /\ (y = x \/ J acc -> J acc')) ->
  forall acc s acc' s', I s -> fold_m l acc body s = (inr acc', s') -> I s' /\ J acc'.
Proof.
  induction l as [|y l IH]; simpl; intros Ix Hb acc s acc' s' Hi E; [contradiction|].
  apply bind_success in E. destruct E as (a1 & s1 & E1 & E2).
  destruct (Hb y acc s a1 s1 (or_introl eq_refl) Hi E1) as [Hi1 Hj1].
  destruct Ix as [->|Ix].
  - apply (fold_m_kept I J l body
             (fun y0 acc0 s0 acc0' s0' Hy Hi0 E0 =>
                match Hb y0 acc0 s0 acc0' s0' (or_intror Hy) Hi0 E0 with
                | conj A B => conj A (fun Hj => B (or_intror Hj))
                end)
             a1 s1 acc' s' Hi1 (Hj1 (or_introl eq_refl)) E2).
  - apply (IH Ix (fun y0 acc0 s0 acc0' s0' Hy => Hb y0 acc0 s0 acc0' s0' (or_intror Hy))
              a1 s1 acc' s' Hi1 E2).
Qed.

Lemma In_wf_unique {V : Type} (d : dict string V) (k : string) (v v' : V) :
  dict_wf d -> In (k, v) d -> In (k, v') d -> v = v'.
Proof.
  intros W A B.
  apply (In_dict_get string_key_ok d k v W) in A.
  apply (In_dict_get string_key_ok d k v' W) in B.
  congruence.
Qed.

(** ** The gradients *)

(** One round of the loop of lines 475-477. *)
Lemma apply_offsets_plain_round (merged : dict string tensor)
      (sharded : dict (nat * nat) (dict string tensor)) (p : string) (r a b tp_rank : nat)
      (L : locals) (merged' : dict string tensor) (L' : locals) :
  (modify (set_dp_rank_var r) ;;;
   apply_offsets_plain merged sharded p (a, b) tp_rank) L = (inr merged', L') ->
  exists shard src dst dst',
    dict_get sharded (tp_rank, r) = Some shard
    /\ dict_get shard p = Some src
    /\ dict_get merged p = Some dst
    /\ slice_assign dst a b src = inr dst'
    /\ merged' = dict_set merged p dst'.
Proof.
  intros E. py_step E u L1 E1 E. inversion E1; subst u L1.
  unfold apply_offsets_plain in E.
  py_step E r0 s1 F1 E. apply read_dp_rank_success in F1. destruct F1 as [F1 ->].
  simpl in F1. inversion F1; subst r0.
  py_step E shard s2 F2 E. apply lookup_or_success in F2. destruct F2 as [F2 ->].
  py_step E src s3 F3 E. apply lookup_or_success in F3. destruct F3 as [F3 ->].
  py_step E dst s4 F4 E. apply lookup_or_success in F4. destruct F4 as [F4 ->].
  py_step E dst' s5 F5 E. apply lift_success in F5. destruct F5 as [F5 ->].
  inversion E; subst merged'.
  exists shard, src, dst, dst'. auto.
Qed.

(** What the merged gradients hold at an index [i] that the range of rank
    [r] covers. *)
Definition gradient_copied_at (sharded : dict (nat * nat) (dict string tensor))
    (tp_rank : nat) (p : string) (r a b i : nat) (merged : dict string tensor) : Prop :=
  exists shard src,
    dict_get sharded (tp_rank, r) = Some shard
    /\ dict_get shard p = Some src
    /\ forall t, dict_get merged p = Some t -> i < numel t -> numel src = b - a ->
                 nth_error (t_data t) i = nth_error (t_data src) (i - a).

Lemma gradient_round_copies sharded tp_rank p offsets r a b i
      (y : nat * (nat * nat)) (acc : dict string tensor) (s : locals) acc' s' :
  sole_range offsets r a b i -> In y offsets ->
  (let '(dp_rank, offset) := y in
   modify (set_dp_rank_var dp_rank) ;;;
   apply_offsets_plain acc sharded p offset tp_rank) s = (inr acc', s') ->
  y = (r, (a, b)) \/ gradient_copied_at sharded tp_rank p r a b i acc ->
  gradient_copied_at sharded tp_rank p r a b i acc'.
Proof.
  intros (Ix & Hi & Sole) Iy E C. destruct y as [r' [a' b']].
  apply apply_offsets_plain_round in E.
  destruct E as (shard & src & dst & dst' & Gs & Gp & Gd & Es & ->).
  destruct (le_lt_dec a' i) as [La|La]; [destruct (le_lt_dec b' i) as [Lb|Lb]|].
  2:{ (* the round of the range that holds [i] *)
      assert (Y : (r', (a', b')) = (r, (a, b))) by (apply Sole; [exact Iy | lia]).
      inversion Y; subst r' a' b'.
      exists shard, src. split; [exact Gs|]. split; [exact Gp|].
      intros t Gt Hn Hs.
      rewrite (dict_get_set_eq string_key_ok) in Gt. inversion Gt; subst t.
      rewrite (slice_assign_numel _ _ _ _ _ Es) in Hn.
      apply (slice_assign_inside _ _ _ _ _ _ Es Hs Hi Hn). }
  all: destruct C as [Y|(shard0 & src0 & Gs0 & Gp0 & C)];
    [inversion Y; subst; lia|];
    exists shard0, src0; (split; [exact Gs0|]); (split; [exact Gp0|]);
    intros t Gt Hn Hs;
    rewrite (dict_get_set_eq string_key_ok) in Gt; inversion Gt; subst t;
    destruct (slice_assign_outside _ _ _ _ _ i Es ltac:(lia)) as [Hm Hv];
    rewrite Hv; apply (C dst Gd); [rewrite <- Hm; exact Hn | exact Hs].
Qed.

Lemma gradient_round_elsewhere sharded tp_rank p p' r a b i
      (y : nat * (nat * nat)) (acc : dict string tensor) (s : locals) acc' s' :
  p' <> p ->
  (let '(dp_rank, offset) := y in
   modify (set_dp_rank_var dp_rank) ;;;
   apply_offsets_plain acc sharded p' offset tp_rank) s = (inr acc', s') ->
  gradient_copied_at sharded tp_rank p r a b i acc ->
  gradient_copied_at sharded tp_rank p r a b i acc'.
Proof.
  intros N E (shard0 & src0 & Gs0 & Gp0 & C). destruct y as [r' [a' b']].
  apply apply_offsets_plain_round in E.
  destruct E as (shard & src & dst & dst' & Gs & Gp & Gd & Es & ->).
  exists shard0, src0. split; [exact Gs0|]. split; [exact Gp0|].
  intros t Gt. rewrite (dict_get_set_neq string_key_ok) in Gt by exact N.
  apply (C t Gt).
Qed.

Lemma merge_grad_accumulator_copies ckp_offsets sharded tp_rank merged (L : locals)
      merged' L' :
  dict_wf ckp_offsets ->
  merge_grad_accumulator ckp_offsets sharded tp_rank merged L = (inr merged', L') ->
  gradients_copied ckp_offsets sharded tp_rank merged'.
Proof.
  intros W E p offsets r a b t i Ip Sole Gt Hn.
  assert (J : gradient_copied_at sharded tp_rank p r a b i merged').
  { unfold merge_grad_accumulator in E.
    refine (proj2 (fold_m_established (fun _ : locals => True)
                     (gradient_copied_at sharded tp_rank p r a b i)
                     ckp_offsets _ (p, offsets) Ip _ merged L merged' L' I E)).
    intros [p' offsets'] acc s acc' s' Iy _ Eb. split; [exact I|]. intros C.
    destruct (String.eqb_spec p' p) as [->|Np].
    - assert (offsets' = offsets) by (apply (In_wf_unique _ _ _ _ W Iy Ip)). subst offsets'.
      refine (proj2 (fold_m_established (fun _ : locals => True)
                       (gradient_copied_at sharded tp_rank p r a b i)
                       offsets _ (r, (a, b)) (proj1 Sole) _ acc s acc' s' I Eb)).
      intros y acc2 s2 acc2' s2' Iy2 _ Eb2. split; [exact I|]. intros C2.
      apply (gradient_round_copies sharded tp_rank p offsets r a b i y acc2 s2 acc2' s2'
               Sole Iy2 Eb2 C2).
    - destruct C as [Y|C]; [inversion Y; subst; contradiction|].
      refine (proj2 (fold_m_kept (fun _ : locals => True)
                       (gradient_copied_at sharded tp_rank p r a b i)
                       offsets' _ _ acc s acc' s' I C Eb)).
      intros y acc2 s2 acc2' s2' _ _ Eb2. split; [exact I|].
      apply (gradient_round_elsewhere sharded tp_rank p p' r a b i y acc2 s2 acc2' s2'
               Np Eb2). }
  destruct J as (shard & src & Gs & Gp & C).
  exists shard, src. split; [exact Gs|]. split; [exact Gp|].
  intros Hs. apply (C t Gt Hn Hs).
Qed.

(** ** The states *)

(** One round of the loop of lines 416-420. *)
Lemma apply_offsets_key_round (merged_tensor : dict string (dict string tensor))
      (sharded : dict (nat * nat) (dict nat (dict string tensor)))
      (p : string) (a b tp_rank : nat) (key : string)
      (L : locals) (sd : state_dict) (names : dict nat string) (r : nat)
      (merged' : dict string (dict string tensor)) (L' : locals) :
  state_dict_var L = Some sd -> sd_names sd = Some names -> dp_rank_var L = Some r ->
  (sd <- read_state_dict ;;
   names <- lookup_or KeyError (sd_names sd) ;;
   let p_idx := get_key_by_value names p in
   dp_rank <- read_dp_rank ;;
   shard <- lookup_or KeyError (dict_get sharded (tp_rank, dp_rank)) ;;
   i <- lookup_or KeyError p_idx ;;
   entry <- lookup_or KeyError (dict_get shard i) ;;
   src <- lookup_or KeyError (dict_get entry key) ;;
   merged <- lookup_or KeyError (dict_get merged_tensor p) ;;
   dst <- lookup_or KeyError (dict_get merged key) ;;
   dst' <- lift (slice_assign dst (fst (a, b)) (snd (a, b)) src) ;;
   ret (dict_set merged_tensor p (dict_set merged key dst'))) L
  = (inr merged', L') ->
  L' = L
  /\ exists shard p_idx entry src m dst dst',
       dict_get sharded (tp_rank, r) = Some shard
       /\ get_key_by_value names p = Some p_idx
       /\ dict_get shard p_idx = Some entry
       /\ dict_get entry key = Some src
       /\ dict_get merged_tensor p = Some m
       /\ dict_get m key = Some dst
       /\ slice_assign dst a b src = inr dst'
       /\ merged' = dict_set merged_tensor p (dict_set m key dst').
Proof.
  intros Hs Hnames Hr E.
  py_step E sd0 s1 F1 E. apply read_state_dict_success in F1. destruct F1 as [F1 ->].
  rewrite Hs in F1. inversion F1; subst sd0.
  py_step E names0 s2 F2 E. apply lookup_or_success in F2. destruct F2 as [F2 ->].
  rewrite Hnames in F2. inversion F2; subst names0. cbv zeta in E.
  py_step E r0 s3 F3 E. apply read_dp_rank_success in F3. destruct F3 as [F3 ->].
  rewrite Hr in F3. inversion F3; subst r0.
  py_step E shard s4 F4 E. apply lookup_or_success in F4. destruct F4 as [F4 ->].
  py_step E p_idx s5 F5 E. apply lookup_or_success in F5. destruct F5 as [F5 ->].
  py_step E entry s6 F6 E. apply lookup_or_success in F6. destruct F6 as [F6 ->].
  py_step E src s7 F7 E. apply lookup_or_success in F7. destruct F7 as [F7 ->].
  py_step E m s8 F8 E. apply lookup_or_success in F8. destruct F8 as [F8 ->].
  py_step E dst s9 F9 E. apply lookup_or_success in F9. destruct F9 as [F9 ->].
  py_step E dst' s10 F10 E. apply lift_success in F10. destruct F10 as [F10 ->].
  inversion E; subst merged' L'. split; [reflexivity|].
  exists shard, p_idx, entry, src, m, dst, dst'. simpl in F10. auto 10.
Qed.

(** What the merged states hold at an index [i] that the range of rank [r]
    covers. *)
Definition state_copied_at (sharded : dict (nat * nat) (dict nat (dict string tensor)))
    (tp_rank : nat) (names : dict nat string) (p : string) (r a b : nat) (key : string)
    (i : nat) (merged : dict string (dict string tensor)) : Prop :=
  exists shard p_idx entry src,
    dict_get sharded (tp_rank, r) = Some shard
    /\ get_key_by_value names p = Some p_idx
    /\ dict_get shard p_idx = Some entry
    /\ dict_get entry key = Some src
    /\ forall m t, dict_get merged p = Some m -> dict_get m key = Some t ->
                   i < numel t -> numel src = b - a ->
                   nth_error (t_data t) i = nth_error (t_data src) (i - a).

Section StateRounds.
Variable sharded : dict (nat * nat) (dict nat (dict string tensor)).
Variable tp_rank : nat.
Variable sd : state_dict.
Variable names : dict nat string.
Hypothesis Hnames : sd_names sd = Some names.
Variable p : string.
Variable offsets : dict nat (nat * nat).
Variables r a b i : nat.
Variable key : string.
Hypothesis Sole : sole_range offsets r a b i.

Let J := state_copied_at sharded tp_rank names p r a b key i.

(** A round on parameter [p]: the round of the range of rank [r] and of
    [key] copies the element; every other round leaves it. *)
Lemma state_round_copies (r' a' b' : nat) (key' : string)
      (acc : dict string (dict string tensor)) (s : locals) acc' s' :
  In (r', (a', b')) offsets ->
  state_dict_var s = Some sd -> dp_rank_var s = Some r' ->
  (sd <- read_state_dict ;;
   names <- lookup_or KeyError (sd_names sd) ;;
   let p_idx := get_key_by_value names p in
   dp_rank <- read_dp_rank ;;
   shard <- lookup_or KeyError (dict_get sharded (tp_rank, dp_rank)) ;;
   i <- lookup_or KeyError p_idx ;;
   entry <- lookup_or KeyError (dict_get shard i) ;;
   src <- lookup_or KeyError (dict_get entry key') ;;
   merged <- lookup_or KeyError (dict_get acc p) ;;
   dst <- lookup_or KeyError (dict_get merged key') ;;
   dst' <- lift (slice_assign dst (fst (a', b')) (snd (a', b')) src) ;;
   ret (dict_set acc p (dict_set merged key' dst'))) s
  = (inr acc', s') ->
  s' = s
  /\ ((a' <= i < b' /\ key' = key) \/ J acc -> J acc').
Proof.
  intros Iy Hs Hr E.
  destruct (apply_offsets_key_round acc sharded p a' b' tp_rank key' s sd names r'
              acc' s' Hs Hnames Hr E)
    as (-> & shard & p_idx & entry & src & m & dst & dst' & Gs & Gi & Ge & Gk & Gm & Gd
        & Es & ->).
  split; [reflexivity|]. destruct Sole as (Ix & Hi & Only).
  intros [[Cov ->]|(shard0 & idx0 & entry0 & src0 & Gs0 & Gi0 & Ge0 & Gk0 & C)].
  - assert (Y : (r', (a', b')) = (r, (a, b))) by (apply Only; [exact Iy | exact Cov]).
    inversion Y; subst r' a' b'.
    exists shard, p_idx, entry, src. repeat (split; [assumption|]).
    intros m1 t Gm1 Gt Hn Hsz.
    rewrite (dict_get_set_eq string_key_ok) in Gm1. inversion Gm1; subst m1.
    rewrite (dict_get_set_eq string_key_ok) in Gt. inversion Gt; subst t.
    rewrite (slice_assign_numel _ _ _ _ _ Es) in Hn.
    apply (slice_assign_inside _ _ _ _ _ _ Es Hsz Hi Hn).
  - exists shard0, idx0, entry0, src0. repeat (split; [assumption|]).
    intros m1 t Gm1 Gt Hn Hsz.
    rewrite (dict_get_set_eq string_key_ok) in Gm1. inversion Gm1; subst m1.
    destruct (String.eqb_spec key' key) as [->|Nk].
    + rewrite (dict_get_set_eq string_key_ok) in Gt. inversion Gt; subst t.
      destruct (le_lt_dec a' i) as [La|La]; [destruct (le_lt_dec b' i) as [Lb|Lb]|].
      2:{ assert (Y : (r', (a', b')) = (r, (a, b))) by (apply Only; [exact Iy | lia]).
          inversion Y; subst r' a' b'.
          assert (shard = shard0) by congruence. subst shard0.
          assert (p_idx = idx0) by congruence. subst idx0.
          assert (entry = entry0) by congruence. subst entry0.
          assert (src = src0) by congruence. subst src0.
          rewrite (slice_assign_numel _ _ _ _ _ Es) in Hn.
          apply (slice_assign_inside _ _ _ _ _ _ Es Hsz Hi Hn). }
      all: destruct (slice_assign_outside _ _ _ _ _ i Es ltac:(lia)) as [Hm Hv];
        rewrite Hv; apply (C m dst Gm Gd); [rewrite <- Hm; exact Hn | exact Hsz].
    + rewrite (dict_get_set_neq string_key_ok) in Gt by exact Nk.
      apply (C m t Gm Gt Hn Hsz).
Qed.

(** The rounds of one range of parameter [p] (one call of [apply_offsets]). *)
Lemma state_range_copies (state_names : list string) (y : nat * (nat * nat))
      (acc : dict string (dict string tensor)) (s : locals) acc' s' :
  In key state_names -> In y offsets ->
  state_dict_var s = Some sd ->
  (let '(dp_rank, offset) := y in
   modify (set_dp_rank_var dp_rank) ;;;
   apply_offsets_state_keys acc sharded p offset tp_rank state_names) s
  = (inr acc', s') ->
  state_dict_var s' = Some sd /\ (y = (r, (a, b)) \/ J acc -> J acc').
Proof.
  intros Ik Iy Hs E. destruct y as [r' [a' b']].
  py_step E u s1 E1 E. inversion E1; subst u s1.
  unfold apply_offsets_state_keys in E.
  destruct state_names as [|k0 ks] eqn:Ek; [discriminate|]. rewrite <- Ek in *.
  assert (E' : fold_m state_names acc
                 (fun merged_tensor key0 =>
                    sd <- read_state_dict ;;
                    names <- lookup_or KeyError (sd_names sd) ;;
                    let p_idx := get_key_by_value names p in
                    dp_rank <- read_dp_rank ;;
                    shard <- lookup_or KeyError (dict_get sharded (tp_rank, dp_rank)) ;;
                    i <- lookup_or KeyError p_idx ;;
                    entry <- lookup_or KeyError (dict_get shard i) ;;
                    src <- lookup_or KeyError (dict_get entry key0) ;;
                    merged <- lookup_or KeyError (dict_get merged_tensor p) ;;
                    dst <- lookup_or KeyError (dict_get merged key0) ;;
                    dst' <- lift (slice_assign dst (fst (a', b')) (snd (a', b')) src) ;;
                    ret (dict_set merged_tensor p (dict_set merged key0 dst')))
                 (set_dp_rank_var r' s) = (inr acc', s'))
    by exact E.
  clear E Ek.
  set (I3 := fun s0 : locals => state_dict_var s0 = Some sd /\ dp_rank_var s0 = Some r').
  assert (H3 : I3 (set_dp_rank_var r' s)) by (split; [exact Hs | reflexivity]).
  destruct (le_lt_dec a' i) as [La|La]; [destruct (le_lt_dec b' i) as [Lb|Lb]|].
  2:{ destruct (fold_m_established I3 J state_names _ key Ik
                  (fun key' acc0 s0 acc0' s0' _ (H0 : I3 s0) E0 =>
                     match state_round_copies r' a' b' key' acc0 s0 acc0' s0' Iy
                             (proj1 H0) (proj2 H0) E0 with
                     | conj A B =>
                         conj (eq_ind_r I3 H0 A)
                              (fun C => B match C with
                                          | or_introl Ck => or_introl (conj (conj La Lb) Ck)
                                          | or_intror Cj => or_intror Cj
                                          end)
                     end)
                  acc (set_dp_rank_var r' s) acc' s' H3 E') as [[A _] B].
      split; [exact A | intros _; exact B]. }
  all: assert (Ny : (r', (a', b')) <> (r, (a, b)))
    by (intros Y; inversion Y; subst; destruct Sole as (_ & Hi & _); lia);
    split;
    [ apply (proj1 (proj1 (fold_m_kept I3 (fun _ => True) state_names _
                             (fun key' acc0 s0 acc0' s0' _ (H0 : I3 s0) E0 =>
                                match state_round_copies r' a' b' key' acc0 s0 acc0' s0' Iy
                                        (proj1 H0) (proj2 H0) E0 with
                                | conj A B => conj (eq_ind_r I3 H0 A) (fun _ => I)
                                end)
                             acc (set_dp_rank_var r' s) acc' s' H3 I E')))
    | intros [Y|C]; [contradiction|];
      apply (proj2 (fold_m_kept I3 J state_names _
                      (fun key' acc0 s0 acc0' s0' _ (H0 : I3 s0) E0 =>
                         match state_round_copies r' a' b' key' acc0 s0 acc0' s0' Iy
                                 (proj1 H0) (proj2 H0) E0 with
                         | conj A B => conj (eq_ind_r I3 H0 A) (fun Cj => B (or_intror Cj))
                         end)
                      acc (set_dp_rank_var r' s) acc' s' H3 C E')) ].
Qed.
End StateRounds.

(** The rounds of a range of another parameter. *)
Lemma state_range_elsewhere sharded tp_rank (sd : state_dict) (names : dict nat string)
      (p p' : string) (r a b : nat) (key : string) (i : nat) (state_names : list string)
      (y : nat * (nat * nat)) (acc : dict string (dict string tensor)) (s : locals) acc' s' :
  sd_names sd = Some names -> p' <> p ->
  state_dict_var s = Some sd ->
  (let '(dp_rank, offset) := y in
   modify (set_dp_rank_var dp_rank) ;;;
   apply_offsets_state_keys acc sharded p' offset tp_rank state_names) s
  = (inr acc', s') ->
  state_dict_var s' = Some sd
  /\ (state_copied_at sharded tp_rank names p r a b key i acc ->
      state_copied_at sharded tp_rank names p r a b key i acc').
Proof.
  intros Hnames N Hs E. destruct y as [r' [a' b']].
  py_step E u s1 E1 E. inversion E1; subst u s1.
  unfold apply_offsets_state_keys in E.
  destruct state_names as [|k0 ks] eqn:Ek; [discriminate|]. rewrite <- Ek in *.
  set (I3 := fun s0 : locals => state_dict_var s0 = Some sd /\ dp_rank_var s0 = Some r').
  assert (H3 : I3 (set_dp_rank_var r' s)) by (split; [exact Hs | reflexivity]).
  assert (Round : forall key' acc0 s0 acc0' s0',
             In key' state_names -> I3 s0 ->
             (sd <- read_state_dict ;;
              names <- lookup_or KeyError (sd_names sd) ;;
              let p_idx := get_key_by_value names p' in
              dp_rank <- read_dp_rank ;;
              shard <- lookup_or KeyError (dict_get sharded (tp_rank, dp_rank)) ;;
              i <- lookup_or KeyError p_idx ;;
              entry <- lookup_or KeyError (dict_get shard i) ;;
              src <- lookup_or KeyError (dict_get entry key') ;;
              merged <- lookup_or KeyError (dict_get acc0 p') ;;
              dst <- lookup_or KeyError (dict_get merged key') ;;
              dst' <- lift (slice_assign dst (fst (a', b')) (snd (a', b')) src) ;;
              ret (dict_set acc0 p' (dict_set merged key' dst'))) s0 = (inr acc0', s0') ->
             I3 s0'
             /\ (state_copied_at sharded tp_rank names p r a b key i acc0 ->
                 state_copied_at sharded tp_rank names p r a b key i acc0')).
  { intros key' acc0 s0 acc0' s0' _ [A0 B0] E0.
    destruct (apply_offsets_key_round acc0 sharded p' a' b' tp_rank key' s0 sd names r'
                acc0' s0' A0 Hnames B0 E0)
      as (-> & shard & p_idx & entry & src & m & dst & dst' & _ & _ & _ & _ & _ & _ & _ & ->).
    split; [split; assumption|].
    intros (shard0 & idx0 & entry0 & src0 & Gs0 & Gi0 & Ge0 & Gk0 & C).
    exists shard0, idx0, entry0, src0. repeat (split; [assumption|]).
    intros m1 t Gm1. rewrite (dict_get_set_neq string_key_ok) in Gm1 by exact N.
    apply (C m1 t Gm1). }
  split.
  - apply (proj1 (proj1 (fold_m_kept I3 (fun _ => True) state_names _
                           (fun key' acc0 s0 acc0' s0' Hk H0 E0 =>
                              conj (proj1 (Round key' acc0 s0 acc0' s0' Hk H0 E0))
                                   (fun _ => I))
                           acc (set_dp_rank_var r' s) acc' s' H3 I E))).
  - intros C.
    apply (proj2 (fold_m_kept I3 _ state_names _ Round
                    acc (set_dp_rank_var r' s) acc' s' H3 C E)).
Qed.

Lemma merge_optim_states_copies ckp_offsets sharded tp_rank state_names merged
      (L : locals) (sd : state_dict) (names : dict nat string) merged' L' :
  dict_wf ckp_offsets ->
  state_dict_var L = Some sd -> sd_names sd = Some names ->
  merge_optim_states ckp_offsets sharded tp_rank state_names merged L = (inr merged', L') ->
  state_dict_var L' = Some sd
  /\ states_copied ckp_offsets sharded tp_rank names state_names merged'.
Proof.
  intros W Hs Hnames E. unfold merge_optim_states in E.
  set (I1 := fun s0 : locals => state_dict_var s0 = Some sd).
  assert (Keep : forall (p' : string) (offsets' : dict nat (nat * nat)) acc s acc' s',
             I1 s ->
             fold_m offsets' acc
               (fun merged0 '(dp_rank, offset) =>
                  modify (set_dp_rank_var dp_rank) ;;;
                  apply_offsets_state_keys merged0 sharded p' offset tp_rank state_names) s
             = (inr acc', s') -> I1 s').
  { intros p' offsets' acc s acc' s' Hi Eb.
    refine (proj1 (fold_m_kept I1 (fun _ => True) offsets' _ _ acc s acc' s' Hi I Eb)).
    intros y acc2 s2 acc2' s2' _ H2 Eb2. split; [|auto].
    destruct y as [r' [a' b']].
    py_step Eb2 u s3 F Eb2. inversion F; subst u s3.
    unfold apply_offsets_state_keys in Eb2.
    destruct state_names as [|k0 ks] eqn:Ek; [discriminate|]. rewrite <- Ek in *.
    refine (proj1 (proj1 (fold_m_kept
                            (fun s0 : locals =>
                               state_dict_var s0 = Some sd /\ dp_rank_var s0 = Some r')
                            (fun _ => True) state_names _ _ acc2 (set_dp_rank_var r' s2)
                            acc2' s2' (conj H2 eq_refl) I Eb2))).
    intros key' acc0 s0 acc0' s0' _ [A0 B0] E0. split; [|auto].
    destruct (apply_offsets_key_round acc0 sharded p' a' b' tp_rank key' s0 sd names r'
                acc0' s0' A0 Hnames B0 E0) as (-> & _).
    split; assumption. }
  split.
  - refine (proj1 (fold_m_kept I1 (fun _ => True) ckp_offsets _ _ merged L merged' L'
                     Hs I E)).
    intros [p' offsets'] acc s acc' s' _ Hi Eb. split; [|auto].
    apply (Keep p' offsets' acc s acc' s' Hi Eb).
  - intros p offsets r a b key m t i Ip Sole Ik Gm Gt Hn.
    assert (J : state_copied_at sharded tp_rank names p r a b key i merged').
    { refine (proj2 (fold_m_established I1
                       (state_copied_at sharded tp_rank names p r a b key i)
                       ckp_offsets _ (p, offsets) Ip _ merged L merged' L' Hs E)).
      intros [p' offsets'] acc s acc' s' Iy Hi Eb.
      split; [apply (Keep p' offsets' acc s acc' s' Hi Eb)|]. intros C.
      destruct (String.eqb_spec p' p) as [->|Np].
      - assert (offsets' = offsets) by (apply (In_wf_unique _ _ _ _ W Iy Ip)).
        subst offsets'.
        refine (proj2 (fold_m_established I1
                         (state_copied_at sharded tp_rank names p r a b key i)
                         offsets _ (r, (a, b)) (proj1 Sole) _ acc s acc' s' Hi Eb)).
        intros y acc2 s2 acc2' s2' Iy2 H2 Eb2.
        apply (state_range_copies sharded tp_rank sd names Hnames p offsets r a b i key
                 Sole state_names y acc2 s2 acc2' s2' Ik Iy2 H2 Eb2).
      - destruct C as [Y|C]; [inversion Y; subst; contradiction|].
        refine (proj2 (fold_m_kept I1
                         (state_copied_at sharded tp_rank names p r a b key i)
                         offsets' _ _ acc s acc' s' Hi C Eb)).
        intros y acc2 s2 acc2' s2' _ H2 Eb2.
        apply (state_range_elsewhere sharded tp_rank sd names p p' r a b key i state_names
                 y acc2 s2 acc2' s2' Hnames Np H2 Eb2). }
    destruct J as (shard & p_idx & entry & src & Gs & Gi & Ge & Gk & C).
    exists shard, p_idx, entry, src. repeat (split; [assumption|]).
    intros Hsz. apply (C m t Gm Gt Hn Hsz).
Qed.

Lemma keys_without_step_NoDup (entry : dict string tensor) :
  dict_wf entry -> NoDup (keys_without_step entry).
Proof. intros W. unfold keys_without_step. apply NoDup_filter. exact W. Qed.

(** C3, as the code has it.  The merged buffers start as zeros and every
    range of the checkpoint is copied in; no coverage is checked.  When the
    reshard of the states (lines 441-467) or of the gradient accumulator
    (lines 472-485) goes through, the shards have been read and merged; in
    each merged buffer an element that no range of the checkpoint covers is
    still zero, and an element that one range covers is the element of the
    shard of that rank; and the load goes on with the merged buffers: each
    state of the local [state_dict] is replaced by the slice of its merged
    buffer at the offsets of the rank of the process, each gradient by the
    slice of its merged buffer at the offsets of the rank the variable
    [dp_rank] is left with. *)
Theorem merged_buffers_hold_ranges_over_zeros
    (optimizer : Optimizer) (pc : ParallelContext) (config : optimizer_config)
    (shard_paths : list (string * file)) (map_location : option device)
    (table : offsets_table) (shapes : dict string (list nat))
    (L : locals) (sd : state_dict) (names : dict nat string)
    (optim_state0 : dict string tensor) :
  cfg_param_name_to_dp_rank_offsets config = Some table ->
  cfg_orig_param_shapes config = Some shapes ->
  dict_wf table ->
  state_dict_var L = Some sd -> sd_names sd = Some names -> state_dict_wf sd ->
  dict_get (sd_state sd) 0 = Some optim_state0 ->
  (forall L',
      reshard_optim_states optimizer pc config shard_paths map_location L = (inr tt, L') ->
      exists sharded merged L1 sd',
        load_sharded_states shard_paths map_location load_type_state = inr sharded
        /\ merge_optim_states table sharded (tp_rank pc) (keys_without_step optim_state0)
             (create_merged_optim_states shapes map_location) L = (inr merged, L1)
        /\ states_zero_outside table merged
        /\ states_copied table sharded (tp_rank pc) names (keys_without_step optim_state0)
                         merged
        /\ state_dict_var L' = Some sd'
        /\ forall i, In i (keys (sd_state sd)) ->
             exists entry,
               dict_get (sd_state sd') i = Some entry
               /\ sliced_at optimizer (dp_rank pc) (keys_without_step optim_state0)
                            merged names i entry)
  /\ (forall L' ga,
        sd_gradient_accumulator sd = Some ga ->
        reshard_grad_accumulator optimizer pc config shard_paths map_location L
        = (inr tt, L') ->
        exists sharded merged L1 sd' ga',
          load_sharded_states shard_paths map_location load_type_gradient_accumulator
          = inr sharded
          /\ merge_grad_accumulator table sharded (tp_rank pc)
               (create_merged_gradients shapes map_location) L = (inr merged, L1)
          /\ gradients_zero_outside table merged
          /\ gradients_copied table sharded (tp_rank pc) merged
          /\ state_dict_var L' = Some sd' /\ sd_gradient_accumulator sd' = Some ga'
          /\ forall r, dp_rank_var L1 = Some r ->
             forall q, In q (keys ga) ->
               exists m range,
                 dict_get merged q = Some m
                 /\ assigned_range optimizer q r range
                 /\ dict_get ga' q = Some (slice m (fst range) (snd range))).
Proof.
  intros Hc Hsh W Hs Hnames (Wst & Wen & Wga) H0. split.
  - intros L' E. unfold reshard_optim_states in E. cbv zeta in E.
    py_step E e0 L1 E1 E.
    assert (A : e0 = optim_state0 /\ L1 = L).
    { unfold on_state_dict in E1. rewrite Hs in E1.
      rewrite (state_getitem_found sd 0 optim_state0 H0) in E1.
      inversion E1; subst e0 L1. split; [reflexivity|].
      rewrite <- Hs. symmetry. apply locals_eta. }
    destruct A as [-> ->].
    py_step E shapes0 L2 E2 E. apply lookup_or_success in E2. destruct E2 as [E2 ->].
    rewrite Hsh in E2. inversion E2; subst shapes0.
    py_step E sharded L3 E3 E. apply lift_success in E3. destruct E3 as [E3 ->].
    py_step E ckp_offsets L4 E4 E. apply lookup_or_success in E4. destruct E4 as [E4 ->].
    rewrite Hc in E4. inversion E4; subst ckp_offsets.
    py_step E merged L5 E5 E.
    destruct (merge_optim_states_copies table sharded (tp_rank pc)
                (keys_without_step optim_state0) _ L sd names merged L5 W Hs Hnames E5)
      as [Hs5 Cp].
    assert (Nn : NoDup (keys_without_step optim_state0)).
    { apply keys_without_step_NoDup. rewrite Forall_forall in Wen.
      apply (Wen (0, optim_state0)). apply (dict_get_In nat_key_ok). exact H0. }
    unfold update_state_slices in E.
    py_step E sd0 s1 F1 E. apply read_state_dict_success in F1. destruct F1 as [F1 ->].
    rewrite Hs5 in F1. inversion F1; subst sd0.
    destruct (slice_index_loop optimizer (dp_rank pc) (keys_without_step optim_state0)
                merged names (keys (sd_state sd)) Nn L5 sd L' Hs5 Hnames (fun i I => I) E)
      as (sd' & Hs' & _ & _ & _ & Hdone).
    exists sharded, merged, L5, sd'.
    split; [exact E3|]. split; [exact E5|]. split.
    { eapply merge_optim_states_keeps; [|exact E5].
      intros p m k t i G Gk _ Hi.
      apply (create_merged_optim_states_zero _ _ _ _ _ _ G Gk i Hi). }
    split; [exact Cp|]. split; [exact Hs'|].
    intros i Ii. apply (Hdone Wst i Ii).
  - intros L' ga Hg E. rewrite Hg in Wga. unfold reshard_grad_accumulator in E.
    py_step E shapes0 L2 E2 E. apply lookup_or_success in E2. destruct E2 as [E2 ->].
    rewrite Hsh in E2. inversion E2; subst shapes0.
    py_step E sharded L3 E3 E. apply lift_success in E3. destruct E3 as [E3 ->].
    py_step E ckp_offsets L4 E4 E. apply lookup_or_success in E4. destruct E4 as [E4 ->].
    rewrite Hc in E4. inversion E4; subst ckp_offsets.
    py_step E merged L5 E5 E.
    assert (Hs5 : state_dict_var L5 = Some sd)
      by (eapply (merge_grad_accumulator_keeps_state_dict (Some sd)); [exact Hs | exact E5]).
    assert (Ex : exists sd' ga',
               state_dict_var L' = Some sd' /\ sd_gradient_accumulator sd' = Some ga'
               /\ forall r, dp_rank_var L5 = Some r ->
                  forall q, In q (keys ga) ->
                    exists m range,
                      dict_get merged q = Some m
                      /\ assigned_range optimizer q r range
                      /\ dict_get ga' q = Some (slice m (fst range) (snd range))).
    { destruct (dp_rank_var L5) as [r|] eqn:Hr.
      - destruct (update_gradient_accumulator_slices optimizer merged L5 sd ga r L'
                    Hs5 Hg Wga Hr E) as (sd' & ga' & A & B & C).
        exists sd', ga'. split; [exact A|]. split; [exact B|].
        intros r0 [= <-]. exact C.
      - unfold update_gradient_accumulator in E.
        py_step E sd0 s1 F1 E. apply read_state_dict_success in F1. destruct F1 as [F1 ->].
        rewrite Hs5 in F1. inversion F1; subst sd0.
        py_step E ga0 s2 F2 E. apply lookup_or_success in F2. destruct F2 as [F2 ->].
        rewrite Hg in F2. inversion F2; subst ga0.
        destruct (keys ga) as [|q qs].
        + inversion E; subst L'. exists sd, ga. split; [exact Hs5|]. split; [exact Hg|].
          intros r0 X. discriminate X.
        + simpl in E. py_step E u s3 F3 E. py_step F3 r0 s4 F4 F3.
          apply read_dp_rank_success in F4. destruct F4 as [F4 _].
          rewrite Hr in F4. discriminate F4. }
    destruct Ex as (sd' & ga' & A & B & C).
    exists sharded, merged, L5, sd', ga'.
    split; [exact E3|]. split; [exact E5|]. split.
    { eapply merge_grad_accumulator_keeps; [|exact E5].
      intros p t i G _ Hi. apply (create_merged_gradients_zero _ _ _ _ G i Hi). }
    split; [apply (merge_grad_accumulator_copies table sharded (tp_rank pc) _ L merged L5
                     W E5)|].
    split; [exact A|]. split; [exact B | exact C].
Qed.

Lemma gap_uncovered : uncovered offsets_gap "w" 1.
Proof.
  intros offsets r a b I1 I2. simpl in I1. destruct I1 as [E|[]].
  inversion E; subst. simpl in I2.
  destruct I2 as [E2|[E2|[]]]; inversion E2; lia.
Qed.

(** C3 does not hold as worded: index 1 of the parameter is covered by no
    range of the checkpoint, yet the load succeeds, and the process that
    owns index 1 keeps the zero of the gap as its state and its gradient. *)
Lemma gap_is_loaded_as_zero :
  uncovered offsets_gap "w" 1
  /\ save_all saves_gap "ckpt" [] = (inr tt, checkpoint_gap)
  /\ exists loaded,
       fst (load_optimizer_defaults
              (zero_optimizer offsets_4x1 shapes_4 (one_param_state [0] [0] 0 [0])%Z)
              (process 0 1 1 4) "ckpt" checkpoint_gap) = inr loaded
       /\ moment_of loaded "exp_avg" = Some [0%Z]
       /\ moment_of loaded "exp_avg_sq" = Some [0%Z]
       /\ gradient_of loaded = Some [0%Z].
Proof.
  split; [exact gap_uncovered|]. split; [vm_compute; reflexivity|].
  eexists. split; [vm_compute; reflexivity|].
  split; [vm_compute; reflexivity|]. split; vm_compute; reflexivity.
Qed.


Lemma merged_buffers_hold_ranges_over_zeros_witness :
  let optimizer := zero_optimizer offsets_4x1 shapes_4 (one_param_state [0] [0] 0 [0])%Z in
  let sd := (one_param_state [11] [21] 7 [31])%Z in
  let L := {| state_dict_var := Some sd; dp_rank_var := None |} in
  let shard_paths := glob checkpoint_gap "ckpt/optimizer" (zero_shard_pattern 1 2 1 1) in
  let state_names :=
    keys_without_step [("exp_avg", on_cpu [11%Z]); ("exp_avg_sq", on_cpu [21%Z]);
                       ("step", on_cpu [7%Z])] in
  exists sharded merged L1 sd',
    load_sharded_states shard_paths None load_type_state = inr sharded
    /\ merge_optim_states offsets_gap sharded (tp_rank (process 0 1 1 4)) state_names
         (create_merged_optim_states shapes_4 None) L = (inr merged, L1)
    /\ states_zero_outside offsets_gap merged
    /\ states_copied offsets_gap sharded (tp_rank (process 0 1 1 4)) [(0, "w")]
                     state_names merged
    /\ state_dict_var
         (snd (reshard_optim_states optimizer (process 0 1 1 4) config_gap shard_paths
                 None L)) = Some sd'
    /\ forall i, In i (keys (sd_state sd)) ->
         exists entry,
           dict_get (sd_state sd') i = Some entry
           /\ sliced_at optimizer (dp_rank (process 0 1 1 4)) state_names merged
                        [(0, "w")] i entry.
Proof.
  cbv zeta.
  assert (Wt : dict_wf offsets_gap).
  { unfold dict_wf. simpl. repeat constructor. simpl. tauto. }
  assert (Ws : state_dict_wf (one_param_state [11] [21] 7 [31])%Z).
  { unfold state_dict_wf, dict_wf. simpl.
    repeat split; repeat constructor; simpl; intuition discriminate. }
  apply (proj1 (merged_buffers_hold_ranges_over_zeros
                  (zero_optimizer offsets_4x1 shapes_4 (one_param_state [0] [0] 0 [0])%Z)
                  (process 0 1 1 4) config_gap
                  (glob checkpoint_gap "ckpt/optimizer" (zero_shard_pattern 1 2 1 1)) None
                  offsets_gap shapes_4
                  {| state_dict_var := Some (one_param_state [11] [21] 7 [31])%Z;
                     dp_rank_var := None |}
                  (one_param_state [11] [21] 7 [31])%Z [(0, "w")]
                  [("exp_avg", on_cpu [11%Z]); ("exp_avg_sq", on_cpu [21%Z]);
                   ("step", on_cpu [7%Z])]
                  eq_refl eq_refl Wt eq_refl eq_refl Ws eq_refl)).
  vm_compute. reflexivity.
Defined.

(* ------------------------------------------------------------------ *)
(** * A change of tensor-parallel size under ZeRO (C5) *)
(* ------------------------------------------------------------------ *)
















(* ------------------------------------------------------------------ *)
(** * What the parameter loop keeps of its variables *)
(* ------------------------------------------------------------------ *)

Section FrameOfState.
(** A property of the loop variables that writes to the new state and to
    [state_key] keep. *)
Variable P : tp_locals -> Prop.
Hypothesis P_new_state : forall st L, P L -> P (set_new_state st L).
Hypothesis P_state_key : forall k L, P L -> P (set_state_key k L).

Lemma new_state_getitem_keeps (param_index : nat) :
  preserves P (new_state_getitem param_index).
Proof.
  intros L r L' H E. unfold new_state_getitem, bind, get, put, ret in E.
  destruct (dict_get (new_state L) param_index); inversion E; subst r L'; auto.
Qed.

Lemma new_state_setitem_keeps (param_index : nat) (key : string) (t : tensor) :
  preserves P (new_state_setitem param_index key t).
Proof.
  unfold new_state_setitem. apply preserves_bind.
  - apply new_state_getitem_keeps.
  - intros e. apply preserves_modify. intros L H. apply P_new_state; exact H.
Qed.

Lemma flatten_last_state_keeps (config : optimizer_config) (param_index : nat) :
  preserves P (flatten_last_state config param_index).
Proof.
  unfold flatten_last_state.
  destruct (String.eqb (ckp_optim_type config) ZeroDistributedOptimizer_name);
    [|apply preserves_ret].
  apply preserves_bind; [apply preserves_get|]. intros L.
  apply preserves_bind; [apply preserves_lookup_or|]. intros key.
  apply preserves_bind; [apply new_state_getitem_keeps|]. intros entry.
  apply preserves_bind; [apply preserves_lookup_or|]. intros value.
  apply new_state_setitem_keeps.
Qed.


(** What follows the head of the loop over the shards of a parameter that
    is not sharded (lines 343-347). *)
Lemma copy_states_keeps (names : list string) (ckp : state_dict) (param_index i : nat) :
  preserves P
    (for_each names (fun key =>
       modify (set_state_key key) ;;;
       entry <- lookup_or KeyError (dict_get (sd_state ckp) i) ;;
       value <- lookup_or KeyError (dict_get entry key) ;;
       new_state_setitem param_index key value)).
Proof.
  apply preserves_for_each. intros key _.
  apply preserves_bind; [apply preserves_modify; intros L H; apply P_state_key; exact H|].
  intros _. apply preserves_bind; [apply preserves_lookup_or|]. intros entry.
  apply preserves_bind; [apply preserves_lookup_or|]. intros value.
  apply new_state_setitem_keeps.
Qed.

Hypothesis P_ckp : forall c L, P L -> P (set_ckp_optim_state c L).
Hypothesis P_index : forall i L, P L -> P (set_old_optim_state_index i L).



Section Sharded.
Variables TensorMetadata ShardedInfo : Type.
Variable unsharded_shape : ShardedInfo -> list nat.
Variable torch_empty : list nat -> option device -> tensor.
Variable merge_and_shard_tp_tensors :
  tensor -> tensor -> tensor -> TensorMetadata -> ShardedInfo -> exn + (tensor * tensor).
Variable config : optimizer_config.
Variable map_location : option device.
Variable param_shard_metadata : dict string (dict (nat * nat) TensorMetadata).
Variable shards : dict (nat * nat) state_dict.
Variable names : list string.


End Sharded.
End FrameOfState.

(* ------------------------------------------------------------------ *)
(** * Tied parameters in the map of names (C6) *)
(* ------------------------------------------------------------------ *)


Section NamesMap.
Variables TensorMetadata ShardedInfo : Type.
Variable unsharded_shape : ShardedInfo -> list nat.
Variable torch_empty : list nat -> option device -> tensor.
Variable merge_and_shard_tp_tensors :
  tensor -> tensor -> tensor -> TensorMetadata -> ShardedInfo -> exn + (tensor * tensor).
Variable config : optimizer_config.
Variable map_location : option device.
Variable param_shard_metadata : dict string (dict (nat * nat) TensorMetadata).
Variable shards : dict (nat * nat) state_dict.
Variable names : list string.
Variable model : Model ShardedInfo.






End NamesMap.


(* ------------------------------------------------------------------ *)
(** * The step of a restored parameter (C7) *)
(* ------------------------------------------------------------------ *)

(** The loop variables [ckp_optim_state] and [old_optim_state_index] are
    bound to this shard and this index. *)
Definition bound_to (ckp : state_dict) (index : option nat) (L : tp_locals) : Prop :=
  ckp_optim_state L = Some ckp /\ old_optim_state_index L = Some index.

Lemma visit_shard_success shards base_name pp_rank ckp L index L' :
  visit_shard shards base_name pp_rank ckp L = (inr index, L') ->
  find_optim_index_from_param_name base_name shards pp_rank = inr index
  /\ bound_to ckp index L'.
Proof.
  unfold visit_shard. intros E.
  py_step E u s1 E1 E. py_step E i s2 E2 E. py_step E u' s3 E3 E.
  apply lift_success in E2. destruct E2 as [E2 ->].
  inversion E1; subst. inversion E3; subst. inversion E; subst.
  split; [exact E2 | split; reflexivity].
Qed.

Lemma bound_to_new_state ckp index st L :
  bound_to ckp index L -> bound_to ckp index (set_new_state st L).
Proof. intros H; exact H. Qed.

Lemma bound_to_state_key ckp index k L :
  bound_to ckp index L -> bound_to ckp index (set_state_key k L).
Proof. intros H; exact H. Qed.

Lemma restore_replicated_binds_last shards front pp tp ckp names param_index base_name L L' :
  shards = front ++ [((pp, tp), ckp)] ->
  restore_replicated shards names param_index base_name L = (inr tt, L') ->
  exists index,
    find_optim_index_from_param_name base_name shards pp = inr index
    /\ bound_to ckp index L'.
Proof.
  intros Hs E. unfold restore_replicated in E.
  rewrite Hs in E at 1.
  apply for_each_last in E. destruct E as (L1 & _ & E).
  py_step E ix L2 E1 E.
  apply visit_shard_success in E1. destruct E1 as [F B].
  exists ix. split; [exact F|].
  destruct ix as [i|].
  - apply (copy_states_keeps (bound_to ckp (Some i))
             (bound_to_new_state ckp (Some i)) (bound_to_state_key ckp (Some i))
             names ckp param_index i L2 (inr tt) L' B E).
  - inversion E; subst; exact B.
Qed.

Section ShardedLast.
Variables TensorMetadata ShardedInfo : Type.
Variable unsharded_shape : ShardedInfo -> list nat.
Variable torch_empty : list nat -> option device -> tensor.
Variable merge_and_shard_tp_tensors :
  tensor -> tensor -> tensor -> TensorMetadata -> ShardedInfo -> exn + (tensor * tensor).
Variable config : optimizer_config.
Variable map_location : option device.
Variable param_shard_metadata : dict string (dict (nat * nat) TensorMetadata).

Lemma restore_sharded_binds_last shards front pp tp ckp names param info
      param_index param_name base_name L L' :
  shards = front ++ [((pp, tp), ckp)] ->
  names <> [] ->
  restore_sharded unsharded_shape torch_empty merge_and_shard_tp_tensors config
                  map_location param_shard_metadata shards names param info
                  param_index param_name base_name L = (inr tt, L') ->
  exists index,
    find_optim_index_from_param_name base_name shards pp = inr index
    /\ bound_to ckp index L'.
Proof.
  intros Hs Hn E. unfold restore_sharded in E.
  destruct (exists_last Hn) as (nfront & key & Hk). rewrite Hk in E.
  apply for_each_last in E. destruct E as (L1 & _ & E).
  py_step E u L2 E1 E. py_step E buffers L3 E2 E.
  inversion E; subst L3. clear E.
  rewrite Hs in E2 at 1.
  apply fold_m_last in E2. destruct E2 as (acc1 & L4 & _ & E).
  py_step E ix L5 E3 E.
  apply visit_shard_success in E3. destruct E3 as [F B].
  exists ix. split; [exact F|].
  destruct ix as [i|]; [|inversion E; subst; exact B].
  revert E. generalize buffers. intros res E.
  assert (K : preserves (bound_to ckp (Some i))
                (entry <- lookup_or KeyError (dict_get (sd_state ckp) i) ;;
                 ckp_shard_data <- lookup_or KeyError (dict_get entry key) ;;
                 metadata <- lookup_or KeyError
                               (dict_get param_shard_metadata (replace_module 0 param_name)) ;;
                 metadata_pp_rank <-
                   match tied_info_name param with
                   | Some _ =>
                       match metadata with
                       | [] => raise StopIteration
                       | ((pp, _), _) :: _ => ret pp
                       end
                   | None => ret pp
                   end ;;
                 ckp_shard_metadata <- lookup_or KeyError
                                         (dict_get metadata (metadata_pp_rank, tp)) ;;
                 ckp_shard_data <-
                   (if String.eqb (ckp_optim_type config) ZeroDistributedOptimizer_name then
                      shapes <- lookup_or KeyError (cfg_orig_param_shapes config) ;;
                      orig_shape <- lookup_or KeyError (dict_get shapes param_name) ;;
                      lift (view ckp_shard_data orig_shape)
                    else ret ckp_shard_data) ;;
                 merged <- lift (merge_and_shard_tp_tensors (fst acc1) (snd acc1)
                                   ckp_shard_data ckp_shard_metadata info) ;;
                 new_state_setitem param_index key (fst merged) ;;;
                 ret merged)).
  { apply preserves_bind; [apply preserves_lookup_or|]. intros entry.
    apply preserves_bind; [apply preserves_lookup_or|]. intros data.
    apply preserves_bind; [apply preserves_lookup_or|]. intros metadata.
    apply preserves_bind.
    { destruct (tied_info_name param); [|apply preserves_ret].
      destruct metadata as [|[[pp' tp'] md] rest];
        [apply preserves_raise | apply preserves_ret]. }
    intros metadata_pp_rank.
    apply preserves_bind; [apply preserves_lookup_or|]. intros ckp_shard_metadata.
    apply preserves_bind.
    { destruct (String.eqb (ckp_optim_type config) ZeroDistributedOptimizer_name);
        [|apply preserves_ret].
      apply preserves_bind; [apply preserves_lookup_or|]. intros shapes.
      apply preserves_bind; [apply preserves_lookup_or|]. intros orig_shape.
      apply preserves_lift. }
    intros data'.
    apply preserves_bind; [apply preserves_lift|]. intros merged.
    apply preserves_bind; [|intros; apply preserves_ret].
    apply new_state_setitem_keeps. apply bound_to_new_state. }
  apply (K L5 (inr res) L' B E).
Qed.
End ShardedLast.

Lemma new_state_setitem_sets param_index key t L r L' :
  new_state_setitem param_index key t L = (r, L') ->
  exists entry, dict_get (new_state L') param_index = Some (dict_set entry key t).
Proof.
  unfold new_state_setitem, new_state_getitem, bind, get, put, ret, modify. intros E.
  destruct (dict_get (new_state L) param_index) as [e|]; inversion E; subst r L'.
  - exists e. simpl. apply (dict_get_set_eq nat_key_ok).
  - exists []. simpl. apply (dict_get_set_eq nat_key_ok).
Qed.

(** C7, as the code has it.  For a parameter that is restored, the step
    that ends in the new state is the one the last shard of the iteration
    over [ckp_sharded_optim_states] holds for it; the steps of the other
    shards are not read and nothing is compared. *)
Theorem step_taken_from_last_shard
    (TensorMetadata ShardedInfo : Type)
    (unsharded_shape : ShardedInfo -> list nat)
    (torch_empty : list nat -> option device -> tensor)
    (merge_and_shard_tp_tensors :
       tensor -> tensor -> tensor -> TensorMetadata -> ShardedInfo -> exn + (tensor * tensor))
    (config : optimizer_config) (map_location : option device)
    (param_shard_metadata : dict string (dict (nat * nat) TensorMetadata))
    (shards : dict (nat * nat) state_dict) (names : list string)
    (model : Model ShardedInfo) (param : NanotronParameter ShardedInfo)
    (param_index : nat) (param_name : string) (L L' : tp_locals)
    (front : dict (nat * nat) state_dict) (pp tp : nat) (ckp : state_dict) :
  let base_name :=
    match tied_info_name param with Some name => name | None => param_name end in
  dict_get (get_parameter model) param_name = Some (nanotron_parameter param) ->
  negb (String.eqb param_name base_name)
  && existsb (String.eqb base_name) (values (new_optim_state_param_names L)) = false ->
  shards = front ++ [((pp, tp), ckp)] ->
  names <> [] ->
  restore_parameter unsharded_shape torch_empty merge_and_shard_tp_tensors config
                    map_location param_shard_metadata shards names model
                    param_index param_name L = (inr tt, L') ->
  exists i entry,
    find_optim_index_from_param_name base_name shards pp = inr (Some i)
    /\ dict_get (sd_state ckp) i = Some entry
    /\ forall step, dict_get entry "step" = Some step ->
                    step_of (new_state L') param_index = Some step.
Proof.
  intros base_name Hp Hc Hs Hn E.
  unfold restore_parameter in E. rewrite Hp in E.
  fold base_name in E. unfold bind at 1, get in E. rewrite Hc in E.
  match type of E with
  | bind (modify ?f) ?rest L = _ =>
      rewrite (bind_inr (modify f) rest L tt (f L)) in E by reflexivity
  end.
  cbv beta in E.
  py_step E u L2 E1 E. py_step E u' L3 E2 E.
  assert (B : exists ix, find_optim_index_from_param_name base_name shards pp = inr ix
                         /\ bound_to ckp ix L2).
  { destruct u. destruct (sharded_info param) as [info|].
    - eapply restore_sharded_binds_last; [exact Hs | exact Hn | exact E1].
    - eapply restore_replicated_binds_last; [exact Hs | exact E1]. }
  destruct B as (ix & F & B).
  assert (B3 : bound_to ckp ix L3).
  { apply (flatten_last_state_keeps (bound_to ckp ix) (bound_to_new_state ckp ix)
             config param_index L2 (inr u') L3 B E2). }
  destruct B3 as [Bc Bi].
  unfold restore_step in E. unfold bind at 1, get in E.
  rewrite Bc, Bi in E. unfold lookup_or at 1 2 in E.
  rewrite (bind_inr _ _ L3 ckp L3) in E by reflexivity.
  rewrite (bind_inr _ _ L3 ix L3) in E by reflexivity.
  destruct ix as [i|]; [|discriminate].
  unfold lookup_or at 1 in E.
  rewrite (bind_inr _ _ L3 i L3) in E by reflexivity.
  destruct (dict_get (sd_state ckp) i) as [entry|] eqn:Ee; [|discriminate].
  unfold lookup_or at 1 in E.
  rewrite (bind_inr _ _ L3 entry L3) in E by reflexivity.
  exists i, entry. split; [exact F|]. split; [exact Ee|].
  intros step Hstep. rewrite Hstep in E.
  apply new_state_setitem_sets in E. destruct E as (e & Ge).
  unfold step_of. rewrite Ge. apply (dict_get_set_eq string_key_ok).
Qed.

Lemma step_taken_from_last_shard_witness :
  dict_get (get_parameter model_norm) "norm" = Some (replicated_parameter None)
  /\ shards_two_steps = [((0, 0), norm_state 5)] ++ [((0, 1), norm_state 7)]
  /\ restore_norm tp_locals_init = (inr tt, snd (restore_norm tp_locals_init))
  /\ exists i entry,
       find_optim_index_from_param_name "norm" shards_two_steps 0 = inr (Some i)
       /\ dict_get (sd_state (norm_state 7)) i = Some entry
       /\ forall step, dict_get entry "step" = Some step ->
                       step_of (new_state (snd (restore_norm tp_locals_init))) 0 = Some step.
Proof.
  assert (E : restore_norm tp_locals_init = (inr tt, snd (restore_norm tp_locals_init)))
    by reflexivity.
  split; [reflexivity|]. split; [reflexivity|]. split; [exact E|].
  assert (Hn : ["exp_avg"; "exp_avg_sq"] <> @nil string) by discriminate.
  exact (step_taken_from_last_shard
           unit unit no_unsharded_shape no_torch_empty no_merge_and_shard_tp_tensors
           config_embed None [] shards_two_steps ["exp_avg"; "exp_avg_sq"] model_norm
           {| p_shape := [2]; p_device := cpu; tied_info_name := None;
              sharded_info := None |}
           0 "norm" tp_locals_init (snd (restore_norm tp_locals_init))
           [((0, 0), norm_state 5)] 0 1 (norm_state 7)
           eq_refl eq_refl eq_refl Hn E).
Defined.

(** C7 does not hold as worded: the two shards of the checkpoint hold the
    steps 5 and 7 for the parameter; the load goes through, with the step 7
    of the shard visited last. *)
Lemma disagreeing_steps_are_loaded :
  save_all saves_two_steps "ckpt" [] = (inr tt, checkpoint_two_steps)
  /\ map (fun kv => option_map t_data (step_of (sd_state (snd kv)) 0))
         (match load_replicated_shards
                  (glob checkpoint_two_steps "ckpt/optimizer" (replicated_shard_pattern 1 2))
                  None with
          | inr shards => shards
          | inl _ => []
          end)
     = [Some [5%Z]; Some [7%Z]]
  /\ exists loaded,
       fst (load_optimizer_with_model
              (zero_optimizer [("norm", [(0, (0, 2))])] [("norm", [2])] fresh_state)
              (process 0 1 0 1) "ckpt" model_norm checkpoint_two_steps) = inr loaded
       /\ option_map t_data (step_of (sd_state (optimizer_state_dict loaded)) 0)
          = Some [7%Z].
Proof.
  split; [vm_compute; reflexivity|]. split; [vm_compute; reflexivity|].
  eexists. split; vm_compute; reflexivity.
Qed.
(* ------------------------------------------------------------------ *)
(** * Parameters that are recorded and populated (C6) *)
(* ------------------------------------------------------------------ *)





Section FrameOfEntries.
(** A property of the loop variables that reading and writing an entry of
    the new state and binding [state_key] keep. *)
Variable P : tp_locals -> Prop.
Hypothesis P_getitem : forall i, preserves P (new_state_getitem i).
Hypothesis P_setitem : forall i key t, preserves P (new_state_setitem i key t).
Hypothesis P_state_key : forall k L, P L -> P (set_state_key k L).




Hypothesis P_ckp : forall c L, P L -> P (set_ckp_optim_state c L).
Hypothesis P_index : forall i L, P L -> P (set_old_optim_state_index i L).



Section ShardedEntries.
Variables TensorMetadata ShardedInfo : Type.
Variable unsharded_shape : ShardedInfo -> list nat.
Variable torch_empty : list nat -> option device -> tensor.
Variable merge_and_shard_tp_tensors :
  tensor -> tensor -> tensor -> TensorMetadata -> ShardedInfo -> exn + (tensor * tensor).
Variable config : optimizer_config.
Variable map_location : option device.
Variable param_shard_metadata : dict string (dict (nat * nat) TensorMetadata).
Variable shards : dict (nat * nat) state_dict.
Variable names : list string.


End ShardedEntries.
End FrameOfEntries.






Section Populated.
Variables TensorMetadata ShardedInfo : Type.
Variable unsharded_shape : ShardedInfo -> list nat.
Variable torch_empty : list nat -> option device -> tensor.
Variable merge_and_shard_tp_tensors :
  tensor -> tensor -> tensor -> TensorMetadata -> ShardedInfo -> exn + (tensor * tensor).
Variable config : optimizer_config.
Variable map_location : option device.
Variable param_shard_metadata : dict string (dict (nat * nat) TensorMetadata).
Variable shards : dict (nat * nat) state_dict.
Variable names : list string.
Variable model : Model ShardedInfo.





End Populated.





(* ------------------------------------------------------------------ *)
(** * State handed through the wrappers *)
(* ------------------------------------------------------------------ *)

Lemma class_of_load_state_dict (o : Optimizer) (sd : state_dict) :
  class_of (load_state_dict o sd) = class_of o.
Proof. destruct o; reflexivity. Qed.

Lemma isinstance_load_state_dict (o : Optimizer) (sd : state_dict) (cls : py_class) :
  isinstance (load_state_dict o sd) cls = isinstance o cls.
Proof. unfold isinstance. rewrite class_of_load_state_dict. reflexivity. Qed.


(** X3.  On a wrapper over a torch optimizer, however many wrappers lie in
    between, [get_base_optimizer] returns a torch optimizer; it holds the
    state the wrapper's [state_dict] returns, and a state loaded through the
    wrapper is the state of the base optimizer afterwards. *)
Theorem get_base_optimizer_holds_state
    (leaf_get_base_optimizer : py_class -> state_dict -> exn + Optimizer)
    (self : Optimizer) :
  is_wrapper self = true ->
  isinstance (innermost self) torch_Optimizer = true ->
  exists base,
    get_base_optimizer leaf_get_base_optimizer self = inr base
    /\ isinstance base torch_Optimizer = true
    /\ optimizer_state_dict base = optimizer_state_dict self
    /\ forall sd,
         get_base_optimizer leaf_get_base_optimizer (load_state_dict self sd)
         = inr (load_state_dict base sd).
Proof.
  induction self as [c s|c a inner IH]; [discriminate|].
  intros _ T. simpl in T. simpl get_base_optimizer.
  destruct (isinstance inner torch_Optimizer) eqn:I.
  - exists inner. repeat split; auto.
    intros sd. simpl. rewrite isinstance_load_state_dict, I. reflexivity.
  - destruct inner as [c' s'|c' a' inner'].
    + simpl in T. rewrite T in I. discriminate.
    + destruct (IH eq_refl T) as (base & A & B & C & D).
      exists base. repeat split; auto.
      intros sd. simpl load_state_dict at 1. simpl get_base_optimizer.
      replace (isinstance (Wrapper c' a' (load_state_dict inner' sd)) torch_Optimizer)
        with (isinstance (Wrapper c' a' inner') torch_Optimizer) by reflexivity.
      rewrite I. apply (D sd).
Qed.

Lemma get_base_optimizer_holds_state_witness :
  exists base,
    get_base_optimizer (fun _ _ => inl AttributeError)
      (Wrapper InheritFromOtherOptimizer no_attrs
         (zero_optimizer offsets_2 shapes_4 state_of_rank0)) = inr base
    /\ isinstance base torch_Optimizer = true
    /\ optimizer_state_dict base = state_of_rank0
    /\ forall sd,
         get_base_optimizer (fun _ _ => inl AttributeError)
           (load_state_dict
              (Wrapper InheritFromOtherOptimizer no_attrs
                 (zero_optimizer offsets_2 shapes_4 state_of_rank0)) sd)
         = inr (load_state_dict base sd).
Proof.
  exact (get_base_optimizer_holds_state (fun _ _ => inl AttributeError)
           (Wrapper InheritFromOtherOptimizer no_attrs
              (zero_optimizer offsets_2 shapes_4 state_of_rank0))
           eq_refl eq_refl).
Defined.
(* ------------------------------------------------------------------ *)
(** * File names determine the coordinate of the process *)
(* ------------------------------------------------------------------ *)

(** X4.  The name [get_optimizer_filename] gives a shard determines the
    coordinate it was built from: two calls that return the same name were
    given the same pipeline, tensor and expert ranks and sizes and the same
    [is_zero], and under ZeRO the same data-parallel rank and size.  Without
    ZeRO the data-parallel rank and size are not in the name: every
    data-parallel topology gives the same name. *)
Theorem get_optimizer_filename_injective
    tp tps pp pps dp dps ex exs z tp' tps' pp' pps' dp' dps' ex' exs' z' (name : string) :
  get_optimizer_filename (tp, tps) (pp, pps) (Some (dp, dps)) (Some (ex, exs)) (Some z)
  = inr name ->
  get_optimizer_filename (tp', tps') (pp', pps') (Some (dp', dps')) (Some (ex', exs'))
                         (Some z') = inr name ->
  tp = tp' /\ tps = tps' /\ pp = pp' /\ pps = pps' /\ ex = ex' /\ exs = exs' /\ z = z'
  /\ (z = true -> dp = dp' /\ dps = dps')
  /\ (z = false ->
      forall dp'' dps'' : nat,
        get_optimizer_filename (tp, tps) (pp, pps) (Some (dp'', dps'')) (Some (ex, exs))
                               (Some false) = inr name).
Proof.
  intros H0. assert (H00 := H0). revert H0.
  rewrite !get_optimizer_filename_tag. intros H H'.
  assert (E : OPTIMIZER_value
              +++ rank_tag pp pps (if z then Some (dp, dps) else None) tp tps ex exs
              = OPTIMIZER_value
                +++ rank_tag pp' pps' (if z' then Some (dp', dps') else None) tp' tps' ex' exs')
    by congruence.
  apply append_inj_l in E. apply rank_tag_inj in E.
  destruct E as (-> & -> & D & -> & -> & -> & ->).
  assert (F : z = false ->
              forall dp'' dps'' : nat,
                get_optimizer_filename (tp', tps') (pp', pps') (Some (dp'', dps''))
                                       (Some (ex', exs')) (Some false) = inr name).
  { intros -> dp'' dps''. rewrite <- H00. reflexivity. }
  destruct z, z'; try discriminate D; repeat split; try discriminate; try exact F.
  - inversion D; reflexivity.
  - inversion D; reflexivity.
Qed.

Lemma get_optimizer_filename_injective_witness :
  0 = 0 /\ 1 = 1 /\ 0 = 0 /\ 1 = 1 /\ 0 = 0 /\ 1 = 1 /\ true = true
  /\ (true = true -> 1 = 1 /\ 2 = 2)
  /\ (true = false ->
      forall dp'' dps'' : nat,
        get_optimizer_filename (0, 1) (0, 1) (Some (dp'', dps'')) (Some (0, 1)) (Some false)
        = inr "optimizer_pp-0-of-1_dp-1-of-2_tp-0-of-1_exp-0-of-1.pt").
Proof.
  exact (get_optimizer_filename_injective 0 1 0 1 1 2 0 1 true 0 1 0 1 1 2 0 1 true
           "optimizer_pp-0-of-1_dp-1-of-2_tp-0-of-1_exp-0-of-1.pt" eq_refl eq_refl).
Defined.

(** Two replicated processes that differ in their data-parallel rank get
    the same name. *)
Example replicated_ranks_share_a_name :
  shard_filename (replicated_optimizer state_of_rank0) (process 0 1 0 2)
  = shard_filename (replicated_optimizer state_of_rank0) (process 0 1 1 2).
Proof. reflexivity. Qed.

(* ------------------------------------------------------------------ *)
(** * Reading the ranks back from a file name *)
(* ------------------------------------------------------------------ *)

Lemma read_digits_stop (r : list ascii) (acc : option nat) :
  no_digit_first r -> read_digits r acc = acc.
Proof. destruct r as [|c r]; simpl; intros H; [reflexivity | rewrite H; reflexivity]. Qed.

Lemma read_digits_uint (d : Decimal.uint) :
  forall (a : nat) (r : list ascii),
    d <> Decimal.Nil ->
    read_digits (list_ascii_of_string (NilEmpty.string_of_uint d) ++ r) (Some a)
    = read_digits r (Some (Nat.of_uint_acc d a)).
Proof.
  assert (G : forall d a r,
            read_digits (list_ascii_of_string (NilEmpty.string_of_uint d) ++ r) (Some a)
            = read_digits r (Some (Nat.of_uint_acc d a))).
  { clear d. induction d; intros a r; simpl;
      rewrite ?IHd, ?Nat.tail_mul_spec; try reflexivity;
      do 3 f_equal; lia. }
  intros a r _. apply G.
Qed.

Lemma read_digits_first (d : Decimal.uint) (r : list ascii) :
  d <> Decimal.Nil ->
  read_digits (list_ascii_of_string (NilEmpty.string_of_uint d) ++ r) None
  = read_digits (list_ascii_of_string (NilEmpty.string_of_uint d) ++ r) (Some 0).
Proof. destruct d; intros N; [contradiction|..]; reflexivity. Qed.

(** [int(str(n)) = n]: the digits [str] writes are read back as [n]. *)
Lemma read_digits_str (n : nat) (r : list ascii) :
  no_digit_first r ->
  read_digits (list_ascii_of_string (str n) ++ r) None = Some n.
Proof.
  intros N. unfold str, NilZero.string_of_uint.
  assert (T := to_uint_nonnil n).
  destruct (Nat.to_uint n) eqn:E; [contradiction|..];
    rewrite <- E in *; clear E.
  all: replace (list_ascii_of_string _ ++ r)
         with (list_ascii_of_string (NilEmpty.string_of_uint (Nat.to_uint n)) ++ r).
  all: try (destruct (Nat.to_uint n); reflexivity).
  all: rewrite (read_digits_first _ _ T), (read_digits_uint _ 0 r T), (read_digits_stop _ _ N).
  all: f_equal; apply DecimalNat.Unsigned.of_to.
Qed.

Lemma digits_list (s : string) :
  digits s -> Forall (fun c => is_digit c = true) (list_ascii_of_string s).
Proof. induction s as [|c s IH]; simpl; intros H; constructor; tauto. Qed.

Lemma rank_after_eq (tag s : list ascii) :
  rank_after tag s
  = match strip_prefix tag s with
    | Some rest => read_digits rest None
    | None => match s with [] => None | _ :: s' => rank_after tag s' end
    end.
Proof. destruct s; reflexivity. Qed.

(** A tag that starts with no digit is not found inside a number. *)
Lemma rank_after_skip_digits (c : ascii) (t A r : list ascii) :
  is_digit c = false -> Forall (fun c => is_digit c = true) A ->
  rank_after (c :: t) (A ++ r) = rank_after (c :: t) r.
Proof.
  intros Hc. induction 1 as [|d A Hd _ IH]; [reflexivity|].
  simpl app. rewrite rank_after_eq. simpl strip_prefix.
  destruct (Ascii.eqb_spec c d) as [->|_]; [congruence|]. exact IH.
Qed.

Section ParseName.
Variables A B C D E F G H : list ascii.
Variables pp dp tp : nat.
Hypothesis dA : Forall (fun c => is_digit c = true) A.
Hypothesis dB : Forall (fun c => is_digit c = true) B.
Hypothesis dC : Forall (fun c => is_digit c = true) C.
Hypothesis dD : Forall (fun c => is_digit c = true) D.
Hypothesis rA : forall r, no_digit_first r -> read_digits (A ++ r) None = Some pp.
Hypothesis rC : forall r, no_digit_first r -> read_digits (C ++ r) None = Some dp.
Hypothesis rE : forall r, no_digit_first r -> read_digits (E ++ r) None = Some tp.

Lemma parse_zero_pp :
  rank_after (list_ascii_of_string "_pp-") 
    (list_ascii_of_string "optimizer" ++ list_ascii_of_string "_pp-" ++ A
     ++ list_ascii_of_string "-of-" ++ B
     ++ list_ascii_of_string "_dp-" ++ C ++ list_ascii_of_string "-of-" ++ D
     ++ list_ascii_of_string "_tp-" ++ E ++ list_ascii_of_string "-of-" ++ F
     ++ list_ascii_of_string "_exp-" ++ G ++ list_ascii_of_string "-of-" ++ H
     ++ list_ascii_of_string ".pt") = Some pp.
Proof. simpl. apply rA. reflexivity. Qed.

Lemma parse_zero_dp :
  rank_after (list_ascii_of_string "_dp-") 
    (list_ascii_of_string "optimizer" ++ list_ascii_of_string "_pp-" ++ A
     ++ list_ascii_of_string "-of-" ++ B
     ++ list_ascii_of_string "_dp-" ++ C ++ list_ascii_of_string "-of-" ++ D
     ++ list_ascii_of_string "_tp-" ++ E ++ list_ascii_of_string "-of-" ++ F
     ++ list_ascii_of_string "_exp-" ++ G ++ list_ascii_of_string "-of-" ++ H
     ++ list_ascii_of_string ".pt") = Some dp.
Proof.
  simpl.
  rewrite (rank_after_skip_digits "_"%char _ _ _ eq_refl dA). simpl.
  rewrite (rank_after_skip_digits "_"%char _ _ _ eq_refl dB). simpl.
  apply rC. reflexivity.
Qed.

Lemma parse_zero_tp :
  rank_after (list_ascii_of_string "_tp-") 
    (list_ascii_of_string "optimizer" ++ list_ascii_of_string "_pp-" ++ A
     ++ list_ascii_of_string "-of-" ++ B
     ++ list_ascii_of_string "_dp-" ++ C ++ list_ascii_of_string "-of-" ++ D
     ++ list_ascii_of_string "_tp-" ++ E ++ list_ascii_of_string "-of-" ++ F
     ++ list_ascii_of_string "_exp-" ++ G ++ list_ascii_of_string "-of-" ++ H
     ++ list_ascii_of_string ".pt") = Some tp.
Proof.
  simpl.
  rewrite (rank_after_skip_digits "_"%char _ _ _ eq_refl dA). simpl.
  rewrite (rank_after_skip_digits "_"%char _ _ _ eq_refl dB). simpl.
  rewrite (rank_after_skip_digits "_"%char _ _ _ eq_refl dC). simpl.
  rewrite (rank_after_skip_digits "_"%char _ _ _ eq_refl dD). simpl.
  apply rE. reflexivity.
Qed.

Lemma parse_replicated_pp :
  rank_after (list_ascii_of_string "_pp-") 
    (list_ascii_of_string "optimizer" ++ list_ascii_of_string "_pp-" ++ A
     ++ list_ascii_of_string "-of-" ++ B
     ++ list_ascii_of_string "_tp-" ++ E ++ list_ascii_of_string "-of-" ++ F
     ++ list_ascii_of_string "_exp-" ++ G ++ list_ascii_of_string "-of-" ++ H
     ++ list_ascii_of_string ".pt") = Some pp.
Proof. simpl. apply rA. reflexivity. Qed.

Lemma parse_replicated_tp :
  rank_after (list_ascii_of_string "_tp-") 
    (list_ascii_of_string "optimizer" ++ list_ascii_of_string "_pp-" ++ A
     ++ list_ascii_of_string "-of-" ++ B
     ++ list_ascii_of_string "_tp-" ++ E ++ list_ascii_of_string "-of-" ++ F
     ++ list_ascii_of_string "_exp-" ++ G ++ list_ascii_of_string "-of-" ++ H
     ++ list_ascii_of_string ".pt") = Some tp.
Proof.
  simpl.
  rewrite (rank_after_skip_digits "_"%char _ _ _ eq_refl dA). simpl.
  rewrite (rank_after_skip_digits "_"%char _ _ _ eq_refl dB). simpl.
  apply rE. reflexivity.
Qed.
End ParseName.

Lemma get_optimizer_filename_chars tp tps pp pps dp dps ex exs (z : bool) (name : string) :
  get_optimizer_filename (tp, tps) (pp, pps) (Some (dp, dps)) (Some (ex, exs)) (Some z)
  = inr name ->
  list_ascii_of_string name
  = list_ascii_of_string "optimizer" ++ list_ascii_of_string "_pp-"
    ++ list_ascii_of_string (str pp) ++ list_ascii_of_string "-of-"
    ++ list_ascii_of_string (str pps)
    ++ (if z
        then list_ascii_of_string "_dp-" ++ list_ascii_of_string (str dp)
             ++ list_ascii_of_string "-of-" ++ list_ascii_of_string (str dps)
        else [])
    ++ list_ascii_of_string "_tp-" ++ list_ascii_of_string (str tp)
    ++ list_ascii_of_string "-of-" ++ list_ascii_of_string (str tps)
    ++ list_ascii_of_string "_exp-" ++ list_ascii_of_string (str ex)
    ++ list_ascii_of_string "-of-" ++ list_ascii_of_string (str exs)
    ++ list_ascii_of_string ".pt".
Proof.
  rewrite get_optimizer_filename_tag. intros E.
  assert (N : name = OPTIMIZER_value
                     +++ rank_tag pp pps (if z then Some (dp, dps) else None) tp tps ex exs)
    by congruence.
  subst name. unfold rank_tag, OPTIMIZER_value.
  destruct z; cbv beta iota; repeat rewrite list_ascii_app;
    repeat rewrite <- app_assoc; reflexivity.
Qed.

Lemma parse_shard_name tp tps pp pps dp dps ex exs (z : bool) (name : string) :
  get_optimizer_filename (tp, tps) (pp, pps) (Some (dp, dps)) (Some (ex, exs)) (Some z)
  = inr name ->
  extract_parallel_ranks_from_shard_path name z
  = inr (pp, if z then Some dp else None, tp).
Proof.
  intros E. apply get_optimizer_filename_chars in E.
  unfold extract_parallel_ranks_from_shard_path. rewrite E. clear E.
  assert (dg := fun n => digits_list _ (digits_str n)).
  destruct z.
  - rewrite <- !app_assoc.
    rewrite (parse_zero_pp _ (list_ascii_of_string (str pps)) (list_ascii_of_string (str dp))
               (list_ascii_of_string (str dps)) (list_ascii_of_string (str tp))
               (list_ascii_of_string (str tps)) (list_ascii_of_string (str ex))
               (list_ascii_of_string (str exs)) pp (read_digits_str pp)).
    rewrite (parse_zero_tp _ _ _ _ _ (list_ascii_of_string (str tps))
               (list_ascii_of_string (str ex)) (list_ascii_of_string (str exs))
               tp (dg pp) (dg pps) (dg dp) (dg dps) (read_digits_str tp)).
    rewrite (parse_zero_dp _ _ _ (list_ascii_of_string (str dps))
               (list_ascii_of_string (str tp)) (list_ascii_of_string (str tps))
               (list_ascii_of_string (str ex)) (list_ascii_of_string (str exs))
               dp (dg pp) (dg pps) (read_digits_str dp)).
    reflexivity.
  - rewrite app_nil_l.
    rewrite (parse_replicated_pp _ (list_ascii_of_string (str pps))
               (list_ascii_of_string (str tp)) (list_ascii_of_string (str tps))
               (list_ascii_of_string (str ex)) (list_ascii_of_string (str exs))
               pp (read_digits_str pp)).
    rewrite (parse_replicated_tp _ _ _ (list_ascii_of_string (str tps))
               (list_ascii_of_string (str ex)) (list_ascii_of_string (str exs))
               tp (dg pp) (dg pps) (read_digits_str tp)).
    reflexivity.
Qed.

(** X5.  The ranks [extract_parallel_ranks_from_shard_path] reads in a name
    built by [get_optimizer_filename] are the ranks the name was built
    from: pipeline, data-parallel and tensor rank of a ZeRO shard, pipeline
    and tensor rank of another one.  So [load_optimizer] files every shard
    under the coordinate of the process that saved it. *)
Theorem shard_name_ranks_read_back tp tps pp pps dp dps ex exs (z : bool) (name : string) :
  get_optimizer_filename (tp, tps) (pp, pps) (Some (dp, dps)) (Some (ex, exs)) (Some z)
  = inr name ->
  extract_parallel_ranks_from_shard_path name z
  = inr (pp, if z then Some dp else None, tp).
Proof. apply parse_shard_name. Qed.

Lemma shard_name_ranks_read_back_witness :
  extract_parallel_ranks_from_shard_path
    "optimizer_pp-3-of-4_dp-10-of-16_tp-1-of-2_exp-0-of-1.pt" true
  = inr (3, Some 10, 1).
Proof.
  exact (shard_name_ranks_read_back 1 2 3 4 10 16 0 1 true
           "optimizer_pp-3-of-4_dp-10-of-16_tp-1-of-2_exp-0-of-1.pt" eq_refl).
Defined.

(* ------------------------------------------------------------------ *)
(** * The table of shards the reshard reads (lines 403-409) *)
(* ------------------------------------------------------------------ *)

Lemma load_sharded_states_snoc {A : Type} (l : list (string * file)) (name : string)
      (f : file) (map_location : option device) (load_type : state_dict -> exn + A)
      (table : dict (nat * nat) A) pp dp tp checkpoint v :
  load_sharded_states l map_location load_type = inr table ->
  extract_parallel_ranks_from_shard_path name true = inr (pp, Some dp, tp) ->
  torch_load_file f map_location = inr checkpoint ->
  load_type checkpoint = inr v ->
  load_sharded_states (l ++ [(name, f)]) map_location load_type
  = inr (dict_set table (tp, dp) v).
Proof.
  unfold load_sharded_states. intros E P T V.
  rewrite fold_left_app, E. simpl. rewrite P, T, V. reflexivity.
Qed.

(** X6.  [load_sharded_states] files a shard under its tensor and
    data-parallel rank and drops the pipeline rank: of two ZeRO shards that
    differ in the pipeline rank only, the table keeps one entry, with the
    content of the shard listed last. *)
Theorem load_sharded_states_drops_pipeline_rank {A : Type}
    tp tps pp pp' pps dp dps ex exs (name name' : string) (f f' : file)
    (map_location : option device) (load_type : state_dict -> exn + A)
    (checkpoint checkpoint' : state_dict) (v v' : A) :
  get_optimizer_filename (tp, tps) (pp, pps) (Some (dp, dps)) (Some (ex, exs)) (Some true)
  = inr name ->
  get_optimizer_filename (tp, tps) (pp', pps) (Some (dp, dps)) (Some (ex, exs)) (Some true)
  = inr name' ->
  torch_load_file f map_location = inr checkpoint -> load_type checkpoint = inr v ->
  torch_load_file f' map_location = inr checkpoint' -> load_type checkpoint' = inr v' ->
  load_sharded_states [(name, f); (name', f')] map_location load_type
  = inr [((tp, dp), v')].
Proof.
  intros N N' T V T' V'.
  apply parse_shard_name in N, N'.
  change [(name, f); (name', f')] with ([(name, f)] ++ [(name', f')]).
  rewrite (load_sharded_states_snoc [(name, f)] name' f' map_location load_type
             [((tp, dp), v)] pp' dp tp checkpoint' v'); auto.
  - simpl. change (key_eqb (tp, dp) (tp, dp)) with ((tp =? tp) && (dp =? dp)).
    rewrite !Nat.eqb_refl. reflexivity.
  - change [(name, f)] with ([] ++ [(name, f)]).
    rewrite (load_sharded_states_snoc [] name f map_location load_type
               [] pp dp tp checkpoint v); auto.
Qed.

Lemma load_sharded_states_drops_pipeline_rank_witness :
  load_sharded_states
    [("optimizer_pp-0-of-2_dp-1-of-2_tp-0-of-1_exp-0-of-1.pt", ShardFile state_of_rank0);
     ("optimizer_pp-1-of-2_dp-1-of-2_tp-0-of-1_exp-0-of-1.pt", ShardFile state_of_rank1)]
    None load_type_state
  = inr [((0, 1), sd_state state_of_rank1)].
Proof.
  exact (load_sharded_states_drops_pipeline_rank 0 1 0 1 2 1 2 0 1 _ _
           (ShardFile state_of_rank0) (ShardFile state_of_rank1) None load_type_state
           state_of_rank0 state_of_rank1 _ _ eq_refl eq_refl eq_refl eq_refl eq_refl eq_refl).
Defined.

(* ------------------------------------------------------------------ *)
(** * Saving and loading the learning-rate scheduler *)
(* ------------------------------------------------------------------ *)

Section LrSchedulerFacts.
Variable LR_SCHEDULER_value : string.
Variables LRScheduler scheduler_state : Type.
Variable scheduler_state_dict : LRScheduler -> scheduler_state.
Variable scheduler_load_state_dict : LRScheduler -> scheduler_state -> LRScheduler.
Variable _initial_step : LRScheduler -> LRScheduler.

Lemma lr_scheduler_filename_tag (pc : ParallelContext) (z : bool) :
  lr_scheduler_filename LR_SCHEDULER_value pc z
  = LR_SCHEDULER_value
    +++ rank_tag (pp_rank pc) (pp_size pc)
                 (if z then Some (dp_rank pc, dp_size pc) else None)
                 (tp_rank pc) (tp_size pc) (expert_rank pc) (expert_parallel_size pc).
Proof. destruct z; reflexivity. Qed.

Lemma lr_scheduler_filename_same (pc pc' : ParallelContext) (z : bool) :
  same_coordinate z pc pc' ->
  lr_scheduler_filename LR_SCHEDULER_value pc z
  = lr_scheduler_filename LR_SCHEDULER_value pc' z.
Proof.
  intros (E1 & E2 & E3 & E4 & E5 & E6 & E7).
  unfold lr_scheduler_filename. rewrite E1, E2, E3, E4, E5, E6.
  destruct z; [|reflexivity]. destruct (E7 eq_refl) as [-> ->]. reflexivity.
Qed.

(** Under ZeRO the name of the scheduler file determines the
    data-parallel rank. *)
Lemma lr_scheduler_filename_dp_rank (pc pc' : ParallelContext) :
  lr_scheduler_filename LR_SCHEDULER_value pc true
  = lr_scheduler_filename LR_SCHEDULER_value pc' true ->
  dp_rank pc = dp_rank pc'.
Proof.
  rewrite !lr_scheduler_filename_tag. intros H.
  apply append_inj_l in H. apply rank_tag_inj in H.
  destruct H as (_ & _ & D & _). inversion D; reflexivity.
Qed.

Lemma scheduler_save_outcome (fs : scheduler_files scheduler_state)
      (state : scheduler_state) (folder name : string) :
  exists fs' entries,
    bind (scheduler_mkdir folder)
         (fun _ => scheduler_torch_save state folder name) fs = (inr tt, fs')
    /\ dict_get fs' folder = Some (dict_set entries name state)
    /\ (dict_get fs folder = Some entries
        \/ dict_get fs folder = None /\ entries = [])
    /\ forall other, other <> folder -> dict_get fs' other = dict_get fs other.
Proof.
  unfold bind, scheduler_mkdir, modify, scheduler_torch_save, bind, get, lookup_or, put, ret.
  destruct (dict_get fs folder) as [entries|] eqn:E.
  - rewrite E. exists (dict_set fs folder (dict_set entries name state)), entries.
    split; [reflexivity|]. split; [apply (dict_get_set_eq string_key_ok)|].
    split; [left; reflexivity|].
    intros other N. apply (dict_get_set_neq string_key_ok). congruence.
  - rewrite (dict_get_set_eq string_key_ok).
    exists (dict_set (dict_set fs folder []) folder (dict_set [] name state)), [].
    split; [reflexivity|]. split; [apply (dict_get_set_eq string_key_ok)|].
    split; [right; auto|].
    intros other N. rewrite !(dict_get_set_neq string_key_ok) by congruence. reflexivity.
Qed.

(** X7.  [save_lr_scheduler] returns without writing on a data-parallel
    rank above 0 when [is_zero] is false; in every other case it succeeds,
    whatever the folders hold, and the state of the scheduler is then read
    back from the file named by the coordinate of the process. *)
Theorem save_lr_scheduler_writes_iff (lr_scheduler : LRScheduler) (is_zero : bool)
    (pc : ParallelContext) (root_folder : string) (fs : scheduler_files scheduler_state) :
  if is_zero || (dp_rank pc =? 0)
  then exists fs',
         save_lr_scheduler LR_SCHEDULER_value scheduler_state_dict lr_scheduler is_zero pc
                           root_folder fs = (inr tt, fs')
         /\ scheduler_torch_load fs' (root_folder +++ "/lr_scheduler")
                                 (lr_scheduler_filename LR_SCHEDULER_value pc is_zero)
            = inr (scheduler_state_dict lr_scheduler)
  else save_lr_scheduler LR_SCHEDULER_value scheduler_state_dict lr_scheduler is_zero pc
                         root_folder fs = (inr tt, fs).
Proof.
  unfold save_lr_scheduler.
  assert (G : negb is_zero && (0 <? dp_rank pc) = negb (is_zero || (dp_rank pc =? 0))).
  { rewrite negb_orb. f_equal. destruct (dp_rank pc); reflexivity. }
  rewrite G. destruct (is_zero || (dp_rank pc =? 0)); simpl; [|reflexivity].
  destruct (scheduler_save_outcome fs (scheduler_state_dict lr_scheduler)
              (root_folder +++ "/lr_scheduler")
              (lr_scheduler_filename LR_SCHEDULER_value pc is_zero))
    as (fs' & entries & S & Gt & _).
  exists fs'. split; [exact S|].
  unfold scheduler_torch_load. rewrite Gt, (dict_get_set_eq string_key_ok). reflexivity.
Qed.

(** X8.  What [save_lr_scheduler] wrote on a process is what
    [load_lr_scheduler] loads on every process with the same pipeline,
    tensor and expert coordinate (and, under ZeRO, the same data-parallel
    coordinate): the scheduler ends with the saved state loaded and
    [_initial_step] run.  When [is_zero] is false every data-parallel rank
    loads the state that rank 0 saved. *)
Theorem lr_scheduler_round_trip (saved lr_scheduler : LRScheduler) (is_zero : bool)
    (pc pc' : ParallelContext) (root_folder : string)
    (fs : scheduler_files scheduler_state) :
  is_zero = true \/ dp_rank pc = 0 ->
  same_coordinate is_zero pc pc' ->
  load_lr_scheduler LR_SCHEDULER_value scheduler_load_state_dict _initial_step
                    lr_scheduler is_zero pc' root_folder
    (snd (save_lr_scheduler LR_SCHEDULER_value scheduler_state_dict saved is_zero pc
                            root_folder fs))
  = inr (_initial_step
           (scheduler_load_state_dict lr_scheduler (scheduler_state_dict saved))).
Proof.
  intros W C. unfold save_lr_scheduler.
  assert (G : negb is_zero && (0 <? dp_rank pc) = false).
  { destruct W as [-> | ->]; [reflexivity | apply andb_false_r]. }
  rewrite G.
  destruct (scheduler_save_outcome fs (scheduler_state_dict saved)
              (root_folder +++ "/lr_scheduler")
              (lr_scheduler_filename LR_SCHEDULER_value pc is_zero))
    as (fs' & entries & S & Gt & _).
  cbv zeta. rewrite S. simpl snd.
  unfold load_lr_scheduler, scheduler_torch_load.
  rewrite <- (lr_scheduler_filename_same pc pc' is_zero C).
  rewrite Gt, (dict_get_set_eq string_key_ok). reflexivity.
Qed.

(** X9.  Under ZeRO the processes of a data-parallel group do not overwrite
    each other: after a second process of another data-parallel rank has
    saved into the same folder, the first still loads the state it saved. *)
Theorem lr_scheduler_ranks_keep_their_files (saved saved' lr_scheduler : LRScheduler)
    (pc pc' : ParallelContext) (root_folder : string)
    (fs : scheduler_files scheduler_state) :
  dp_rank pc <> dp_rank pc' ->
  load_lr_scheduler LR_SCHEDULER_value scheduler_load_state_dict _initial_step
                    lr_scheduler true pc root_folder
    (snd (save_lr_scheduler LR_SCHEDULER_value scheduler_state_dict saved' true pc'
            root_folder
            (snd (save_lr_scheduler LR_SCHEDULER_value scheduler_state_dict saved true pc
                    root_folder fs))))
  = inr (_initial_step
           (scheduler_load_state_dict lr_scheduler (scheduler_state_dict saved))).
Proof.
  intros N. unfold save_lr_scheduler.
  change (negb true && (0 <? dp_rank pc)) with false.
  change (negb true && (0 <? dp_rank pc')) with false. cbv iota zeta.
  destruct (scheduler_save_outcome fs (scheduler_state_dict saved)
              (root_folder +++ "/lr_scheduler")
              (lr_scheduler_filename LR_SCHEDULER_value pc true))
    as (fs1 & entries1 & S1 & G1 & _).
  rewrite S1. cbn [snd].
  destruct (scheduler_save_outcome fs1 (scheduler_state_dict saved')
              (root_folder +++ "/lr_scheduler")
              (lr_scheduler_filename LR_SCHEDULER_value pc' true))
    as (fs2 & entries2 & S2 & G2 & [P|[P _]] & _); rewrite P in G1; [|discriminate].
  rewrite S2. cbn [snd].
  unfold load_lr_scheduler, scheduler_torch_load. rewrite G2.
  inversion G1; subst entries2.
  rewrite (dict_get_set_neq string_key_ok).
  - rewrite (dict_get_set_eq string_key_ok). reflexivity.
  - intros E. apply N. symmetry. apply lr_scheduler_filename_dp_rank. exact E.
Qed.

End LrSchedulerFacts.

Lemma lr_scheduler_round_trip_witness :
  load_lr_scheduler "lr_scheduler" (fun (_ : nat) (state : nat) => state) S
                    0 false (process 0 1 1 2) "ckpt"
    (snd (save_lr_scheduler "lr_scheduler" (fun last_epoch : nat => last_epoch)
                            7 false (process 0 1 0 2) "ckpt" []))
  = inr 8.
Proof.
  apply (lr_scheduler_round_trip "lr_scheduler" nat nat (fun n => n) (fun _ n => n) S
           7 0 false (process 0 1 0 2) (process 0 1 1 2) "ckpt" []).
  - right; reflexivity.
  - unfold same_coordinate; simpl. repeat split; discriminate.
Defined.

Lemma lr_scheduler_ranks_keep_their_files_witness :
  load_lr_scheduler "lr_scheduler" (fun (_ : nat) (state : nat) => state) S
                    0 true (process 0 1 0 2) "ckpt"
    (snd (save_lr_scheduler "lr_scheduler" (fun last_epoch : nat => last_epoch)
            9 true (process 0 1 1 2) "ckpt"
            (snd (save_lr_scheduler "lr_scheduler" (fun last_epoch : nat => last_epoch)
                    7 true (process 0 1 0 2) "ckpt" []))))
  = inr 8.
Proof.
  apply (lr_scheduler_ranks_keep_their_files "lr_scheduler" nat nat (fun n => n)
           (fun _ n => n) S 7 9 0 (process 0 1 0 2) (process 0 1 1 2) "ckpt" []).
  simpl. discriminate.
Defined.

(* ------------------------------------------------------------------ *)
(** * The manifest [save_optimizer] writes *)
(* ------------------------------------------------------------------ *)

Lemma isinstance_inherit_from (o : Optimizer) (cls : py_class) (attrs : zero_attrs) :
  isinstance o cls = true -> attrs_of o = Some attrs -> inherit_from o cls = inr true.
Proof.
  intros H A. destruct o; [discriminate A|]. simpl. rewrite H. reflexivity.
Qed.

Lemma zero_is_wrapper_class (c : py_class) :
  issubclass c ZeroDistributedOptimizer = true ->
  issubclass c InheritFromOtherOptimizer = true.
Proof.
  unfold issubclass. induction c as [| | | |n b IH]; simpl; try discriminate; auto.
Qed.

(** A well-formed instance of [ZeroDistributedOptimizer] is a wrapper, and
    [inherit_from] finds it at once. *)
Lemma zero_inherit_from (o : Optimizer) :
  well_formed o = true -> isinstance o ZeroDistributedOptimizer = true ->
  inherit_from o ZeroDistributedOptimizer = inr true.
Proof.
  intros W I. destruct o as [c sd|c a inner].
  - unfold isinstance in I. simpl in I, W.
    rewrite (zero_is_wrapper_class c I) in W. discriminate W.
  - simpl. rewrite I. reflexivity.
Qed.

(** No shard is named like the manifest. *)
Lemma shard_filename_not_manifest (optimizer : Optimizer) (pc : ParallelContext)
      (name : string) :
  shard_filename optimizer pc = inr name -> name <> OPTIMIZER_CONFIG_FILE_NAME.
Proof.
  unfold shard_filename.
  destruct (inherit_from optimizer ZeroDistributedOptimizer) as [e|z]; [discriminate|].
  rewrite get_optimizer_filename_tag. intros E.
  assert (N : name = OPTIMIZER_value
                     +++ rank_tag (pp_rank pc) (pp_size pc)
                           (if z then Some (dp_rank pc, dp_size pc) else None)
                           (tp_rank pc) (tp_size pc) (expert_rank pc)
                           (expert_parallel_size pc)) by congruence.
  subst name. unfold rank_tag, OPTIMIZER_value, OPTIMIZER_CONFIG_FILE_NAME.
  cbn [String.append]. discriminate.
Qed.

Lemma write_file_success (fs fs' : filesystem) (folder name : string) (f : file) :
  write_file folder name f fs = (inr tt, fs') ->
  exists entries,
    dict_get fs folder = Some entries
    /\ fs' = dict_set fs folder (dict_set entries name f).
Proof.
  unfold write_file, bind, get, lookup_or, put, ret, raise.
  destruct (dict_get fs folder) as [entries|]; intros E; inversion E.
  exists entries. auto.
Qed.

Lemma write_file_entries (fs fs' : filesystem) (folder name : string) (f : file) :
  write_file folder name f fs = (inr tt, fs') ->
  exists entries,
    dict_get fs folder = Some entries
    /\ dict_get fs' folder = Some (dict_set entries name f).
Proof.
  intros E. apply write_file_success in E. destruct E as (entries & G & ->).
  exists entries. split; [exact G | apply (dict_get_set_eq string_key_ok)].
Qed.

(** What a [save_optimizer] that went through to the end has left in the
    folder: the shard of the process and, written by the process of world
    rank 0, the manifest. *)
Lemma save_optimizer_success (optimizer : Optimizer) (pc : ParallelContext)
      (root_folder : string) (fs fs' : filesystem) :
  inherit_from optimizer ZeroDistributedOptimizer = inr true \/ dp_rank pc = 0 ->
  save_optimizer optimizer pc root_folder fs = (inr tt, fs') ->
  exists name entries,
    shard_filename optimizer pc = inr name
    /\ dict_get fs' (root_folder +++ "/optimizer") = Some entries
    /\ dict_get entries name = Some (ShardFile (optimizer_state_dict optimizer))
    /\ (world_rank pc = 0 ->
        exists config,
          dict_get entries OPTIMIZER_CONFIG_FILE_NAME = Some (ConfigFile config)
          /\ manifest_of optimizer pc config).
Proof.
  intros W E. unfold save_optimizer in E.
  py_step E z fs0 E0 E. apply lift_success in E0. destruct E0 as [Hz ->].
  assert (G : negb z && (0 <? dp_rank pc) = false).
  { destruct W as [W | ->]; [|apply andb_false_r].
    rewrite Hz in W. injection W as ->. reflexivity. }
  rewrite G in E. cbv zeta in E.
  py_step E u1 fs1 E1 E.
  py_step E u2 fs2 E2 E.
  py_step E z' fs3' E3' E. apply lift_success in E3'. destruct E3' as [Hz' ->].
  rewrite Hz in Hz'. injection Hz' as <-.
  py_step E name fs3 E3 E.
  apply lift_success in E3. destruct E3 as [E3 ->].
  assert (E3s : shard_filename optimizer pc = inr name)
    by (unfold shard_filename; rewrite Hz; exact E3).
  clear E3. rename E3s into E3.
  apply write_file_success in E. destruct E as (entries & Gf & ->).
  exists name, (dict_set entries name (ShardFile (optimizer_state_dict optimizer))).
  split; [exact E3|]. split; [apply (dict_get_set_eq string_key_ok)|].
  split; [apply (dict_get_set_eq string_key_ok)|].
  intros Hw. rewrite Hw in E2. simpl Nat.eqb in E2. cbv iota in E2.
  py_step E2 u3 fs4 E4 E2.
  py_step E2 config fs5 E5 E2. destruct u2.
  apply write_file_entries in E2. destruct E2 as (entries5 & _ & G2).
  rewrite Gf in G2. inversion G2; subst entries.
  exists config. split.
  - rewrite (dict_get_set_neq string_key_ok).
    + apply (dict_get_set_eq string_key_ok).
    + intros N. apply (shard_filename_not_manifest optimizer pc name E3). exact N.
  - unfold manifest_of. destruct (isinstance optimizer ZeroDistributedOptimizer).
    + py_step E5 attrs fs6 E6 E5. apply lookup_or_success in E6. destruct E6 as [E6 ->].
      destruct (param_name_to_dp_rank_offsets attrs) as [offsets|] eqn:Ho;
        inversion E5; subst config; simpl.
      repeat split. exists attrs, offsets. auto.
    + inversion E5; subst config; simpl. repeat split.
Qed.

(** X10.  After the process of world rank 0 has saved, [load_optimizer]'s
    reading of the manifest gives the class name of the optimizer and the
    sizes of the tensor, data, pipeline and expert groups of the saving
    run, and for a [ZeroDistributedOptimizer] its table of offsets and the
    shapes of its parameters; for any other optimizer it holds neither. *)
Theorem manifest_round_trip (optimizer : Optimizer) (pc : ParallelContext)
    (root_folder : string) (fs fs' : filesystem) :
  world_rank pc = 0 ->
  inherit_from optimizer ZeroDistributedOptimizer = inr true \/ dp_rank pc = 0 ->
  save_optimizer optimizer pc root_folder fs = (inr tt, fs') ->
  exists config,
    load_config fs' (root_folder +++ "/optimizer") = inr config
    /\ manifest_of optimizer pc config.
Proof.
  intros Hw W E.
  destruct (save_optimizer_success optimizer pc root_folder fs fs' W E)
    as (name & entries & _ & Gf & _ & C).
  destruct (C Hw) as (config & Gc & M).
  exists config. split; [|exact M].
  unfold load_config, read_file. rewrite Gf, Gc. reflexivity.
Qed.

Lemma manifest_round_trip_witness :
  exists config,
    load_config
      (snd (save_optimizer (zero_optimizer offsets_2 shapes_4 state_of_rank0)
                           (process 0 1 0 2) "ckpt" []))
      ("ckpt" +++ "/optimizer") = inr config
    /\ manifest_of (zero_optimizer offsets_2 shapes_4 state_of_rank0) (process 0 1 0 2)
                   config.
Proof.
  apply (manifest_round_trip (zero_optimizer offsets_2 shapes_4 state_of_rank0)
           (process 0 1 0 2) "ckpt" []).
  - reflexivity.
  - left; reflexivity.
  - vm_compute. reflexivity.
Defined.

Lemma mkdir_outcome (fs : filesystem) (folder : string) :
  exists fs' entries,
    mkdir folder fs = (inr tt, fs')
    /\ dict_get fs' folder = Some entries
    /\ (dict_get fs folder = Some entries \/ dict_get fs folder = None /\ entries = []).
Proof.
  unfold mkdir, modify. destruct (dict_get fs folder) as [entries|] eqn:E.
  - exists fs, entries. auto.
  - exists (dict_set fs folder []), [].
    split; [reflexivity|]. split; [apply (dict_get_set_eq string_key_ok) | auto].
Qed.

(** X11.  When the process of world rank 0 saves a
    [ZeroDistributedOptimizer] whose table of offsets is not set, the
    assertion of line 114 is raised after the manifest has been opened for
    writing: the manifest is left empty (an earlier one is lost), reading it
    back fails, and no other file of the folder is written or changed. *)
Theorem save_without_offsets_empties_manifest (optimizer : Optimizer)
    (pc : ParallelContext) (root_folder : string) (fs : filesystem) (attrs : zero_attrs) :
  world_rank pc = 0 ->
  isinstance optimizer ZeroDistributedOptimizer = true ->
  attrs_of optimizer = Some attrs ->
  param_name_to_dp_rank_offsets attrs = None ->
  exists fs',
    save_optimizer optimizer pc root_folder fs
    = (inl (AssertionError "param_name_to_dp_rank_offsets is required"), fs')
    /\ read_file fs' (root_folder +++ "/optimizer") OPTIMIZER_CONFIG_FILE_NAME
       = inr EmptyFile
    /\ load_config fs' (root_folder +++ "/optimizer") = inl JSONDecodeError
    /\ forall name,
         name <> OPTIMIZER_CONFIG_FILE_NAME ->
         read_file fs' (root_folder +++ "/optimizer") name
         = read_file fs (root_folder +++ "/optimizer") name.
Proof.
  intros Hw Hi Ha Ho. unfold save_optimizer.
  rewrite (isinstance_inherit_from _ _ _ Hi Ha), Hw, Hi, Ha.
  rewrite (bind_inr _ _ fs true fs) by reflexivity. cbv beta.
  change (negb true && (0 <? dp_rank pc)) with false.
  change (0 =? 0) with true. cbv iota zeta.
  destruct (mkdir_outcome fs (root_folder +++ "/optimizer")) as (fs1 & en1 & M & G1 & P).
  destruct (read_after_write fs1 _ _ OPTIMIZER_CONFIG_FILE_NAME EmptyFile G1)
    as (fs2 & Wr & G2).
  exists fs2. split.
  - rewrite (bind_inr _ _ _ _ _ M). cbv beta.
    apply bind_inl. rewrite (bind_inr _ _ _ _ _ Wr). cbv beta.
    apply bind_inl. unfold bind, lookup_or, ret. rewrite Ho. reflexivity.
  - assert (R : read_file fs2 (root_folder +++ "/optimizer") OPTIMIZER_CONFIG_FILE_NAME
                = inr EmptyFile).
    { unfold read_file. rewrite G2, (dict_get_set_eq string_key_ok). reflexivity. }
    split; [exact R|]. split; [unfold load_config; rewrite R; reflexivity|].
    intros name N. unfold read_file. rewrite G2.
    rewrite (dict_get_set_neq string_key_ok) by congruence.
    destruct P as [P | [P ->]]; rewrite P; reflexivity.
Qed.

Lemma save_without_offsets_empties_manifest_witness :
  exists fs',
    save_optimizer (Wrapper ZeroDistributedOptimizer no_attrs
                            (Leaf torch_Optimizer state_of_rank0))
                   (process 0 1 0 2) "ckpt" checkpoint_zero_2
    = (inl (AssertionError "param_name_to_dp_rank_offsets is required"), fs')
    /\ read_file fs' ("ckpt" +++ "/optimizer") OPTIMIZER_CONFIG_FILE_NAME = inr EmptyFile
    /\ load_config fs' ("ckpt" +++ "/optimizer") = inl JSONDecodeError
    /\ forall name,
         name <> OPTIMIZER_CONFIG_FILE_NAME ->
         read_file fs' ("ckpt" +++ "/optimizer") name
         = read_file checkpoint_zero_2 ("ckpt" +++ "/optimizer") name.
Proof.
  exact (save_without_offsets_empties_manifest
           (Wrapper ZeroDistributedOptimizer no_attrs (Leaf torch_Optimizer state_of_rank0))
           (process 0 1 0 2) "ckpt" checkpoint_zero_2 no_attrs
           eq_refl eq_refl eq_refl eq_refl).
Defined.

Lemma write_file_other (fs fs' : filesystem) (folder name other : string) (f : file)
      (r : exn + unit) :
  write_file folder name f fs = (r, fs') -> name <> other ->
  read_file fs' folder other = read_file fs folder other.
Proof.
  unfold write_file, bind, get, lookup_or, put, ret, raise. intros E N.
  destruct (dict_get fs folder) as [entries|] eqn:G; inversion E; subst; [|reflexivity].
  unfold read_file. rewrite (dict_get_set_eq string_key_ok), G.
  rewrite (dict_get_set_neq string_key_ok) by exact N. reflexivity.
Qed.

(** X12.  Only the process of world rank 0 touches the manifest: on any
    other process [save_optimizer], however it ends, leaves the manifest of
    the folder as it was (missing, if it was missing). *)
Theorem save_optimizer_leaves_manifest (optimizer : Optimizer) (pc : ParallelContext)
    (root_folder : string) (fs fs' : filesystem) (r : exn + unit) :
  world_rank pc <> 0 ->
  save_optimizer optimizer pc root_folder fs = (r, fs') ->
  read_file fs' (root_folder +++ "/optimizer") OPTIMIZER_CONFIG_FILE_NAME
  = read_file fs (root_folder +++ "/optimizer") OPTIMIZER_CONFIG_FILE_NAME.
Proof.
  intros Hw E. unfold save_optimizer in E.
  destruct (inherit_from optimizer ZeroDistributedOptimizer) as [e|z] eqn:Hz;
    [inversion E; reflexivity|].
  rewrite (bind_inr _ _ fs z fs) in E by reflexivity. cbv beta in E.
  destruct (negb z && (0 <? dp_rank pc)); [inversion E; reflexivity|].
  cbv zeta in E.
  destruct (mkdir_outcome fs (root_folder +++ "/optimizer")) as (fs1 & en1 & M & G1 & P).
  rewrite (bind_inr _ _ _ _ _ M) in E. cbv beta in E.
  apply Nat.eqb_neq in Hw. rewrite Hw in E.
  rewrite (bind_inr _ _ fs1 tt fs1) in E by reflexivity. cbv beta in E.
  assert (R1 : read_file fs1 (root_folder +++ "/optimizer") OPTIMIZER_CONFIG_FILE_NAME
               = read_file fs (root_folder +++ "/optimizer") OPTIMIZER_CONFIG_FILE_NAME).
  { unfold read_file. rewrite G1. destruct P as [P | [P ->]]; rewrite P; reflexivity. }
  rewrite <- R1.
  rewrite (bind_inr _ _ fs1 z fs1) in E by reflexivity. cbv beta in E.
  destruct (shard_filename_total optimizer pc z Hz) as [name Hn].
  assert (Hg := Hn). unfold shard_filename in Hg. rewrite Hz in Hg.
  rewrite Hg in E. unfold lift in E.
  rewrite (bind_inr _ _ fs1 name fs1) in E by reflexivity. cbv beta in E.
  apply (write_file_other _ _ _ _ _ _ _ E).
  apply (shard_filename_not_manifest optimizer pc name Hn).
Qed.

Lemma save_optimizer_leaves_manifest_witness :
  read_file (snd (save_optimizer (zero_optimizer offsets_2 shapes_4 state_of_rank1)
                                 (process 0 1 1 2) "ckpt" []))
            ("ckpt" +++ "/optimizer") OPTIMIZER_CONFIG_FILE_NAME
  = read_file [] ("ckpt" +++ "/optimizer") OPTIMIZER_CONFIG_FILE_NAME.
Proof.
  apply (save_optimizer_leaves_manifest (zero_optimizer offsets_2 shapes_4 state_of_rank1)
           (process 0 1 1 2) "ckpt" [] _ (inr tt)).
  - simpl. discriminate.
  - vm_compute. reflexivity.
Defined.

(* ------------------------------------------------------------------ *)
(** * What [load_optimizer] loads, and into which optimizers *)
(* ------------------------------------------------------------------ *)

Lemma map_values_id {K A : Type} (d : dict K A) : map_values (fun t => t) d = d.
Proof.
  unfold map_values. induction d as [|[k v] d IH]; simpl; [reflexivity | rewrite IH; reflexivity].
Qed.

(** [torch.load] without [map_location] gives the saved state as it is. *)
Lemma torch_load_file_plain (sd : state_dict) : torch_load_file (ShardFile sd) None = inr sd.
Proof.
  unfold torch_load_file. simpl to_opt.
  assert (I : forall K (d : dict K (dict string tensor)),
            map_values (map_values (fun t : tensor => t)) d = d).
  { intros K d. unfold map_values at 1.
    induction d as [|[k v] d IH]; simpl; [reflexivity|].
    rewrite IH, map_values_id. reflexivity. }
  rewrite I. destruct sd as [st df names [ga|]]; simpl; [rewrite map_values_id|]; reflexivity.
Qed.

Section LoadOptimizerFacts.
Variables TensorMetadata ShardedInfo : Type.
Variable unsharded_shape : ShardedInfo -> list nat.
Variable torch_empty : list nat -> option device -> tensor.
Variable merge_and_shard_tp_tensors :
  tensor -> tensor -> tensor -> TensorMetadata -> ShardedInfo -> exn + (tensor * tensor).
Variable merge_dp_shard_in_zero1_optimizer :
  Model ShardedInfo -> optimizer_config -> list (string * file) -> ParallelContext ->
  option device -> exn + dict (nat * nat) state_dict.

(** On an unchanged topology a [ZeroDistributedOptimizer] is loaded with
    the content of one file, named by the coordinate of the process with
    [pp_rank // dp_size] in the place of the data-parallel rank. *)
Lemma load_optimizer_same_topology (optimizer : Optimizer) (pc : ParallelContext)
      (root_folder : string) (map_location : option device)
      (param_shard_metadata : option (dict string (dict (nat * nat) TensorMetadata)))
      (model : option (Model ShardedInfo)) (fs : filesystem) (L : locals)
      (config : optimizer_config) (name : string) (sd : state_dict) :
  load_config fs (root_folder +++ "/optimizer") = inr config ->
  cfg_tp_size config = tp_size pc -> cfg_pp_size config = pp_size pc ->
  cfg_dp_size config = dp_size pc -> dp_size pc <> 0 ->
  isinstance optimizer ZeroDistributedOptimizer = true ->
  inherit_from optimizer ZeroDistributedOptimizer = inr true ->
  get_optimizer_filename (tp_rank pc, tp_size pc) (pp_rank pc, pp_size pc)
                         (Some (pp_rank pc / dp_size pc, dp_size pc))
                         (Some (expert_rank pc, expert_parallel_size pc)) (Some true)
  = inr name ->
  torch_load fs (root_folder +++ "/optimizer") name map_location = inr sd ->
  load_optimizer unsharded_shape torch_empty merge_and_shard_tp_tensors
                 merge_dp_shard_in_zero1_optimizer
                 optimizer pc root_folder map_location param_shard_metadata model fs L
  = (inr (load_state_dict optimizer sd),
     {| state_dict_var := Some sd; dp_rank_var := dp_rank_var L |}).
Proof.
  intros Hc Et Ep Ed Nz Hi Hz Hn Hl. unfold load_optimizer. cbv zeta.
  rewrite Hc. unfold lift at 1. rewrite (bind_inr _ _ L config L) by reflexivity. cbv beta.
  rewrite Et, Ep, Ed, !Nat.eqb_refl. simpl negb. simpl orb. cbv iota.
  unfold direct_load. rewrite Ed.
  destruct (dp_size pc =? 0) eqn:Z; [apply Nat.eqb_eq in Z; contradiction|].
  rewrite Hz, Hn, Hl.
  unfold lift at 1. rewrite (bind_inr _ _ L sd L) by reflexivity. cbv beta.
  unfold modify at 1.
  rewrite (bind_inr _ _ L tt {| state_dict_var := Some sd; dp_rank_var := dp_rank_var L |})
    by reflexivity.
  cbv beta. rewrite Hi.
  rewrite (bind_inr _ _ _ tt {| state_dict_var := Some sd; dp_rank_var := dp_rank_var L |})
    by reflexivity.
  reflexivity.
Qed.


(** X13.  [load_optimizer] loads nothing into an optimizer that is not an
    instance of [ZeroDistributedOptimizer]: whenever the call returns, the
    optimizer is as it was, whatever the checkpoint holds (the call of
    [load_state_dict] stands inside the branch of line 426). *)
Theorem load_optimizer_leaves_other_optimizers (optimizer : Optimizer)
    (pc : ParallelContext) (root_folder : string) (map_location : option device)
    (param_shard_metadata : option (dict string (dict (nat * nat) TensorMetadata)))
    (model : option (Model ShardedInfo)) (fs : filesystem) (L L' : locals)
    (loaded : Optimizer) :
  isinstance optimizer ZeroDistributedOptimizer = false ->
  load_optimizer unsharded_shape torch_empty merge_and_shard_tp_tensors
                 merge_dp_shard_in_zero1_optimizer
                 optimizer pc root_folder map_location param_shard_metadata model fs L
  = (inr loaded, L') ->
  loaded = optimizer.
Proof.
  intros Hi E. unfold load_optimizer in E. cbv zeta in E.
  py_step E config L1 E1 E. py_step E sd L2 E2 E. py_step E u L3 E3 E.
  rewrite Hi in E. inversion E; reflexivity.
Qed.

(** X14.  When the tensor-parallel or the pipeline-parallel size of the
    checkpoint differs from the current one, [load_optimizer] called
    without [param_shard_metadata] or without [model] stops at one of the
    assertions of lines 207-212: it raises an AssertionError and leaves the
    local variables untouched, whatever the optimizer and the shards are. *)
Theorem load_optimizer_needs_metadata_and_model (optimizer : Optimizer)
    (pc : ParallelContext) (root_folder : string) (map_location : option device)
    (param_shard_metadata : option (dict string (dict (nat * nat) TensorMetadata)))
    (model : option (Model ShardedInfo)) (fs : filesystem) (L : locals)
    (config : optimizer_config) :
  load_config fs (root_folder +++ "/optimizer") = inr config ->
  cfg_tp_size config <> tp_size pc \/ cfg_pp_size config <> pp_size pc ->
  param_shard_metadata = None \/ model = None ->
  exists msg,
    load_optimizer unsharded_shape torch_empty merge_and_shard_tp_tensors
                   merge_dp_shard_in_zero1_optimizer
                   optimizer pc root_folder map_location param_shard_metadata model fs L
    = (inl (AssertionError msg), L).
Proof.
  intros Hc D M. unfold load_optimizer. cbv zeta.
  rewrite Hc. unfold lift at 1. rewrite (bind_inr _ _ L config L) by reflexivity. cbv beta.
  assert (G : negb (cfg_tp_size config =? tp_size pc)
              || negb (cfg_pp_size config =? pp_size pc) = true).
  { apply orb_true_iff.
    destruct D as [D|D]; [left|right]; apply negb_true_iff, Nat.eqb_neq; exact D. }
  rewrite G. unfold topology_agnostic_load.
  destruct param_shard_metadata as [metadata|]; [|eexists; reflexivity].
  destruct M as [M|M]; [discriminate|]. subst model. eexists; reflexivity.
Qed.

(** X15.  A ZeRO checkpoint is read back by the process that wrote it when
    its data-parallel rank equals [pp_rank // dp_size], the index line 379
    puts in the file name: after [save_optimizer] of a
    [ZeroDistributedOptimizer] on the process of world rank 0,
    [load_optimizer] on the same process and folder, without [map_location],
    returns the optimizer with the saved state loaded and local
    [state_dict] bound to it.  Both optimizers are wrappers, as every
    instance of [ZeroDistributedOptimizer] is ([well_formed]). *)
Theorem zero_round_trip_when_ranks_agree (saved optimizer : Optimizer)
    (pc : ParallelContext) (root_folder : string)
    (param_shard_metadata : option (dict string (dict (nat * nat) TensorMetadata)))
    (model : option (Model ShardedInfo)) (fs fs' : filesystem) (L : locals) :
  well_formed saved = true -> well_formed optimizer = true ->
  isinstance saved ZeroDistributedOptimizer = true ->
  isinstance optimizer ZeroDistributedOptimizer = true ->
  world_rank pc = 0 -> dp_size pc <> 0 -> dp_rank pc = pp_rank pc / dp_size pc ->
  save_optimizer saved pc root_folder fs = (inr tt, fs') ->
  load_optimizer unsharded_shape torch_empty merge_and_shard_tp_tensors
                 merge_dp_shard_in_zero1_optimizer
                 optimizer pc root_folder None param_shard_metadata model fs' L
  = (inr (load_state_dict optimizer (optimizer_state_dict saved)),
     {| state_dict_var := Some (optimizer_state_dict saved);
        dp_rank_var := dp_rank_var L |}).
Proof.
  intros Ws Wo Hs Ho Hw Nz Hr E.
  destruct (save_optimizer_success saved pc root_folder fs fs'
              (or_introl (zero_inherit_from _ Ws Hs)) E)
    as (name & entries & Hn & Gf & Gn & C).
  destruct (C Hw) as (config & Gc & _ & Mt & Md & Mp & _).
  unfold shard_filename in Hn. rewrite (zero_inherit_from _ Ws Hs), Hr in Hn.
  apply (load_optimizer_same_topology optimizer pc root_folder None param_shard_metadata
           model fs' L config name (optimizer_state_dict saved)); auto.
  - unfold load_config, read_file. rewrite Gf, Gc. reflexivity.
  - apply (zero_inherit_from _ Wo Ho).
  - unfold torch_load, read_file. rewrite Gf, Gn. apply torch_load_file_plain.
Qed.

(** X16.  The state the topology-agnostic path returns (lines 203-364)
    holds the states and the names map the parameter loop has built and,
    as its gradient accumulator, the one of the optimizer's own
    [state_dict()]: the gradient accumulators of the checkpoint are not
    read on this path. *)
Theorem topology_agnostic_load_keeps_gradient_accumulator (optimizer : Optimizer)
    (pc : ParallelContext) (fs : filesystem) (root_folder : string)
    (config : optimizer_config) (map_location : option device)
    (param_shard_metadata : option (dict string (dict (nat * nat) TensorMetadata)))
    (model : option (Model ShardedInfo)) (T T' : tp_locals) (sd : state_dict) :
  topology_agnostic_load unsharded_shape torch_empty merge_and_shard_tp_tensors
                         merge_dp_shard_in_zero1_optimizer
                         optimizer pc fs root_folder config map_location
                         param_shard_metadata model T = (inr sd, T') ->
  sd_gradient_accumulator sd = sd_gradient_accumulator (optimizer_state_dict optimizer)
  /\ sd_state sd = new_state T'
  /\ sd_names sd = Some (new_optim_state_param_names T')
  /\ sd_state_default sd = true.
Proof.
  unfold topology_agnostic_load. intros E.
  destruct param_shard_metadata as [metadata|]; [|discriminate].
  destruct model as [m|]; [|discriminate]. cbv zeta in E.
  py_step E shards T1 E1 E. py_step E shard00 T2 E2 E. py_step E state0 T3 E3 E.
  destruct (sorted_strings (keys_without_step state0)); [discriminate|].
  py_step E u T4 E4 E. py_step E T5 T6 E5 E.
  inversion E5; subst. inversion E; subst. simpl. auto.
Qed.

End LoadOptimizerFacts.

Lemma load_optimizer_leaves_other_optimizers_witness :
  isinstance (replicated_optimizer fresh_state) ZeroDistributedOptimizer = false
  /\ load_optimizer_defaults (replicated_optimizer fresh_state) (process 0 1 0 1)
                             "ckpt" checkpoint_replicated
     = (inr (replicated_optimizer fresh_state),
        {| state_dict_var := Some state_of_rank0; dp_rank_var := None |})
  /\ replicated_optimizer fresh_state = replicated_optimizer fresh_state.
Proof.
  assert (E : load_optimizer_defaults (replicated_optimizer fresh_state) (process 0 1 0 1)
                                      "ckpt" checkpoint_replicated
              = (inr (replicated_optimizer fresh_state),
                 {| state_dict_var := Some state_of_rank0; dp_rank_var := None |}))
    by (vm_compute; reflexivity).
  split; [reflexivity|]. split; [exact E|].
  exact (load_optimizer_leaves_other_optimizers unit unit no_unsharded_shape no_torch_empty
           no_merge_and_shard_tp_tensors no_merge_dp_shard_in_zero1_optimizer
           (replicated_optimizer fresh_state) (process 0 1 0 1) "ckpt" None None None
           checkpoint_replicated locals_init _ (replicated_optimizer fresh_state)
           eq_refl E).
Defined.

Lemma load_optimizer_needs_metadata_and_model_witness :
  exists msg,
    load_optimizer_defaults (zero_optimizer offsets_2 shapes_4 fresh_state)
                            (process 0 2 0 2) "ckpt" checkpoint_zero_2
    = (inl (AssertionError msg), locals_init).
Proof.
  apply (load_optimizer_needs_metadata_and_model unit unit no_unsharded_shape
           no_torch_empty no_merge_and_shard_tp_tensors
           no_merge_dp_shard_in_zero1_optimizer
           (zero_optimizer offsets_2 shapes_4 fresh_state) (process 0 2 0 2) "ckpt"
           None None None checkpoint_zero_2 locals_init config_zero_2).
  - vm_compute. reflexivity.
  - left. simpl. discriminate.
  - left. reflexivity.
Defined.

Lemma zero_round_trip_when_ranks_agree_witness :
  load_optimizer_defaults (zero_optimizer offsets_2 shapes_4 fresh_state)
    (process 0 1 0 2) "ckpt"
    (snd (save_optimizer (zero_optimizer offsets_2 shapes_4 state_of_rank0)
                         (process 0 1 0 2) "ckpt" []))
  = (inr (zero_optimizer offsets_2 shapes_4 state_of_rank0),
     {| state_dict_var := Some state_of_rank0; dp_rank_var := None |}).
Proof.
  apply (zero_round_trip_when_ranks_agree unit unit no_unsharded_shape no_torch_empty
           no_merge_and_shard_tp_tensors no_merge_dp_shard_in_zero1_optimizer
           (zero_optimizer offsets_2 shapes_4 state_of_rank0)
           (zero_optimizer offsets_2 shapes_4 fresh_state)
           (process 0 1 0 2) "ckpt" None None []).
  - reflexivity.
  - reflexivity.
  - reflexivity.
  - reflexivity.
  - reflexivity.
  - simpl. discriminate.
  - reflexivity.
  - vm_compute. reflexivity.
Defined.

Lemma topology_agnostic_load_keeps_gradient_accumulator_witness :
  exists sd T',
    topology_agnostic_load (TensorMetadata := unit) no_unsharded_shape no_torch_empty
      no_merge_and_shard_tp_tensors no_merge_dp_shard_in_zero1_optimizer
      (replicated_optimizer fresh_state) (process 0 2 0 1) checkpoint_embed
      "ckpt/optimizer" config_embed None (Some []) (Some model_main_first) tp_locals_init
    = (inr sd, T')
    /\ sd_gradient_accumulator sd = sd_gradient_accumulator fresh_state
    /\ sd_state sd = new_state T'
    /\ sd_names sd = Some (new_optim_state_param_names T')
    /\ sd_state_default sd = true.
Proof.
  eexists. eexists.
  assert (E : forall r, r = topology_agnostic_load (TensorMetadata := unit)
                             no_unsharded_shape no_torch_empty
                             no_merge_and_shard_tp_tensors
                             no_merge_dp_shard_in_zero1_optimizer
                             (replicated_optimizer fresh_state) (process 0 2 0 1)
                             checkpoint_embed "ckpt/optimizer" config_embed None (Some [])
                             (Some model_main_first) tp_locals_init ->
                        topology_agnostic_load (TensorMetadata := unit)
                             no_unsharded_shape no_torch_empty
                             no_merge_and_shard_tp_tensors
                             no_merge_dp_shard_in_zero1_optimizer
                             (replicated_optimizer fresh_state) (process 0 2 0 1)
                             checkpoint_embed "ckpt/optimizer" config_embed None (Some [])
                             (Some model_main_first) tp_locals_init = r)
    by (intros r H; symmetry; exact H).
  split.
  - apply E. vm_compute. reflexivity.
  - apply (topology_agnostic_load_keeps_gradient_accumulator unit unit no_unsharded_shape
             no_torch_empty no_merge_and_shard_tp_tensors
             no_merge_dp_shard_in_zero1_optimizer
             (replicated_optimizer fresh_state) (process 0 2 0 1) checkpoint_embed
             "ckpt/optimizer" config_embed None (Some []) (Some model_main_first)
             tp_locals_init).
    vm_compute. reflexivity.
Defined.

(* ------------------------------------------------------------------ *)
(** * Moving a state twice *)
(* ------------------------------------------------------------------ *)

Lemma state_getitem_success (index : nat) (sd sd' : state_dict) (e : dict string tensor)
      (t : tensor) (name : string) :
  state_getitem index sd = (inr e, sd') -> dict_get e name = Some t ->
  dict_get (sd_state sd) index = Some e /\ sd' = sd.
Proof.
  unfold state_getitem, bind, get. destruct (dict_get (sd_state sd) index) as [e0|].
  - intros E _. inversion E; auto.
  - destruct (sd_state_default sd); [|discriminate].
    intros E G. inversion E; subst. discriminate G.
Qed.

(** X17.  [state_dict_to_device] cannot be run twice on a state: after a
    call that succeeded, [state["state"][0]["exp_avg"]] is on a CUDA device,
    so any further call, whatever its target, fails at the first assertion
    and moves nothing. *)
Theorem state_dict_to_device_twice (d d' : device) (sd sd' : state_dict) :
  state_dict_to_device d sd = (inr tt, sd') ->
  state_dict_to_device d' sd' = (inl (AssertionError CPU_MESSAGE), sd').
Proof.
  intros E. unfold state_dict_to_device in E.
  py_step E e0 s1 E1 E. py_step E t0 s2 E2 E. py_step E u1 s3 E3 E.
  py_step E sd1 s4 E4 E. py_step E u2 s5 E5 E. py_step E sd2 s6 E6 E.
  py_step E ga s7 E7 E. py_step E u3 s8 E8 E.
  py_step E e s9 E9 E. py_step E t s10 E10 E.
  apply lookup_or_success in E10. destruct E10 as [Gt ->].
  destruct (state_getitem_success 0 s8 s9 e t "exp_avg" E9 Gt) as [Ge ->].
  unfold py_assert in E.
  destruct (String.eqb (device_type (t_device t)) "cuda") eqn:C; [|discriminate].
  inversion E; subst sd'.
  unfold state_dict_to_device.
  rewrite (bind_inr _ _ _ _ _ E9). rewrite Gt.
  unfold lookup_or at 1. rewrite (bind_inr _ _ s8 t s8) by reflexivity.
  apply bind_inl. apply String.eqb_eq in C. rewrite C. reflexivity.
Qed.

Lemma state_dict_to_device_twice_witness :
  state_dict_to_device cpu (moved_to (cuda 0) state_of_rank0)
  = (inl (AssertionError CPU_MESSAGE), moved_to (cuda 0) state_of_rank0).
Proof.
  exact (state_dict_to_device_twice (cuda 0) cpu state_of_rank0
           (moved_to (cuda 0) state_of_rank0) eq_refl).
Defined.

(* ------------------------------------------------------------------ *)
(** * Flattening the logs of the monitor *)
(* ------------------------------------------------------------------ *)

Lemma fold_left_flat_map {A B C : Type} (g : C -> B -> C) (h : A -> list B) (l : list A) :
  forall acc, fold_left (fun acc x => fold_left g (h x) acc) l acc
              = fold_left g (flat_map h l) acc.
Proof.
  induction l as [|x l IH]; intros acc; simpl; [reflexivity|].
  rewrite fold_left_app. apply IH.
Qed.

Lemma fold_left_map {A B C : Type} (g : C -> B -> C) (h : A -> B) (l : list A) :
  forall acc, fold_left (fun acc x => g acc (h x)) l acc = fold_left g (map h l) acc.
Proof. induction l as [|x l IH]; intros acc; simpl; [reflexivity | apply IH]. Qed.

Lemma fold_left_ext {A B : Type} (f g : A -> B -> A) (l : list B) :
  (forall a b, f a b = g a b) -> forall acc, fold_left f l acc = fold_left g l acc.
Proof.
  intros E. induction l as [|x l IH]; intros acc; simpl; [reflexivity|].
  rewrite E. apply IH.
Qed.

Lemma convert_logs_as_fold {V : Type} (logs : dict string (dict string (dict string V))) :
  convert_logs_to_flat_logs logs
  = fold_left (fun flat kv => dict_set flat (fst kv) (snd kv)) (flat_items logs) [].
Proof.
  unfold convert_logs_to_flat_logs, flat_items.
  rewrite <- fold_left_flat_map. apply fold_left_ext. intros flat [m comps].
  rewrite <- fold_left_flat_map. apply fold_left_ext. intros flat' [c stats].
  rewrite <- (fold_left_map (fun flat kv => dict_set flat (fst kv) (snd kv))).
  apply fold_left_ext. intros flat'' [k v]. reflexivity.
Qed.

Section FoldSet.
Context {V : Type}.

Lemma fold_set_source (l : list (string * V)) (key : string) (v : V) :
  forall d : dict string V,
    dict_get (fold_left (fun flat kv => dict_set flat (fst kv) (snd kv)) l d) key = Some v ->
    In (key, v) l \/ dict_get d key = Some v.
Proof.
  induction l as [|[k1 v1] l IH]; intros d H; simpl in *; [auto|].
  destruct (IH _ H) as [I|G]; [auto|].
  destruct (String.eqb_spec k1 key) as [->|N].
  - rewrite (dict_get_set_eq string_key_ok) in G. inversion G; auto.
  - rewrite (dict_get_set_neq string_key_ok) in G by exact N. auto.
Qed.

Lemma fold_set_functional (l : list (string * V)) (key : string) (v : V) :
  (forall v', In (key, v') l -> v' = v) ->
  forall d : dict string V,
    In (key, v) l \/ dict_get d key = Some v ->
    dict_get (fold_left (fun flat kv => dict_set flat (fst kv) (snd kv)) l d) key = Some v.
Proof.
  induction l as [|[k1 v1] l IH]; intros F d H; simpl in *.
  - destruct H as [[]|H]; exact H.
  - apply IH; [intros v' I; apply F; auto|].
    destruct (String.eqb_spec k1 key) as [->|N].
    + right. rewrite (dict_get_set_eq string_key_ok). f_equal. apply F; auto.
    + destruct H as [[E|I]|G]; [inversion E; contradiction | auto |].
      right. rewrite (dict_get_set_neq string_key_ok) by exact N. exact G.
Qed.
End FoldSet.

Lemma colon_split (a b r r' : string) :
  colon_free a -> colon_free b ->
  a +++ String ":" r = b +++ String ":" r' -> a = b /\ r = r'.
Proof.
  revert b. induction a as [|c a IH]; intros [|c' b] Ca Cb H; simpl in *.
  - inversion H; auto.
  - inversion H; subst c'. destruct Cb as [Cb _]. contradiction.
  - inversion H; subst c. destruct Ca as [Ca _]. contradiction.
  - inversion H; subst c'. destruct Ca as [_ Ca], Cb as [_ Cb].
    destruct (IH b Ca Cb H2) as [-> ->]. auto.
Qed.

Lemma colon_inside (a b : string) : ~ colon_free (a +++ String ":" b).
Proof. induction a as [|c a IH]; simpl; intros [H1 H2]; [apply H1; reflexivity | auto]. Qed.

Lemma colon_split_right (c c' k k' : string) :
  colon_free k -> colon_free k' ->
  c +++ String ":" k = c' +++ String ":" k' -> c = c' /\ k = k'.
Proof.
  revert c'. induction c as [|x c IH]; intros [|x' c'] Ck Ck' H; simpl in *.
  - inversion H; auto.
  - inversion H; subst. exfalso. apply (colon_inside _ _ Ck).
  - inversion H; subst. exfalso. apply (colon_inside _ _ Ck').
  - inversion H; subst x'. destruct (IH c' Ck Ck' H2) as [-> ->]. auto.
Qed.

Lemma flat_name_inj (m c k m' c' k' : string) :
  colon_free m -> colon_free m' -> colon_free k -> colon_free k' ->
  m +++ ":" +++ c +++ ":" +++ k = m' +++ ":" +++ c' +++ ":" +++ k' ->
  m = m' /\ c = c' /\ k = k'.
Proof.
  intros Cm Cm' Ck Ck' H.
  change (m +++ String ":" (c +++ ":" +++ k) = m' +++ String ":" (c' +++ ":" +++ k')) in H.
  apply colon_split in H; [|assumption|assumption]. destruct H as [-> H].
  change (c +++ String ":" k = c' +++ String ":" k') in H.
  apply colon_split_right in H; [|assumption|assumption]. destruct H as [-> ->]. auto.
Qed.

Lemma in_flat_items {V : Type} (logs : dict string (dict string (dict string V)))
      (key : string) (v : V) :
  In (key, v) (flat_items logs) <->
  exists m comps c stats k,
    In (m, comps) logs /\ In (c, stats) comps /\ In (k, v) stats
    /\ key = m +++ ":" +++ c +++ ":" +++ k.
Proof.
  unfold flat_items. rewrite in_flat_map. split.
  - intros ([m comps] & I1 & H). rewrite in_flat_map in H.
    destruct H as ([c stats] & I2 & H). rewrite in_map_iff in H.
    destruct H as ([k v'] & E & I3). inversion E; subst.
    exists m, comps, c, stats, k. auto.
  - intros (m & comps & c & stats & k & I1 & I2 & I3 & ->).
    exists (m, comps). split; [exact I1|]. rewrite in_flat_map.
    exists (c, stats). split; [exact I2|]. rewrite in_map_iff.
    exists (k, v). auto.
Qed.

(** X18.  [convert_logs_to_flat_logs] keeps every metric and adds none:
    when no name of a module or of a metric holds a colon, the flat logs
    hold value [v] under a key exactly when the key is
    [module:component:metric] for a metric of the logs with value [v]. *)
Theorem flat_logs_lookup {V : Type} (logs : dict string (dict string (dict string V)))
    (key : string) (v : V) :
  logs_wf logs ->
  dict_get (convert_logs_to_flat_logs logs) key = Some v <->
  exists m comps c stats k,
    dict_get logs m = Some comps /\ dict_get comps c = Some stats
    /\ dict_get stats k = Some v
    /\ key = m +++ ":" +++ c +++ ":" +++ k.
Proof.
  intros (W & F). rewrite Forall_forall in F. rewrite convert_logs_as_fold.
  assert (Wf : forall m comps c stats k v0,
             In (m, comps) logs -> In (c, stats) comps -> In (k, v0) stats ->
             colon_free m /\ colon_free k
             /\ dict_get logs m = Some comps /\ dict_get comps c = Some stats
             /\ dict_get stats k = Some v0).
  { intros m comps c stats k v0 I1 I2 I3.
    destruct (F _ I1) as (Cm & Wc & Fc). simpl in *. rewrite Forall_forall in Fc.
    destruct (Fc _ I2) as (Ws & Fk). simpl in *. rewrite Forall_forall in Fk.
    assert (Ck := Fk _ I3). simpl in Ck.
    repeat split; auto; apply (In_dict_get string_key_ok); auto. }
  split.
  - intros H. apply fold_set_source in H. destruct H as [I|G]; [|discriminate].
    apply in_flat_items in I. destruct I as (m & comps & c & stats & k & I1 & I2 & I3 & ->).
    destruct (Wf _ _ _ _ _ _ I1 I2 I3) as (_ & _ & G1 & G2 & G3).
    exists m, comps, c, stats, k. auto.
  - intros (m & comps & c & stats & k & G1 & G2 & G3 & ->).
    assert (I1 := dict_get_In string_key_ok _ _ _ G1).
    assert (I2 := dict_get_In string_key_ok _ _ _ G2).
    assert (I3 := dict_get_In string_key_ok _ _ _ G3).
    destruct (Wf _ _ _ _ _ _ I1 I2 I3) as (Cm & Ck & _).
    apply fold_set_functional.
    + intros v' I. apply in_flat_items in I.
      destruct I as (m' & comps' & c' & stats' & k' & J1 & J2 & J3 & E).
      destruct (Wf _ _ _ _ _ _ J1 J2 J3) as (Cm' & Ck' & H1 & H2 & H3).
      apply flat_name_inj in E; auto. destruct E as (<- & <- & <-).
      rewrite G1 in H1. inversion H1; subst comps'.
      rewrite G2 in H2. inversion H2; subst stats'.
      rewrite G3 in H3. inversion H3; reflexivity.
    + left. apply in_flat_items. exists m, comps, c, stats, k. auto.
Qed.

Lemma flat_logs_lookup_witness :
  dict_get (convert_logs_to_flat_logs
              [("model.norm", [("weight", [("mean", 1%Z); ("amax", 2%Z)]);
                               ("input:0", [("mean", 3%Z)])])])
           "model.norm:input:0:mean" = Some 3%Z <->
  exists m comps c stats k,
    dict_get [("model.norm", [("weight", [("mean", 1%Z); ("amax", 2%Z)]);
                              ("input:0", [("mean", 3%Z)])])] m = Some comps
    /\ dict_get comps c = Some stats
    /\ dict_get stats k = Some 3%Z
    /\ "model.norm:input:0:mean" = m +++ ":" +++ c +++ ":" +++ k.
Proof.
  apply (flat_logs_lookup
           [("model.norm", [("weight", [("mean", 1%Z); ("amax", 2%Z)]);
                            ("input:0", [("mean", 3%Z)])])]
           "model.norm:input:0:mean" 3%Z).
  unfold logs_wf, dict_wf. simpl. split.
  - repeat constructor; simpl; intuition discriminate.
  - repeat constructor; simpl; try (intros E; discriminate E);
      try (intuition discriminate).
Defined.

(** With a colon in the name of a module two metrics can meet in one flat
    key: the second then takes the place of the first. *)
Example flat_logs_collide :
  convert_logs_to_flat_logs
    [("a:b", [("c", [("mean", 1%Z)])]); ("a", [("b:c", [("mean", 2%Z)])])]
  = [("a:b:c:mean", 2%Z)].
Proof. reflexivity. Qed.

(* ------------------------------------------------------------------ *)
(** * The count of floating-point operations *)
(* ------------------------------------------------------------------ *)

(** X19.  When the number of heads divides the hidden size, with
    [d = hidden_size // num_heads], [get_flops] returns as model flops and
    as hardware flops alike
    [6 B S (L (2 h^2 + 2 h kv d + 2 S h + 3 h f) + h V)],
    where [kv] is the number of key/value heads, the number of heads when
    none is given. *)
Theorem get_flops_closed_form
    (num_layers hidden_size num_heads : Z) (num_key_value_heads : option Z)
    (vocab_size seq_len ffn_hidden_size batch_size d : Z) :
  num_heads <> 0%Z -> hidden_size = (num_heads * d)%Z ->
  get_flops num_layers hidden_size num_heads num_key_value_heads vocab_size seq_len
            ffn_hidden_size batch_size
  = let kv := match num_key_value_heads with None => num_heads | Some n => n end in
    let flops :=
      (6 * batch_size * seq_len
       * (num_layers
          * (2 * hidden_size * hidden_size + 2 * hidden_size * kv * d
             + 2 * seq_len * hidden_size + 3 * hidden_size * ffn_hidden_size)
          + hidden_size * vocab_size))%Z in
    inr (flops, flops).
Proof.
  intros Nz Eh. unfold get_flops.
  destruct (Z.eqb_spec num_heads 0) as [E|_]; [contradiction|].
  assert (Ed : (hidden_size / num_heads)%Z = d).
  { rewrite Eh, Z.mul_comm. apply Z.div_mul. exact Nz. }
  rewrite Ed. cbv zeta.
  assert (G : forall a b : Z, a = b -> @inr exn (Z * Z) (a, a) = inr (b, b))
    by (intros a b ->; reflexivity).
  apply G. rewrite Eh. ring.
Qed.

Lemma get_flops_closed_form_witness :
  get_flops 2 8 4 None 100 16 32 1
  = inr (6 * 1 * 16 * (2 * (2 * 8 * 8 + 2 * 8 * 4 * 2 + 2 * 16 * 8 + 3 * 8 * 32) + 8 * 100),
         6 * 1 * 16 * (2 * (2 * 8 * 8 + 2 * 8 * 4 * 2 + 2 * 16 * 8 + 3 * 8 * 32) + 8 * 100))%Z.
Proof.
  apply (get_flops_closed_form 2 8 4 None 100 16 32 1 2); [discriminate | reflexivity].
Defined.

(* ------------------------------------------------------------------ *)
(** * The reshard over the data-parallel ranks: further facts *)
(* ------------------------------------------------------------------ *)

Lemma zero_pattern_matches_witness :
  fnmatch "optimizer_pp-3-of-4_dp-10-of-16_tp-1-of-2_exp-0-of-1.pt"
          (zero_shard_pattern 4 16 2 1) = true.
Proof.
  exact (zero_pattern_matches 1 3 10 0 2 4 16 1
           "optimizer_pp-3-of-4_dp-10-of-16_tp-1-of-2_exp-0-of-1.pt" eq_refl).
Defined.

Lemma update_state_slices_at_current_rank_witness :
  exists sd',
    state_dict_var
      (snd (update_state_slices (zero_optimizer offsets_2 shapes_4 fresh_state) 1
              ["exp_avg"; "exp_avg_sq"]
              [("w", [("exp_avg", on_cpu [1; 2; 3; 4]%Z);
                      ("exp_avg_sq", on_cpu [5; 6; 7; 8]%Z)])]
              locals_before_reshard)) = Some sd'
    /\ forall i, In i (keys (sd_state state_before_reshard)) ->
         exists entry,
           dict_get (sd_state sd') i = Some entry
           /\ sliced_at (zero_optimizer offsets_2 shapes_4 fresh_state) 1
                        ["exp_avg"; "exp_avg_sq"]
                        [("w", [("exp_avg", on_cpu [1; 2; 3; 4]%Z);
                                ("exp_avg_sq", on_cpu [5; 6; 7; 8]%Z)])]
                        [(0, "w")] i entry.
Proof.
  apply (update_state_slices_at_current_rank
           (zero_optimizer offsets_2 shapes_4 fresh_state) 1 ["exp_avg"; "exp_avg_sq"]
           [("w", [("exp_avg", on_cpu [1; 2; 3; 4]%Z);
                   ("exp_avg_sq", on_cpu [5; 6; 7; 8]%Z)])]
           locals_before_reshard _ state_before_reshard [(0, "w")]).
  - reflexivity.
  - reflexivity.
  - unfold dict_wf. simpl. repeat constructor; simpl; intuition discriminate.
  - repeat constructor; simpl; intuition discriminate.
  - vm_compute. reflexivity.
Defined.

Lemma gradients_sliced_at_last_checkpoint_rank_witness :
  exists sd' ga' shapes sharded merged L1,
    cfg_orig_param_shapes config_zero_2 = Some shapes
    /\ load_sharded_states
         (glob checkpoint_zero_2 "ckpt/optimizer" (zero_shard_pattern 1 2 1 1))
         None load_type_gradient_accumulator = inr sharded
    /\ merge_grad_accumulator ([] ++ [("w", [(0, (0, 2))] ++ [(1, (2, 4))])]) sharded
         (tp_rank (process 0 1 0 4)) (create_merged_gradients shapes None)
         locals_before_reshard = (inr merged, L1)
    /\ state_dict_var
         (snd (reshard_grad_accumulator (zero_optimizer offsets_4x1 shapes_4 fresh_state)
                 (process 0 1 0 4) config_zero_2
                 (glob checkpoint_zero_2 "ckpt/optimizer" (zero_shard_pattern 1 2 1 1))
                 None locals_before_reshard)) = Some sd'
    /\ sd_gradient_accumulator sd' = Some ga'
    /\ forall q, In q (keys [("w", on_cpu [9; 9; 9; 9]%Z)]) ->
         exists m range',
           dict_get merged q = Some m
           /\ assigned_range (zero_optimizer offsets_4x1 shapes_4 fresh_state) q 1 range'
           /\ dict_get ga' q = Some (slice m (fst range') (snd range')).
Proof.
  apply (gradients_sliced_at_last_checkpoint_rank
           (zero_optimizer offsets_4x1 shapes_4 fresh_state) (process 0 1 0 4)
           config_zero_2
           (glob checkpoint_zero_2 "ckpt/optimizer" (zero_shard_pattern 1 2 1 1))
           None locals_before_reshard _ state_before_reshard
           [("w", on_cpu [9; 9; 9; 9]%Z)] [] "w" [(0, (0, 2))] 1 (2, 4)).
  - reflexivity.
  - reflexivity.
  - reflexivity.
  - unfold dict_wf. simpl. repeat constructor; simpl; intuition discriminate.
  - vm_compute. reflexivity.
Defined.

(** X20.  [get_key_by_value] is the inverse lookup of a dictionary: a key
    it returns holds the value, and it returns [None] exactly when no key
    holds the value. *)
Theorem get_key_by_value_inverts (d : dict nat string) (target_value : string) :
  dict_wf d ->
  (forall key, get_key_by_value d target_value = Some key ->
               dict_get d key = Some target_value)
  /\ (get_key_by_value d target_value = None <-> ~ In target_value (values d)).
Proof.
  intros W. unfold get_key_by_value. split.
  - intros key H.
    destruct (filter (fun kv => String.eqb (snd kv) target_value) d) as [|[k v] rest] eqn:F;
      [discriminate|].
    inversion H; subst k.
    assert (I : In (key, v) (filter (fun kv => String.eqb (snd kv) target_value) d))
      by (rewrite F; left; reflexivity).
    apply filter_In in I. destruct I as [I E]. simpl in E.
    apply String.eqb_eq in E. subst v.
    apply (In_dict_get nat_key_ok _ _ _ W I).
  - split.
    + intros H I. unfold values in I. apply in_map_iff in I.
      destruct I as ([k v] & E & I). simpl in E. subst v.
      assert (J : In (k, target_value)
                     (filter (fun kv => String.eqb (snd kv) target_value) d)).
      { apply filter_In. split; [exact I | apply String.eqb_refl]. }
      destruct (filter (fun kv => String.eqb (snd kv) target_value) d) as [|[k0 v0] rest];
        [destruct J | discriminate].
    + intros N.
      destruct (filter (fun kv => String.eqb (snd kv) target_value) d) as [|[k v] rest] eqn:F;
        [reflexivity|].
      exfalso. apply N.
      assert (I : In (k, v) (filter (fun kv => String.eqb (snd kv) target_value) d))
        by (rewrite F; left; reflexivity).
      apply filter_In in I. destruct I as [I E]. simpl in E.
      apply String.eqb_eq in E. subst v.
      unfold values. apply in_map_iff. exists (k, target_value). auto.
Qed.

Lemma get_key_by_value_inverts_witness :
  (forall key, get_key_by_value [(0, "embed"); (1, "norm")] "norm" = Some key ->
               dict_get [(0, "embed"); (1, "norm")] key = Some "norm")
  /\ (get_key_by_value [(0, "embed"); (1, "norm")] "norm" = None
      <-> ~ In "norm" (values [(0, "embed"); (1, "norm")])).
Proof.
  apply (get_key_by_value_inverts [(0, "embed"); (1, "norm")] "norm").
  unfold dict_wf. simpl. repeat constructor; simpl; intuition discriminate.
Defined.

(* ------------------------------------------------------------------ *)
(** * The merged buffers hold the two moments of Adam only *)
(* ------------------------------------------------------------------ *)

Lemma fold_m_each {St A B : Type} (I : B -> Prop) (l : list A) (body : B -> A -> py St B) :
  (forall acc x s acc' s', In x l -> I acc -> body acc x s = (inr acc', s') -> I acc') ->
  forall acc s r s', I acc -> fold_m l acc body s = (inr r, s') ->
  forall x, In x l -> exists a s1 a' s1', I a /\ body a x s1 = (inr a', s1').
Proof.
  induction l as [|y l IH]; simpl; intros Hb acc s r s' Ha E x Ix; [contradiction|].
  apply bind_success in E. destruct E as (a1 & s1 & E1 & E2).
  destruct Ix as [<-|Ix].
  - exists acc, s, a1, s1. auto.
  - apply (IH (fun acc x s acc' s' Hx => Hb acc x s acc' s' (or_intror Hx))
              a1 s1 r s' (Hb _ _ _ _ _ (or_introl eq_refl) Ha E1) E2 x Ix).
Qed.

Lemma create_merged_optim_states_two_moments (shapes : dict string (list nat))
      (map_location : option device) :
  two_moments_only (create_merged_optim_states shapes map_location).
Proof.
  unfold create_merged_optim_states, two_moments_only.
  assert (F : forall acc,
            Forall (fun pe : string * dict string tensor =>
                      forall k, In k (keys (snd pe)) -> k = "exp_avg" \/ k = "exp_avg_sq") acc ->
            Forall (fun pe : string * dict string tensor =>
                      forall k, In k (keys (snd pe)) -> k = "exp_avg" \/ k = "exp_avg_sq")
              (fold_left (fun merged_states '(name, p_shape) =>
                            dict_set merged_states name
                              [("exp_avg", to_opt (zeros p_shape) map_location);
                               ("exp_avg_sq", to_opt (zeros p_shape) map_location)])
                         shapes acc)).
  { induction shapes as [|[name shape] shapes IH]; simpl; intros acc Fa; [exact Fa|].
    apply IH.
    apply (dict_set_Forall (fun e : dict string tensor =>
                              forall k, In k (keys e) -> k = "exp_avg" \/ k = "exp_avg_sq"));
      [exact Fa|].
    simpl. intros k [<-|[<-|[]]]; auto. }
  apply F. constructor.
Qed.

(** One round of [apply_offsets] with [state_keys] (lines 416-420). *)
Lemma apply_offsets_round (merged_tensor : dict string (dict string tensor))
      (sharded_states : dict (nat * nat) (dict nat (dict string tensor)))
      (param_name : string) (offsets : nat * nat) (tp_rank : nat) (key : string)
      (L : locals) merged' L' :
  two_moments_only merged_tensor ->
  (sd <- read_state_dict ;;
   names <- lookup_or KeyError (sd_names sd) ;;
   let p_idx := get_key_by_value names param_name in
   dp_rank <- read_dp_rank ;;
   shard <- lookup_or KeyError (dict_get sharded_states (tp_rank, dp_rank)) ;;
   i <- lookup_or KeyError p_idx ;;
   entry <- lookup_or KeyError (dict_get shard i) ;;
   src <- lookup_or KeyError (dict_get entry key) ;;
   merged <- lookup_or KeyError (dict_get merged_tensor param_name) ;;
   dst <- lookup_or KeyError (dict_get merged key) ;;
   dst' <- lift (slice_assign dst (fst offsets) (snd offsets) src) ;;
   ret (dict_set merged_tensor param_name (dict_set merged key dst'))) L
  = (inr merged', L') ->
  (key = "exp_avg" \/ key = "exp_avg_sq") /\ two_moments_only merged'.
Proof.
  intros T E.
  py_step E sd s1 E1 E. py_step E names s2 E2 E. cbv zeta in E.
  py_step E r s3 E3 E. py_step E shard s4 E4 E. py_step E i s5 E5 E.
  py_step E entry s6 E6 E. py_step E src s7 E7 E. py_step E merged s8 E8 E.
  py_step E dst s9 E9 E. py_step E dst' s10 E10 E.
  apply lookup_or_success in E8, E9. destruct E8 as [E8 _], E9 as [E9 _].
  inversion E; subst merged'.
  assert (Q : forall k, In k (keys merged) -> k = "exp_avg" \/ k = "exp_avg_sq").
  { unfold two_moments_only in T. rewrite Forall_forall in T.
    apply (T (param_name, merged)). apply (dict_get_In string_key_ok). exact E8. }
  assert (Ik : In key (keys merged)).
  { apply (dict_get_In string_key_ok) in E9.
    change key with (fst (key, dst)). apply in_map. exact E9. }
  split; [apply Q; exact Ik|].
  apply (dict_set_Forall (fun e : dict string tensor =>
                            forall k, In k (keys e) -> k = "exp_avg" \/ k = "exp_avg_sq"));
    [exact T|].
  rewrite (keys_dict_set_in string_key_ok) by exact Ik. exact Q.
Qed.

Lemma apply_offsets_state_keys_moments merged_tensor sharded_states param_name offsets
      tp_rank state_keys (L : locals) merged' L' :
  two_moments_only merged_tensor ->
  apply_offsets_state_keys merged_tensor sharded_states param_name offsets tp_rank
                           state_keys L = (inr merged', L') ->
  two_moments_only merged'
  /\ forall key, In key state_keys -> key = "exp_avg" \/ key = "exp_avg_sq".
Proof.
  intros T E. unfold apply_offsets_state_keys in E.
  destruct state_keys as [|k0 ks]; [discriminate|].
  set (keys_ := k0 :: ks) in *. clearbody keys_.
  split.
  - revert E. apply fold_m_invariant; [|exact T].
    intros acc key s acc' s' _ Ia Eb.
    apply (proj2 (apply_offsets_round acc sharded_states param_name offsets tp_rank key
                    s acc' s' Ia Eb)).
  - intros key Ik.
    destruct (fold_m_each two_moments_only keys_ _
                (fun acc key s acc' s' _ Ia Eb =>
                   proj2 (apply_offsets_round acc sharded_states param_name offsets tp_rank
                            key s acc' s' Ia Eb))
                _ _ _ _ T E key Ik) as (a & s1 & a' & s1' & Ia & Eb).
    apply (proj1 (apply_offsets_round a sharded_states param_name offsets tp_rank key
                    s1 a' s1' Ia Eb)).
Qed.

Lemma merge_optim_states_moments ckp_offsets sharded tp_rank state_names merged
      (L : locals) merged' L' p offsets :
  two_moments_only merged ->
  merge_optim_states ckp_offsets sharded tp_rank state_names merged L = (inr merged', L') ->
  In (p, offsets) ckp_offsets -> offsets <> [] ->
  forall key, In key state_names -> key = "exp_avg" \/ key = "exp_avg_sq".
Proof.
  intros T E Ip Ne key Ik. unfold merge_optim_states in E.
  assert (Inner : forall (pn : string) acc (x : nat * (nat * nat)) (s : locals) acc' s',
             two_moments_only acc ->
             (let '(dp_rank, offset) := x in
              modify (set_dp_rank_var dp_rank) ;;;
              apply_offsets_state_keys acc sharded pn offset tp_rank state_names) s
             = (inr acc', s') ->
             two_moments_only acc'
             /\ forall key, In key state_names -> key = "exp_avg" \/ key = "exp_avg_sq").
  { intros pn acc [r offset] s acc' s' Ia Eb.
    py_step Eb u s1 E1 Eb.
    apply (apply_offsets_state_keys_moments _ _ _ _ _ _ _ _ _ Ia Eb). }
  destruct (fold_m_each two_moments_only ckp_offsets _
              (fun acc (x : string * dict nat (nat * nat)) s acc' s' _ Ia =>
                 let '(pn, offs) as x0 := x
                   return (_ x0 s = (inr acc', s') -> two_moments_only acc') in
                 fun Eb =>
                   fold_m_invariant two_moments_only offs _
                     (fun acc2 y s2 acc2' s2' _ Ia2 Eb2 =>
                        proj1 (Inner pn acc2 y s2 acc2' s2' Ia2 Eb2))
                     _ _ _ _ Ia Eb)
              _ _ _ _ T E (p, offsets) Ip) as (a & s1 & a' & s1' & Ia & Eb).
  destruct offsets as [|y rest]; [contradiction|].
  destruct (fold_m_each two_moments_only (y :: rest) _
              (fun acc2 y s2 acc2' s2' _ Ia2 Eb2 =>
                 proj1 (Inner p acc2 y s2 acc2' s2' Ia2 Eb2))
              _ _ _ _ Ia Eb y (or_introl eq_refl)) as (b & s2 & b' & s2' & Ib & Ec).
  apply (proj2 (Inner p b y s2 b' s2' Ib Ec) key Ik).
Qed.

(** X21.  The reshard of the optimizer states over the data-parallel ranks
    (lines 441-467) goes through only for states named [exp_avg] and
    [exp_avg_sq] (and [step]): the merged buffers are created with these two
    names (lines 390-393), so with any other state in
    [state_dict["state"][0]] and a checkpoint table that holds a range, the
    call raises. *)
Theorem reshard_supports_two_moments_only (optimizer : Optimizer) (pc : ParallelContext)
    (config : optimizer_config) (shard_paths : list (string * file))
    (map_location : option device) (L L' : locals) (sd : state_dict)
    (optim_state0 : dict string tensor) (table : offsets_table) (p : string)
    (offsets : dict nat (nat * nat)) :
  state_dict_var L = Some sd -> dict_get (sd_state sd) 0 = Some optim_state0 ->
  cfg_param_name_to_dp_rank_offsets config = Some table ->
  In (p, offsets) table -> offsets <> [] ->
  reshard_optim_states optimizer pc config shard_paths map_location L = (inr tt, L') ->
  forall key, In key (keys optim_state0) ->
              key = "step" \/ key = "exp_avg" \/ key = "exp_avg_sq".
Proof.
  intros Hs H0 Hc Ip Ne E key Ik. unfold reshard_optim_states in E. cbv zeta in E.
  py_step E e0 L1 E1 E.
  assert (A : e0 = optim_state0).
  { unfold on_state_dict in E1. rewrite Hs in E1.
    rewrite (state_getitem_found sd 0 optim_state0 H0) in E1. inversion E1; reflexivity. }
  subst e0.
  py_step E shapes L2 E2 E. py_step E shards L3 E3 E. py_step E ckp_offsets L4 E4 E.
  apply lookup_or_success in E4. destruct E4 as [E4 _].
  rewrite Hc in E4. inversion E4; subst ckp_offsets.
  py_step E merged L5 E5 E.
  destruct (String.eqb_spec key "step") as [->|Nk]; [left; reflexivity | right].
  apply (merge_optim_states_moments table shards (tp_rank pc)
           (keys_without_step optim_state0) _ L4 merged L5 p offsets
           (create_merged_optim_states_two_moments shapes map_location) E5 Ip Ne).
  unfold keys_without_step. apply filter_In. split; [exact Ik|].
  apply negb_true_iff. apply String.eqb_neq. exact Nk.
Qed.

Lemma reshard_supports_two_moments_only_witness :
  In "exp_avg_sq" (keys [("exp_avg", on_cpu [1; 2; 3; 4]%Z);
                         ("exp_avg_sq", on_cpu [5; 6; 7; 8]%Z)])
  /\ ("exp_avg_sq" = "step" \/ "exp_avg_sq" = "exp_avg" \/ "exp_avg_sq" = "exp_avg_sq").
Proof.
  split; [right; left; reflexivity|].
  apply (reshard_supports_two_moments_only
           (zero_optimizer offsets_4x1 shapes_4 fresh_state) (process 0 1 0 4) config_zero_2
           (glob checkpoint_zero_2 "ckpt/optimizer" (zero_shard_pattern 1 2 1 1)) None
           locals_before_reshard
           (snd (reshard_optim_states
                   (zero_optimizer offsets_4x1 shapes_4 fresh_state) (process 0 1 0 4)
                   config_zero_2
                   (glob checkpoint_zero_2 "ckpt/optimizer" (zero_shard_pattern 1 2 1 1))
                   None locals_before_reshard))
           state_before_reshard
           [("exp_avg", on_cpu [1; 2; 3; 4]%Z); ("exp_avg_sq", on_cpu [5; 6; 7; 8]%Z)]
           offsets_2 "w" [(0, (0, 2)); (1, (2, 4))]).
  - reflexivity.
  - reflexivity.
  - reflexivity.
  - left; reflexivity.
  - discriminate.
  - vm_compute. reflexivity.
  - right; left; reflexivity.
Defined.

(* ------------------------------------------------------------------ *)
(** * The manifest holds strings only *)
(* ------------------------------------------------------------------ *)

Lemma pyval_nested_ind (P : pyval -> Prop) :
  (forall a, P (py_atom a)) ->
  (forall items, Forall (fun kv => P (snd kv)) items -> P (py_dict items)) ->
  (forall elements, Forall P elements -> P (py_list elements)) ->
  (forall elements, Forall P elements -> P (py_tuple elements)) ->
  forall v, P v.
Proof.
  intros Ha Hd Hl Ht.
  fix IH 1. intros [a|items|elements|elements].
  - apply Ha.
  - apply Hd. induction items as [|[k x] items IHi]; constructor; [apply IH | exact IHi].
  - apply Hl. induction elements as [|x elements IHe]; constructor; [apply IH | exact IHe].
  - apply Ht. induction elements as [|x elements IHe]; constructor; [apply IH | exact IHe].
Qed.

Lemma all_strings_dict (items : list (atom * pyval)) :
  all_strings (py_dict items)
  <-> Forall (fun kv => is_str (fst kv) /\ all_strings (snd kv)) items.
Proof.
  induction items as [|[k x] items IH].
  - split; intros; [constructor | exact I].
  - split.
    + intros (A & B & C). constructor; [split; assumption | apply IH; exact C].
    + intros F. inversion F as [|? ? [A B] C]; subst. simpl in A, B.
      split; [exact A|]. split; [exact B | apply IH; exact C].
Qed.

Lemma all_strings_elements (elements : list pyval) :
  (all_strings (py_list elements) <-> Forall all_strings elements)
  /\ (all_strings (py_tuple elements) <-> Forall all_strings elements).
Proof.
  induction elements as [|x elements [IHl IHt]].
  - repeat split; intros; constructor.
  - split; split.
    + intros (A & B). constructor; [exact A | apply IHl; exact B].
    + intros F. inversion F; subst. split; [assumption | apply IHl; assumption].
    + intros (A & B). constructor; [exact A | apply IHt; exact B].
    + intros F. inversion F; subst. split; [assumption | apply IHt; assumption].
Qed.

Lemma dict_set_keeps_strings (d : list (atom * pyval)) (k : atom) (x : pyval) :
  Forall (fun kv => is_str (fst kv) /\ all_strings (snd kv)) d ->
  is_str k -> all_strings x ->
  Forall (fun kv => is_str (fst kv) /\ all_strings (snd kv)) (dict_set d k x).
Proof.
  intros F Hk Hx. induction d as [|[k0 x0] d IH]; simpl.
  - constructor; [split; assumption | constructor].
  - inversion F as [|? ? [A B] C]; subst. simpl in A, B.
    destruct (key_eqb k0 k); constructor; auto.
Qed.

(** X25.  [convert_to_string] gives a value made of strings only: every
    key of every dictionary and every leaf of the result is a string,
    whatever integers and strings the input holds and however its
    dictionaries, lists and tuples are nested. *)
Theorem convert_to_string_all_strings (input_item : pyval) :
  all_strings (convert_to_string input_item).
Proof.
  induction input_item as [a|items IH|elements IH|elements IH] using pyval_nested_ind.
  - exact I.
  - simpl convert_to_string. apply all_strings_dict.
    assert (G : forall acc,
              Forall (fun kv => is_str (fst kv) /\ all_strings (snd kv)) acc ->
              Forall (fun kv => is_str (fst kv) /\ all_strings (snd kv))
                (fold_left (fun acc kv =>
                              dict_set acc (a_str (str_of (fst kv)))
                                       (convert_to_string (snd kv))) items acc)).
    { induction IH as [|[k x] items Hx _ IHi]; intros acc Fa; simpl; [exact Fa|].
      apply IHi. apply dict_set_keeps_strings; [exact Fa | exact I | exact Hx]. }
    apply G. constructor.
  - simpl convert_to_string. apply (proj1 (all_strings_elements _)).
    induction IH; simpl; constructor; assumption.
  - simpl convert_to_string. apply (proj2 (all_strings_elements _)).
    induction IH; simpl; constructor; assumption.
Qed.

(** Keys that print alike meet in one entry, which keeps the place of the
    first and the value of the second. *)
Example convert_to_string_merges_keys :
  convert_to_string (py_dict [(a_int 1, py_atom (a_int 10));
                              (a_str "w", py_tuple [py_atom (a_int 0); py_atom (a_int 2)]);
                              (a_str "1", py_atom (a_int 20))])
  = py_dict [(a_str "1", py_atom (a_str "20"));
             (a_str "w", py_tuple [py_atom (a_str "0"); py_atom (a_str "2")])].
Proof. reflexivity. Qed.

Lemma atom_key_ok (a b : atom) : key_eqb a b = true <-> a = b.
Proof.
  destruct a as [n|s], b as [m|t]; unfold key_eqb, atom_Key; split; intros H;
    try discriminate; try (inversion H; subst).
  - apply Z.eqb_eq in H. subst; reflexivity.
  - apply Z.eqb_refl.
  - apply String.eqb_eq in H. subst; reflexivity.
  - apply String.eqb_refl.
Qed.

(** Building a dictionary again from its own items gives the dictionary. *)
Lemma rebuild_dict {V : Type} (f : atom -> atom) (g : V -> V) (d : dict atom V) :
  Forall (fun kv => f (fst kv) = fst kv /\ g (snd kv) = snd kv) d ->
  forall acc : dict atom V,
    NoDup (keys acc ++ keys d) ->
    fold_left (fun acc kv => dict_set acc (f (fst kv)) (g (snd kv))) d acc = acc ++ d.
Proof.
  induction 1 as [|[k x] d [Hk Hx] _ IH]; intros acc N; simpl in *.
  - rewrite app_nil_r. reflexivity.
  - rewrite Hk, Hx.
    assert (Nk : ~ In k (keys acc)).
    { apply NoDup_remove_2 in N. intros I. apply N. apply in_or_app. left; exact I. }
    rewrite (dict_set_fresh atom_key_ok acc k x Nk).
    rewrite IH.
    + rewrite <- app_assoc. reflexivity.
    + unfold keys in *. rewrite map_app, <- app_assoc. simpl. exact N.
Qed.

Lemma converted_dict (items : list (atom * pyval)) :
  forall acc : dict atom pyval,
    dict_wf acc ->
    Forall (fun kv => is_str (fst kv)
                      /\ convert_to_string (snd kv) = snd kv) acc ->
    Forall (fun kv => convert_to_string (convert_to_string (snd kv))
                      = convert_to_string (snd kv)) items ->
    let d := fold_left (fun acc kv =>
                          dict_set acc (a_str (str_of (fst kv)))
                                   (convert_to_string (snd kv))) items acc in
    dict_wf d
    /\ Forall (fun kv => is_str (fst kv) /\ convert_to_string (snd kv) = snd kv) d.
Proof.
  induction items as [|[k x] items IH]; intros acc W F H; simpl in *; [auto|].
  inversion H as [|? ? Hx Hi]; subst. simpl in Hx.
  apply IH; [apply (dict_set_wf atom_key_ok); exact W | | exact Hi].
  clear IH Hi H W.
  induction acc as [|[k0 x0] acc IHa]; simpl.
  - constructor; [split; [exact I | exact Hx] | constructor].
  - inversion F as [|? ? [A B] C]; subst. simpl in A, B.
    destruct (key_eqb k0 (a_str (str_of k))); constructor; auto.
Qed.

(** X26.  [convert_to_string] is idempotent: converting a converted value
    changes nothing, dictionaries with keys that print alike included. *)
Theorem convert_to_string_idempotent (input_item : pyval) :
  convert_to_string (convert_to_string input_item) = convert_to_string input_item.
Proof.
  induction input_item as [a|items IH|elements IH|elements IH] using pyval_nested_ind.
  - reflexivity.
  - destruct (converted_dict items [] (NoDup_nil _) (Forall_nil _) IH) as [W F].
    cbv zeta in W, F.
    change (convert_to_string (py_dict items))
      with (py_dict (fold_left (fun acc kv =>
                                  dict_set acc (a_str (str_of (fst kv)))
                                           (convert_to_string (snd kv))) items [])).
    remember (fold_left (fun acc kv =>
                           dict_set acc (a_str (str_of (fst kv)))
                                    (convert_to_string (snd kv))) items []) as d eqn:Ed.
    clear Ed. simpl convert_to_string. f_equal.
    apply (rebuild_dict (fun k => a_str (str_of k)) convert_to_string d).
    + rewrite Forall_forall in *. intros [k x] I. destruct (F _ I) as [A B]. simpl in *.
      split; [destruct k; [contradiction | reflexivity] | exact B].
    + exact W.
  - simpl. f_equal. rewrite map_map.
    induction IH as [|x l Hx _ IHl]; simpl; [reflexivity | rewrite Hx, IHl; reflexivity].
  - simpl. f_equal. rewrite map_map.
    induction IH as [|x l Hx _ IHl]; simpl; [reflexivity | rewrite Hx, IHl; reflexivity].
Qed.
